(** * Conflict engine of the cinema time-slot ("turno") scheduler

    Shallow embedding of
      - [src/utils/turnoValidations.ts]
            (validateTurnoDuration, validateTurnoOverlap, getDisponibilidadSala)
      - [src/controllers/turnosController.ts]
            (getTurnos, getTurnoById, createTurno, updateTurno, deleteTurno,
             createMultipleTurnos)
      - [src/controllers/peliculasController.ts]  (deletePelicula, bulkCreateTurnos)
      - [src/middleware/errorHandler.ts]  (createError, errorHandler)
      - the migration [turnos_no_overlap_exclusion] (PostgreSQL EXCLUDE constraint)

    Timestamps are JavaScript time values: integer milliseconds since the
    epoch, or NaN for an "Invalid Date"; the minutes of a window are
    computed as the code does, on doubles.  The table of turnos is a list
    of rows in insertion order; effects (ambient clock, table writes,
    thrown errors) are threaded through a small state-and-exception
    monad. *)

From Stdlib Require Import ZArith List String Ascii Bool Lia Arith.
From Stdlib Require Import DecimalString QArith Sorted Permutation.
Import ListNotations.
Local Open Scope string_scope.
Local Open Scope Z_scope.

(* ================================================================== *)
(** ** JavaScript values used by the code *)

(** A [Date] object: its time value is NaN ([InvalidDate]) or an integer
    number of milliseconds. *)
Inductive JSDate : Type :=
| InvalidDate
| Fecha (ms : Z).

(** Largest magnitude of a valid time value (ECMAScript TimeClip). *)
Definition maxTimeValue : Z := 8640000000000000.

(** [new Date(v)] for a numeric [v]. *)
Definition newDate (v : Z) : JSDate :=
  if Z.abs v <=? maxTimeValue then Fecha v else InvalidDate.

(** [isNaN(d.getTime())] *)
Definition isNaN_getTime (d : JSDate) : bool :=
  match d with InvalidDate => true | Fecha _ => false end.

(** Relational operators on dates compare time values; any comparison with
    NaN is false. *)
Definition date_le (a b : JSDate) : bool :=
  match a, b with Fecha x, Fecha y => x <=? y | _, _ => false end.

Definition date_lt (a b : JSDate) : bool :=
  match a, b with Fecha x, Fecha y => x <? y | _, _ => false end.

(** Template-literal interpolation of an integral number (all its digits
    are printed while its magnitude is below 10^21). *)
Definition numero_a_texto (z : Z) : string :=
  NilZero.string_of_int (Z.to_int z).

(** *** Numbers are doubles

    JavaScript numbers are IEEE-754 doubles: 53-bit significand, results
    rounded to the nearest double, ties to the even significand.  The
    code computes on integers, so a double is written here as the
    rational it denotes. *)

(** Nearest integer to [a / b] for [0 <= a] and [0 < b], ties to the
    even one. *)
Definition redondeo_par (a b : Z) : Z :=
  let q := a / b in
  let r := a mod b in
  if 2 * r <? b then q
  else if b <? 2 * r then q + 1
  else if Z.even q then q else q + 1.

(** The double nearest to the integer [n]: itself up to 2^53 in
    magnitude, and beyond that the nearest multiple of
    [2 ^ (log2 |n| - 52)]. *)
Definition doble_de_entero (n : Z) : Z :=
  if Z.abs n <=? 2 ^ 53 then n
  else
    let e := Z.log2 (Z.abs n) - 52 in
    Z.sgn n * (redondeo_par (Z.abs n) (2 ^ e) * 2 ^ e).

(** Significand [m] and exponent [e] of the double nearest to [a / b],
    for [0 < a] and [0 < b]: its value is [m * 2 ^ e], with
    [2 ^ 52 <= m <= 2 ^ 53]. *)
Definition cociente_doble (a b : Z) : Z * Z :=
  let e0 := Z.log2 a - Z.log2 b - 52 in
  let num e := a * 2 ^ Z.max 0 (- e) in
  let den e := b * 2 ^ Z.max 0 e in
  let e := if num e0 <? 2 ^ 52 * den e0 then e0 - 1 else e0 in
  (redondeo_par (num e) (den e), e).

(** [Math.floor(x / c)] for an integral double [x] and an integer
    [c > 0], the quotient being rounded to a double before the floor. *)
Definition piso_cociente (x c : Z) : Z :=
  if x =? 0 then 0
  else if 0 <? x then
    let '(m, e) := cociente_doble x c in
    if 0 <=? e then m * 2 ^ e else m / 2 ^ (- e)
  else
    let '(m, e) := cociente_doble (- x) c in
    if 0 <=? e then - (m * 2 ^ e) else - ((m + 2 ^ (- e) - 1) / 2 ^ (- e)).

(** The double-quote character, as a one-character text. *)
Definition comilla : string := String (ascii_of_nat 34) EmptyString.

(** [s.includes(sub)] *)
Fixpoint includes (s sub : string) : bool :=
  if String.prefix sub s then true
  else match s with
       | EmptyString => false
       | String _ s' => includes s' sub
       end.

(** [a || b] on an optional string: undefined and the empty string are falsy. *)
Definition o_string (a : option string) (b : string) : string :=
  match a with
  | Some s => if String.eqb s EmptyString then b else s
  | None => b
  end.

(* ================================================================== *)
(** ** Data model *)

Inductive EstadoTurno : Type := ACTIVO | INACTIVO | CANCELADO.
Inductive Idioma : Type := DOBLADO | SUBTITULADO.
Inductive Formato : Type := DOS_D | TRES_D | IMAX.

Definition estado_eqb (a b : EstadoTurno) : bool :=
  match a, b with
  | ACTIVO, ACTIVO | INACTIVO, INACTIVO | CANCELADO, CANCELADO => true
  | _, _ => false
  end.

(** Row of table [peliculas] (the columns the scheduler reads). *)
Record Pelicula : Type := {
  pel_id : string;
  titulo : string;
  duracionMin : Z;
  pel_eliminadoEn : option Z
}.

(** Row of table [turnos].  Row identifiers are generated by the storage
    layer; the model numbers the rows in insertion order. *)
Record Turno : Type := {
  id : nat;
  peliculaId : string;
  sala : string;
  inicio : Z;
  fin : Z;
  precio : Q;
  idioma : Idioma;
  formato : Formato;
  aforo : Z;
  estado : EstadoTurno;
  eliminadoEn : option Z;
  actualizadoEn : option Z
}.

(** Body of a create request, and an element of the [turnos] array of a
    bulk request that is an object with the keys of a turno, each of its
    type.  [in_inicio] is [new Date(body.inicio)]; [in_fin] is the end
    supplied by the caller, if any.  The bulk endpoints spread the element
    into the [data] of the insert, so further keys of a row that it
    carries ([id], [eliminadoEn], ...) would reach the storage too; such
    elements are outside this model, and the statements about rows whose
    [eliminadoEn] is set are made for rows soft-deleted by [deleteTurno]. *)
Record TurnoInput : Type := {
  in_peliculaId : string;
  in_sala : string;
  in_inicio : JSDate;
  in_fin : option JSDate;
  in_precio : Q;
  in_idioma : Idioma;
  in_formato : Formato;
  in_aforo : Z;
  in_estado : option EstadoTurno
}.

(** Body of an update request (every field optional). *)
Record TurnoUpdate : Type := {
  up_peliculaId : option string;
  up_sala : option string;
  up_inicio : option JSDate;
  up_fin : option JSDate;
  up_precio : option Q;
  up_idioma : option Idioma;
  up_formato : option Formato;
  up_aforo : option Z;
  up_estado : option EstadoTurno
}.

(* ================================================================== *)
(** ** Errors and the effect monad *)

(** A JavaScript [Error] as the code inspects it: [ApiError] adds the
    optional [statusCode] and [code]; errors raised by the database client
    carry at most a [code]. *)
Record ErrorJS : Type := {
  e_statusCode : option Z;
  e_code : option string;
  e_message : string
}.

(** [createError(statusCode, message, code)] *)
Definition createError (statusCode : Z) (message code : string) : ErrorJS :=
  {| e_statusCode := Some statusCode; e_code := Some code; e_message := message |}.

(** The host of one request: the catalogue of movies (never written by
    this controller), the readings of the system clock, one per
    [new Date()], and the locale formatting of the platform. *)
Record Entorno : Type := {
  peliculas : list Pelicula;
  reloj : nat -> Z;
  toLocaleString_esES : Z -> string
}.

(** Mutable state: the table of turnos and the number of clock readings
    taken so far. *)
Record Mundo : Type := {
  tabla : list Turno;
  lecturas : nat
}.

Inductive Resultado (A : Type) : Type :=
| Normal (a : A)
| Lanza (e : ErrorJS).
Arguments Normal {A} a.
Arguments Lanza {A} e.

Definition M (A : Type) : Type := Entorno -> Mundo -> Resultado A * Mundo.

Definition ret {A} (a : A) : M A := fun _ w => (Normal a, w).

Definition bind {A B} (m : M A) (k : A -> M B) : M B :=
  fun env w =>
    match m env w with
    | (Normal a, w') => k a env w'
    | (Lanza e, w') => (Lanza e, w')
    end.

Definition throw {A} (e : ErrorJS) : M A := fun _ w => (Lanza e, w).

(** [try { m } catch (e) { h e }] *)
Definition try_catch {A} (m : M A) (h : ErrorJS -> M A) : M A :=
  fun env w =>
    match m env w with
    | (Normal a, w') => (Normal a, w')
    | (Lanza e, w') => h e env w'
    end.

Declare Scope m_scope.
Delimit Scope m_scope with m.
Notation "x <- c1 ;; c2" := (bind c1 (fun x => c2))
  (at level 61, c1 at next level, right associativity) : m_scope.
Notation "c1 ;;; c2" := (bind c1 (fun _ => c2))
  (at level 61, right associativity) : m_scope.
Local Open Scope m_scope.

(** [new Date()] : the next reading of the system clock, always a valid
    time value. *)
Definition newDateNow : M JSDate :=
  fun env w =>
    (Normal (Fecha (reloj env (lecturas w))),
     {| tabla := tabla w; lecturas := S (lecturas w) |}).

Definition leer_peliculas : M (list Pelicula) :=
  fun env w => (Normal (peliculas env), w).

Definition leer_tabla : M (list Turno) :=
  fun _ w => (Normal (tabla w), w).

Definition escribir_tabla (t : list Turno) : M unit :=
  fun _ w => (Normal tt, {| tabla := t; lecturas := lecturas w |}).

Definition formato_local (d : Z) : M string :=
  fun env w => (Normal (toLocaleString_esES env d), w).

(* ================================================================== *)
(** ** turnoValidations.ts *)

(** [{ valido: boolean; mensaje?: string }] *)
Record Validacion : Type := {
  valido : bool;
  mensaje : option string
}.

Definition es_valido : Validacion := {| valido := true; mensaje := None |}.
Definition no_valido (m : string) : Validacion :=
  {| valido := false; mensaje := Some m |}.

Definition MSG_FECHAS_INVALIDAS : string := "Fechas de inicio o fin inválidas".
Definition MSG_INVALID_RANGE : string :=
  "La fecha de fin debe ser posterior a la fecha de inicio".
Definition MSG_IN_THE_PAST : string :=
  "La fecha y hora de inicio no puede ser en el pasado".
Definition MSG_TOO_LONG : string :=
  "La duración del turno no puede exceder 4 horas".
Definition MSG_TOO_SHORT (duracionTurnoMin duracionMinimaRequerida duracionPeliculaMin : Z)
  : string :=
  "La duración del turno (" ++ numero_a_texto duracionTurnoMin
  ++ " min) debe ser al menos " ++ numero_a_texto duracionMinimaRequerida
  ++ " min (película: " ++ numero_a_texto duracionPeliculaMin
  ++ " min + 15 min de buffer)".

(** [Math.floor((fin.getTime() - inicio.getTime()) / (1000 * 60))]: the
    difference and the quotient are doubles.  Two time values can be more
    than 2^53 ms apart, and then the difference is rounded. *)
Definition duracionTurnoMin_de (inicio_ms fin_ms : Z) : Z :=
  piso_cociente (doble_de_entero (fin_ms - inicio_ms)) (1000 * 60).

(** [validateTurnoDuration(inicio, fin, duracionPeliculaMin)].  The
    validation instant is read from the system clock, after the first two
    checks have passed. *)
Definition validateTurnoDuration (inicio fin : JSDate) (duracionPeliculaMin : Z)
  : M Validacion :=
  try_catch
    (if isNaN_getTime inicio || isNaN_getTime fin then
       ret (no_valido MSG_FECHAS_INVALIDAS)
     else if date_le fin inicio then
       ret (no_valido MSG_INVALID_RANGE)
     else
       ahora <- newDateNow ;;
       if date_lt inicio ahora then
         ret (no_valido MSG_IN_THE_PAST)
       else
         match inicio, fin with
         | Fecha i, Fecha f =>
             let duracionTurnoMin := duracionTurnoMin_de i f in
             let duracionMinimaRequerida := doble_de_entero (duracionPeliculaMin + 15) in
             if duracionTurnoMin <? duracionMinimaRequerida then
               ret (no_valido (MSG_TOO_SHORT duracionTurnoMin
                                 duracionMinimaRequerida duracionPeliculaMin))
             else if duracionTurnoMin >? 240 then
               ret (no_valido MSG_TOO_LONG)
             else ret es_valido
         | _, _ => ret es_valido
         end)
    (fun _ => ret (no_valido "Error interno al validar la duración del turno")).

(** The [OR] of the four cases of the [where] clause of
    [validateTurnoOverlap], for a candidate [[s1, e1)] and a stored row
    [[s2, e2)]. *)
Definition cuatro_casos (s1 e1 s2 e2 : Z) : bool :=
  (* Caso 1: el nuevo turno comienza durante un turno existente *)
  ((s2 <=? s1) && (e2 >? s1))
  (* Caso 2: el nuevo turno termina durante un turno existente *)
  || ((s2 <? e1) && (e2 >=? e1))
  (* Caso 3: el nuevo turno contiene completamente a un turno existente *)
  || ((s2 >=? s1) && (e2 <=? e1))
  (* Caso 4: un turno existente contiene completamente al nuevo turno *)
  || ((s2 <=? s1) && (e2 >=? e1)).

(** The single half-open intersection test of the specification. *)
Definition interseca (s1 e1 s2 e2 : Z) : bool := (s1 <? e2) && (s2 <? e1).

Definition es_null {A} (o : option A) : bool :=
  match o with None => true | Some _ => false end.

Definition es_some {A} (o : option A) : bool :=
  match o with Some _ => true | None => false end.

Definition en_activo_inactivo (e : EstadoTurno) : bool :=
  estado_eqb e ACTIVO || estado_eqb e INACTIVO.

(** The complete [where] object of [validateTurnoOverlap]. *)
Definition where_solapamiento (sala_ : string) (i f : Z) (turnoIdExcluir : option nat)
           (r : Turno) : bool :=
  String.eqb (sala r) sala_
  && en_activo_inactivo (estado r)
  && es_null (eliminadoEn r)
  && cuatro_casos i f (inicio r) (fin r)
  && match turnoIdExcluir with
     | Some x => negb (Nat.eqb (id r) x)
     | None => true
     end.

(** Error of the database client for a value it cannot send (Invalid Date). *)
Definition ERR_CLIENT_VALIDATION : ErrorJS :=
  {| e_statusCode := None; e_code := None;
     e_message := "Invalid value provided. Expected DateTime, provided Invalid Date." |}.

(** [TypeError] of reading a property of [null]. *)
Definition ERR_TYPE_NULL : ErrorJS :=
  {| e_statusCode := None; e_code := None;
     e_message := "Cannot read properties of null" |}.

(** [TypeError] of [turnoData.peliculaId] when [turnoData] is [null]. *)
Definition ERR_TYPE_NULL_ITEM : ErrorJS :=
  {| e_statusCode := None; e_code := None;
     e_message := "Cannot read properties of null (reading 'peliculaId')" |}.

(** The [pelicula] relation of a turno row (no soft-delete filter). *)
Definition pelicula_de (ps : list Pelicula) (pid : string) : option Pelicula :=
  find (fun p => String.eqb (pel_id p) pid) ps.

Definition MSG_CONFLICTO (sala_ titulo_ inicioConflicto finConflicto : string) : string :=
  "Conflicto de horario en sala " ++ sala_ ++ ". Ya existe el turno " ++ comilla
  ++ titulo_ ++ comilla ++ " de " ++ inicioConflicto ++ " a " ++ finConflicto.

(** [validateTurnoOverlap(sala, inicio, fin, turnoIdExcluir?)]: rows are
    returned in table order and the first one is named in the message. *)
Definition validateTurnoOverlap (sala_ : string) (inicioDate finDate : JSDate)
           (turnoIdExcluir : option nat) : M Validacion :=
  try_catch
    (match inicioDate, finDate with
     | Fecha i, Fecha f =>
         t <- leer_tabla ;;
         let turnosSolapados := filter (where_solapamiento sala_ i f turnoIdExcluir) t in
         match turnosSolapados with
         | turnoConflicto :: _ =>
             ps <- leer_peliculas ;;
             match pelicula_de ps (peliculaId turnoConflicto) with
             | Some p =>
                 inicioConflicto <- formato_local (inicio turnoConflicto) ;;
                 finConflicto <- formato_local (fin turnoConflicto) ;;
                 ret (no_valido (MSG_CONFLICTO sala_ (titulo p) inicioConflicto finConflicto))
             | None => throw ERR_TYPE_NULL
             end
         | [] => ret es_valido
         end
     | _, _ => throw ERR_CLIENT_VALIDATION
     end)
    (fun _ => ret (no_valido "Error interno al validar el solapamiento de turnos")).

(* ================================================================== *)
(** ** Storage layer: table [turnos] with its exclusion constraint *)

(** Value of [tstzrange(lo, hi)], bounds [[lo, hi)]. *)
Inductive Rango : Type :=
| RangoVacio
| RangoSemiabierto (lo hi : Z).

(** [tstzrange] raises an error when the lower bound exceeds the upper one. *)
Definition tstzrange (lo hi : Z) : option Rango :=
  if hi <? lo then None
  else if lo =? hi then Some RangoVacio
  else Some (RangoSemiabierto lo hi).

(** The range operator [&&]. *)
Definition rango_solapa (a b : Rango) : bool :=
  match a, b with
  | RangoSemiabierto l1 h1, RangoSemiabierto l2 h2 => (l1 <? h2) && (l2 <? h1)
  | _, _ => false
  end.

(** [EXCLUDE USING GIST (sala WITH =, tstzrange(inicio, fin) WITH &&)]:
    row [t] conflicts with row [r].  The constraint has no [WHERE]
    predicate: rows of every [estado], soft-deleted or not, take part. *)
Definition conflicto_exclusion (t r : Turno) : bool :=
  String.eqb (sala r) (sala t)
  && match tstzrange (inicio t) (fin t), tstzrange (inicio r) (fin r) with
     | Some a, Some b => rango_solapa a b
     | _, _ => false
     end.

Definition CONSTRAINT_NAME : string := "turnos_no_overlap_exclusion".

Definition ERR_EXCLUSION : ErrorJS :=
  {| e_statusCode := None; e_code := None;
     e_message := "conflicting key value violates exclusion constraint "
                  ++ comilla ++ CONSTRAINT_NAME ++ comilla |}.

Definition ERR_RANGE_BOUNDS : ErrorJS :=
  {| e_statusCode := None; e_code := None;
     e_message := "range lower bound must be less than or equal to range upper bound" |}.

Definition ERR_FOREIGN_KEY : ErrorJS :=
  {| e_statusCode := None; e_code := Some "P2003";
     e_message := "Foreign key constraint failed on the field: peliculaId" |}.

Definition ERR_RECORD_NOT_FOUND : ErrorJS :=
  {| e_statusCode := None; e_code := Some "P2025";
     e_message := "Record to update not found." |}.

(** Checks made by the database on the new version [t] of a row against
    the other rows [otros]: the range expression of the constraint, the
    exclusion constraint, then, when [peliculaId] is written ([fk]), the
    foreign key to [peliculas]. *)
Definition comprobar_fila (fk : bool) (t : Turno) (otros : list Turno) : M unit :=
  match tstzrange (inicio t) (fin t) with
  | None => throw ERR_RANGE_BOUNDS
  | Some _ =>
      if existsb (conflicto_exclusion t) otros then throw ERR_EXCLUSION
      else if fk then
        ps <- leer_peliculas ;;
        match pelicula_de ps (peliculaId t) with
        | None => throw ERR_FOREIGN_KEY
        | Some _ => ret tt
        end
      else ret tt
  end.

(** The [data] object of [prisma.turno.create]. *)
Record TurnoCreateData : Type := {
  cd_peliculaId : string;
  cd_sala : string;
  cd_inicio : JSDate;
  cd_fin : JSDate;
  cd_precio : Q;
  cd_idioma : Idioma;
  cd_formato : Formato;
  cd_aforo : Z;
  cd_estado : EstadoTurno
}.

(** The row inserted for [data], with the identifier and the defaults
    given by the storage layer. *)
Definition fila_nueva (d : TurnoCreateData) (i f : Z) (nuevo_id : nat) : Turno :=
  {| id := nuevo_id; peliculaId := cd_peliculaId d; sala := cd_sala d;
     inicio := i; fin := f; precio := cd_precio d;
     idioma := cd_idioma d; formato := cd_formato d;
     aforo := cd_aforo d; estado := cd_estado d;
     eliminadoEn := None; actualizadoEn := None |}.

(** [prisma.turno.create({ data })] *)
Definition prisma_turno_create (d : TurnoCreateData) : M Turno :=
  match cd_inicio d, cd_fin d with
  | Fecha i, Fecha f =>
      t <- leer_tabla ;;
      let fila := fila_nueva d i f (List.length t) in
      comprobar_fila true fila t ;;;
      escribir_tabla (t ++ [fila])%list ;;;
      ret fila
  | _, _ => throw ERR_CLIENT_VALIDATION
  end.

(** The [data] object of [prisma.turno.update]: the fields of the request
    body plus the two timestamps the controller sets itself. *)
Record TurnoUpdateData : Type := {
  ud_campos : TurnoUpdate;
  ud_eliminadoEn : option JSDate;
  ud_actualizadoEn : option JSDate
}.

Definition fecha_valida (o : option JSDate) : bool :=
  match o with Some InvalidDate => false | _ => true end.

Definition o_else {A} (o : option A) (d : A) : A :=
  match o with Some a => a | None => d end.

Definition o_ms (o : option JSDate) (d : Z) : Z :=
  match o with Some (Fecha z) => z | _ => d end.

Definition o_ms_opt (o : option JSDate) (d : option Z) : option Z :=
  match o with Some (Fecha z) => Some z | _ => d end.

(** The row after the assignment of the fields present in [d]. *)
Definition aplicar_update (d : TurnoUpdateData) (r : Turno) : Turno :=
  let u := ud_campos d in
  {| id := id r;
     peliculaId := o_else (up_peliculaId u) (peliculaId r);
     sala := o_else (up_sala u) (sala r);
     inicio := o_ms (up_inicio u) (inicio r);
     fin := o_ms (up_fin u) (fin r);
     precio := o_else (up_precio u) (precio r);
     idioma := o_else (up_idioma u) (idioma r);
     formato := o_else (up_formato u) (formato r);
     aforo := o_else (up_aforo u) (aforo r);
     estado := o_else (up_estado u) (estado r);
     eliminadoEn := o_ms_opt (ud_eliminadoEn d) (eliminadoEn r);
     actualizadoEn := o_ms_opt (ud_actualizadoEn d) (actualizadoEn r) |}.

Definition reemplazar (i : nat) (nueva : Turno) (t : list Turno) : list Turno :=
  map (fun r => if Nat.eqb (id r) i then nueva else r) t.

(** [prisma.turno.update({ where: { id }, data })] *)
Definition prisma_turno_update (i : nat) (d : TurnoUpdateData) : M Turno :=
  if fecha_valida (up_inicio (ud_campos d)) && fecha_valida (up_fin (ud_campos d))
     && fecha_valida (ud_eliminadoEn d) && fecha_valida (ud_actualizadoEn d)
  then
    t <- leer_tabla ;;
    match find (fun r => Nat.eqb (id r) i) t with
    | None => throw ERR_RECORD_NOT_FOUND
    | Some r =>
        let nueva := aplicar_update d r in
        comprobar_fila (es_some (up_peliculaId (ud_campos d))) nueva
          (filter (fun x => negb (Nat.eqb (id x) i)) t) ;;;
        escribir_tabla (reemplazar i nueva t) ;;;
        ret nueva
    end
  else throw ERR_CLIENT_VALIDATION.

(** [prisma.turno.findFirst({ where: { id, eliminadoEn: null } })] *)
Definition turno_findFirst (i : nat) : M (option Turno) :=
  t <- leer_tabla ;;
  ret (find (fun r => Nat.eqb (id r) i && es_null (eliminadoEn r)) t).

(** [prisma.pelicula.findFirst({ where: { id, eliminadoEn: null } })] *)
Definition pelicula_findFirst (pid : string) : M (option Pelicula) :=
  ps <- leer_peliculas ;;
  ret (find (fun p => String.eqb (pel_id p) pid && es_null (pel_eliminadoEn p)) ps).

(* ================================================================== *)
(** ** errorHandler.ts and the HTTP responses *)

Record ErrorItem : Type := {
  ei_index : nat;
  ei_error : option string;
  ei_data : TurnoInput
}.

Inductive Respuesta : Type :=
| RespTurno (status : Z) (data : Turno) (message : string)
| RespMensaje (status : Z) (message : string)
| RespBulk (status : Z) (turnosCreados : list Turno) (errores : list ErrorItem)
           (total exitosos fallidos : nat) (message : string)
| RespError (status : Z) (code : string) (message : string).

(** [errorHandler]: the status, code and message sent for an error handed
    to [next]. *)
Definition errorHandler (error : ErrorJS) : Respuesta :=
  let statusCode :=
    match e_statusCode error with
    | Some c => if c =? 0 then 500 else c
    | None => 500
    end in
  let code := o_string (e_code error) "INTERNAL_SERVER_ERROR" in
  let message := o_string (Some (e_message error)) "Error interno del servidor" in
  RespError statusCode code message.

Definition next (error : ErrorJS) : M Respuesta := ret (errorHandler error).

(** [if (c) throw e;] *)
Definition throw_if (c : bool) (e : ErrorJS) : M unit :=
  if c then throw e else ret tt.

(** [v.mensaje!] *)
Definition mensaje_de (v : Validacion) : string := o_else (mensaje v) EmptyString.

(** The test of the [catch] blocks for a storage-level conflict. *)
Definition es_conflicto_db (error : ErrorJS) : bool :=
  match e_code error with
  | Some c => String.eqb c "P2002"
  | None => false
  end
  || includes (e_message error) CONSTRAINT_NAME.

(* ================================================================== *)
(** ** turnosController.ts *)

(** [new Date(inicioDate.getTime() + (duracionMin + 15) * 60 * 1000)] *)
Definition calcular_fin (inicioDate : JSDate) (duracionMin_ : Z) : JSDate :=
  match inicioDate with
  | Fecha i => newDate (i + (duracionMin_ + 15) * 60 * 1000)
  | InvalidDate => InvalidDate
  end.

(** [createTurno]: POST /api/turnos.  The end supplied by the caller, if
    any, is not among the fields read from the body. *)
Definition createTurno (body : TurnoInput) : M Respuesta :=
  try_catch
    (pelicula <- pelicula_findFirst (in_peliculaId body) ;;
     match pelicula with
     | None => throw (createError 404 "Película no encontrada" "PELICULA_NOT_FOUND")
     | Some pelicula =>
         let inicioDate := in_inicio body in
         (* Calcular fin automáticamente: duración de película + 15 minutos de buffer *)
         let finDate := calcular_fin inicioDate (duracionMin pelicula) in
         duracionValidation <-
           validateTurnoDuration inicioDate finDate (duracionMin pelicula) ;;
         throw_if (negb (valido duracionValidation))
           (createError 400 (mensaje_de duracionValidation) "INVALID_DURATION") ;;;
         overlapValidation <-
           validateTurnoOverlap (in_sala body) inicioDate finDate None ;;
         throw_if (negb (valido overlapValidation))
           (createError 409 (mensaje_de overlapValidation) "SCHEDULE_CONFLICT") ;;;
         turno <- prisma_turno_create
                    {| cd_peliculaId := in_peliculaId body; cd_sala := in_sala body;
                       cd_inicio := inicioDate; cd_fin := finDate;
                       cd_precio := in_precio body; cd_idioma := in_idioma body;
                       cd_formato := in_formato body; cd_aforo := in_aforo body;
                       cd_estado := o_else (in_estado body) ACTIVO |} ;;
         ret (RespTurno 201 turno "Turno creado exitosamente")
     end)
    (fun error =>
       (* Map database constraint / conflict to a 409 response *)
       if es_conflicto_db error then
         next (createError 409
                 "Conflicto de horario: existe un turno solapado en la misma sala"
                 "SCHEDULE_CONFLICT")
       else next error).

(** [updateTurno]: PUT /api/turnos/:id.  Validation runs only under the
    guard [updateData.inicio || updateData.fin]. *)
Definition updateTurno (i : nat) (updateData : TurnoUpdate) : M Respuesta :=
  try_catch
    (turnoExistente <- turno_findFirst i ;;
     match turnoExistente with
     | None => throw (createError 404 "Turno no encontrado" "TURNO_NOT_FOUND")
     | Some turnoExistente =>
         updateData' <-
           (* Si se actualiza horario, validar *)
           (if es_some (up_inicio updateData) || es_some (up_fin updateData) then
              let inicioDate := o_else (up_inicio updateData) (Fecha (inicio turnoExistente)) in
              let finDate := o_else (up_fin updateData) (Fecha (fin turnoExistente)) in
              ps <- leer_peliculas ;;
              match pelicula_de ps (peliculaId turnoExistente) with
              | None => throw ERR_TYPE_NULL
              | Some pelicula =>
                  duracionValidation <-
                    validateTurnoDuration inicioDate finDate (duracionMin pelicula) ;;
                  throw_if (negb (valido duracionValidation))
                    (createError 400 (mensaje_de duracionValidation) "INVALID_DURATION") ;;;
                  (* Validar solapamiento (excluyendo el turno actual) *)
                  let sala_ := o_string (up_sala updateData) (sala turnoExistente) in
                  overlapValidation <-
                    validateTurnoOverlap sala_ inicioDate finDate (Some i) ;;
                  throw_if (negb (valido overlapValidation))
                    (createError 409 (mensaje_de overlapValidation) "SCHEDULE_CONFLICT") ;;;
                  ret {| up_peliculaId := up_peliculaId updateData;
                         up_sala := up_sala updateData;
                         up_inicio := Some inicioDate;
                         up_fin := Some finDate;
                         up_precio := up_precio updateData;
                         up_idioma := up_idioma updateData;
                         up_formato := up_formato updateData;
                         up_aforo := up_aforo updateData;
                         up_estado := up_estado updateData |}
              end
            else ret updateData) ;;
         ahora <- newDateNow ;;
         turnoActualizado <-
           prisma_turno_update i
             {| ud_campos := updateData'; ud_eliminadoEn := None;
                ud_actualizadoEn := Some ahora |} ;;
         ret (RespTurno 200 turnoActualizado "Turno actualizado exitosamente")
     end)
    (fun error => next error).

(** The [data] of the soft delete: [{ eliminadoEn: new Date(), estado: 'CANCELADO' }]. *)
Definition datos_borrado (ahora : JSDate) : TurnoUpdateData :=
  {| ud_campos :=
       {| up_peliculaId := None; up_sala := None; up_inicio := None; up_fin := None;
          up_precio := None; up_idioma := None; up_formato := None; up_aforo := None;
          up_estado := Some CANCELADO |};
     ud_eliminadoEn := Some ahora;
     ud_actualizadoEn := None |}.

(** [deleteTurno]: DELETE /api/turnos/:id (soft delete). *)
Definition deleteTurno (i : nat) : M Respuesta :=
  try_catch
    (turno <- turno_findFirst i ;;
     match turno with
     | None => throw (createError 404 "Turno no encontrado" "TURNO_NOT_FOUND")
     | Some _ =>
         ahora <- newDateNow ;;
         prisma_turno_update i (datos_borrado ahora) ;;;
         ret (RespMensaje 200 "Turno eliminado exitosamente")
     end)
    (fun error => next error).

(** The two arrays [turnosCreados] and [errores] filled by the bulk loop. *)
Definition Acumulado : Type := (list Turno * list ErrorItem)%type.

Definition push_error (acc : Acumulado) (index : nat) (error : option string)
           (data : TurnoInput) : Acumulado :=
  (fst acc, (snd acc ++ [{| ei_index := index; ei_error := error; ei_data := data |}])%list).

Definition push_creado (acc : Acumulado) (created : Turno) : Acumulado :=
  ((fst acc ++ [created])%list, snd acc).

(** [processTurnoItem(turnoData, index)] of [createMultipleTurnos].  The
    route has no validation middleware, so an element of the array is
    whatever the request carries: [None] is a [null] element, on which the
    first property read throws outside the inner [try]; [Some] is an
    object with the fields of a turno.  The end is the one supplied in the
    item. *)
Definition processTurnoItem (turnoData : option TurnoInput) (index : nat)
           (acc : Acumulado) : M Acumulado :=
  match turnoData with
  | None => throw ERR_TYPE_NULL_ITEM
  | Some turnoData =>
  pelicula <- pelicula_findFirst (in_peliculaId turnoData) ;;
  match pelicula with
  | None => ret (push_error acc index (Some "Película no encontrada") turnoData)
  | Some pelicula =>
      let inicioDate := in_inicio turnoData in
      let finDate := o_else (in_fin turnoData) InvalidDate in
      duracionValidation <-
        validateTurnoDuration inicioDate finDate (duracionMin pelicula) ;;
      if negb (valido duracionValidation) then
        ret (push_error acc index (mensaje duracionValidation) turnoData)
      else
        overlapValidation <-
          validateTurnoOverlap (in_sala turnoData) inicioDate finDate None ;;
        if negb (valido overlapValidation) then
          ret (push_error acc index (mensaje overlapValidation) turnoData)
        else
          try_catch
            (created <- prisma_turno_create
                          {| cd_peliculaId := in_peliculaId turnoData;
                             cd_sala := in_sala turnoData;
                             cd_inicio := inicioDate; cd_fin := finDate;
                             cd_precio := in_precio turnoData;
                             cd_idioma := in_idioma turnoData;
                             cd_formato := in_formato turnoData;
                             cd_aforo := in_aforo turnoData;
                             cd_estado := o_else (in_estado turnoData) ACTIVO |} ;;
             ret (push_creado acc created))
            (fun err =>
               if es_conflicto_db err then
                 ret (push_error acc index
                        (Some "Conflicto de horario con otro turno existente (DB constraint)")
                        turnoData)
               else ret (push_error acc index (Some (e_message err)) turnoData))
  end
  end.

(** [for (let i = 0; i < turnos.length; i++) await processTurnoItem(turnos[i], i)],
    started at index [i]. *)
Fixpoint bucle_turnos (turnos : list (option TurnoInput)) (i : nat) (acc : Acumulado)
  : M Acumulado :=
  match turnos with
  | [] => ret acc
  | turnoData :: resto =>
      acc' <- processTurnoItem turnoData i acc ;;
      bucle_turnos resto (S i) acc'
  end.

(** [createMultipleTurnos]: POST /api/turnos/bulk. *)
Definition createMultipleTurnos (turnos : list (option TurnoInput)) : M Respuesta :=
  try_catch
    (throw_if (Nat.eqb (List.length turnos) 0)
       (createError 400 "Se requiere un array de turnos" "INVALID_INPUT") ;;;
     throw_if (Nat.ltb 50 (List.length turnos))
       (createError 400 "Máximo 50 turnos por operación" "LIMIT_EXCEEDED") ;;;
     acc <- bucle_turnos turnos 0%nat ([], []) ;;
     let turnosCreados := fst acc in
     let errores := snd acc in
     ret (RespBulk 201 turnosCreados errores
            (List.length turnos) (List.length turnosCreados) (List.length errores)
            (numero_a_texto (Z.of_nat (List.length turnosCreados))
             ++ " turnos creados exitosamente")))
    (fun error => next error).

(* ================================================================== *)
(** ** Operations and reachable tables *)

(** The four writes of turnosController.ts. *)
Inductive Operacion : Type :=
| OpCreate (body : TurnoInput)
| OpUpdate (i : nat) (updateData : TurnoUpdate)
| OpDelete (i : nat)
| OpBulk (turnos : list (option TurnoInput)).

Definition ejecutar (op : Operacion) : M Respuesta :=
  match op with
  | OpCreate body => createTurno body
  | OpUpdate i u => updateTurno i u
  | OpDelete i => deleteTurno i
  | OpBulk ts => createMultipleTurnos ts
  end.

(** States of the table reachable from the empty schedule by the four
    writes of turnosController.ts alone, each one with its own host
    (catalogue, clock, locale).  The fifth write of the table,
    [bulkCreateTurnos] of peliculasController.ts, is not among them: see
    [alcanzable_total]. *)
Inductive alcanzable : list Turno -> Prop :=
| alc_vacio : alcanzable []
| alc_paso : forall t op env n,
    alcanzable t ->
    alcanzable (tabla (snd (ejecutar op env {| tabla := t; lecturas := n |}))).

(* ================================================================== *)
(** ** The Duration Validator as the specification words it *)

(** Failure kinds of section 4.1 of the specification. *)
Inductive FalloDuracion : Type :=
| ILL_FORMED
| INVALID_RANGE
| IN_THE_PAST
| TOO_SHORT (actualMinutes required : Z)
| TOO_LONG.

(** Rules 1 to 5 in order, first failure wins; [now] is an argument. *)
Definition primera_falla (start end_ : JSDate) (referenceDurationMinutes now : Z)
  : option FalloDuracion :=
  match start, end_ with
  | Fecha s, Fecha e =>
      if e <=? s then Some INVALID_RANGE
      else if s <? now then Some IN_THE_PAST
      else
        let actualMinutes := (e - s) / 60000 in
        let required := referenceDurationMinutes + 15 in
        if actualMinutes <? required then Some (TOO_SHORT actualMinutes required)
        else if 240 <? actualMinutes then Some TOO_LONG
        else None
  | _, _ => Some ILL_FORMED
  end.

(** The message with which the code reports each kind. *)
Definition texto_de_fallo (k : FalloDuracion) (referenceDurationMinutes : Z) : string :=
  match k with
  | ILL_FORMED => MSG_FECHAS_INVALIDAS
  | INVALID_RANGE => MSG_INVALID_RANGE
  | IN_THE_PAST => MSG_IN_THE_PAST
  | TOO_SHORT a r => MSG_TOO_SHORT a r referenceDurationMinutes
  | TOO_LONG => MSG_TOO_LONG
  end.

(** Same failure kind, whatever the values carried. *)
Definition misma_clase (a b : FalloDuracion) : bool :=
  match a, b with
  | ILL_FORMED, ILL_FORMED | INVALID_RANGE, INVALID_RANGE
  | IN_THE_PAST, IN_THE_PAST | TOO_SHORT _ _, TOO_SHORT _ _
  | TOO_LONG, TOO_LONG => true
  | _, _ => false
  end.

(* ================================================================== *)
(** ** Pure readings of the validators and of the storage *)

Definition tick (w : Mundo) : Mundo :=
  {| tabla := tabla w; lecturas := S (lecturas w) |}.

(** The failure that [validateTurnoDuration] reports when the clock reads
    [ahora]: the rules of the code, with the numbers the code computes. *)
Definition falla_del_codigo (inicioDate finDate : JSDate)
           (duracionPeliculaMin ahora : Z) : option FalloDuracion :=
  match inicioDate, finDate with
  | Fecha i, Fecha f =>
      if f <=? i then Some INVALID_RANGE
      else if i <? ahora then Some IN_THE_PAST
      else
        let duracionTurnoMin := duracionTurnoMin_de i f in
        let duracionMinimaRequerida := doble_de_entero (duracionPeliculaMin + 15) in
        if duracionTurnoMin <? duracionMinimaRequerida
        then Some (TOO_SHORT duracionTurnoMin duracionMinimaRequerida)
        else if 240 <? duracionTurnoMin then Some TOO_LONG
        else None
  | _, _ => Some ILL_FORMED
  end.

(** The result of [validateTurnoDuration] when the clock reads [now]. *)
Definition veredicto (start end_ : JSDate) (referenceDurationMinutes now : Z) : Validacion :=
  match falla_del_codigo start end_ referenceDurationMinutes now with
  | None => es_valido
  | Some k => no_valido (texto_de_fallo k referenceDurationMinutes)
  end.

(** The world after [validateTurnoDuration]: the clock is read once when
    both dates are well formed and ordered, and not at all otherwise. *)
Definition tras_duracion (inicioDate finDate : JSDate) (w : Mundo) : Mundo :=
  if isNaN_getTime inicioDate || isNaN_getTime finDate then w
  else if date_le finDate inicioDate then w
  else tick w.

(** The verdict of [validateTurnoOverlap] on two well-formed dates. *)
Definition veredicto_solape (env : Entorno) (t : list Turno) (sala_ : string)
           (i f : Z) (excluir : option nat) : Validacion :=
  match filter (where_solapamiento sala_ i f excluir) t with
  | [] => es_valido
  | c :: _ =>
      match pelicula_de (peliculas env) (peliculaId c) with
      | Some p => no_valido (MSG_CONFLICTO sala_ (titulo p)
                               (toLocaleString_esES env (inicio c))
                               (toLocaleString_esES env (fin c)))
      | None => no_valido "Error interno al validar el solapamiento de turnos"
      end
  end.

Definition con_tabla (w : Mundo) (t : list Turno) : Mundo :=
  {| tabla := t; lecturas := lecturas w |}.

Definition otros_que (i : nat) (t : list Turno) : list Turno :=
  filter (fun x => negb (Nat.eqb (id x) i)) t.

(* ================================================================== *)
(** ** Invariant of the table *)

(** The half-open ranges of two rows do not intersect. *)
Definition sin_solape (a b : Turno) : Prop :=
  ~ (inicio a < fin b /\ inicio b < fin a).

(** Invariant of the tables reached through the four writes of
    turnosController.ts: each of them validates the window before it
    stores it. *)
Record Inv (t : list Turno) : Prop := {
  inv_ids : forall k r, nth_error t k = Some r -> id r = k;
  inv_rango : forall r, In r t -> inicio r < fin r;
  inv_excl : forall a b, In a t -> In b t -> id a <> id b ->
                         sala a = sala b -> sin_solape a b
}.

(* ================================================================== *)
(** ** Fixtures of the example scenarios *)

Definition hora (h : Z) : Z := h * 3600000.
Definition minutos (m : Z) : Z := m * 60000.

Definition pelicula_90 : Pelicula :=
  {| pel_id := "p90"; titulo := "Largometraje"; duracionMin := 90;
     pel_eliminadoEn := None |}.
Definition pelicula_60 : Pelicula :=
  {| pel_id := "p60"; titulo := "Mediometraje"; duracionMin := 60;
     pel_eliminadoEn := None |}.

(** Host whose clock reads [ahora] at every reading. *)
Definition entorno_a (ahora : Z) : Entorno :=
  {| peliculas := [pelicula_90; pelicula_60];
     reloj := fun _ => ahora;
     toLocaleString_esES := numero_a_texto |}.

Definition entorno_ej : Entorno := entorno_a 0.

Definition mundo_vacio : Mundo := {| tabla := []; lecturas := 0 |}.

Definition pedido (pid sala_ : string) (i : Z) (f : option JSDate) : TurnoInput :=
  {| in_peliculaId := pid; in_sala := sala_; in_inicio := Fecha i; in_fin := f;
     in_precio := 5 # 1; in_idioma := DOBLADO; in_formato := DOS_D;
     in_aforo := 100; in_estado := None |}.

Definition fila_ej (n : nat) (pid sala_ : string) (i f : Z) : Turno :=
  {| id := n; peliculaId := pid; sala := sala_; inicio := i; fin := f;
     precio := 5 # 1; idioma := DOBLADO; formato := DOS_D; aforo := 100;
     estado := ACTIVO; eliminadoEn := None; actualizadoEn := None |}.

(** Scenario 1: room "A1" empty, create at 10:00 with a 90-minute movie
    and a caller-supplied end of 12:00. *)
Definition pedido_1 : TurnoInput :=
  pedido "p90" "A1" (hora 10) (Some (Fecha (hora 12))).

Definition fila_1 : Turno :=
  fila_ej 0 "p90" "A1" (hora 10) (hora 10 + minutos 105).

Definition mundo_1 : Mundo := snd (createTurno pedido_1 entorno_ej mundo_vacio).

Definition fila_1_borrada : Turno :=
  {| id := 0; peliculaId := "p90"; sala := "A1"; inicio := hora 10;
     fin := hora 10 + minutos 105; precio := 5 # 1; idioma := DOBLADO;
     formato := DOS_D; aforo := 100; estado := CANCELADO;
     eliminadoEn := Some 0; actualizadoEn := None |}.

(** The row written by the soft delete. *)
Definition borrada (ahora : Z) (r : Turno) : Turno :=
  aplicar_update (datos_borrado (Fecha ahora)) r.

(** Two rows in room "A1": scenario 1 followed by a create at 12:00. *)
Definition fila_2 : Turno :=
  fila_ej 1 "p60" "A1" (hora 12) (hora 12 + minutos 75).

Definition tabla_dos : list Turno := [fila_1; fila_2].

(** Table after scenario 1 and the soft delete of its row. *)
Definition tabla_borrada : list Turno := [fila_1_borrada].

(* ================================================================== *)
(** ** Vocabulary of the statements *)

(** The [data] object that [createTurno] hands to the storage layer. *)
Definition datos_create (body : TurnoInput) (inicioDate finDate : JSDate)
  : TurnoCreateData :=
  {| cd_peliculaId := in_peliculaId body; cd_sala := in_sala body;
     cd_inicio := inicioDate; cd_fin := finDate;
     cd_precio := in_precio body; cd_idioma := in_idioma body;
     cd_formato := in_formato body; cd_aforo := in_aforo body;
     cd_estado := o_else (in_estado body) ACTIVO |}.

(** An error response is not a success. *)
Ltac no_es_exito :=
  let H := fresh "H" in
  try match goal with
      | |- context [es_conflicto_db ?e] => destruct (es_conflicto_db e)
      end;
  unfold next, ret, errorHandler; cbn; intros H; discriminate H.

(** The row that a create path asks the storage to insert. *)
Definition candidata (body : TurnoInput) (i f : Z) (w : Mundo) : Turno :=
  fila_nueva (datos_create body (Fecha i) (Fecha f)) i f (List.length (tabla w)).

(** The same bulk item processed against the cancelled row and against
    the live row of scenario 1. *)
Definition item_11h : TurnoInput :=
  pedido "p60" "A1" (hora 11) (Some (Fecha (hora 11 + minutos 75))).

Definition TEXTO_DB_BULK : string :=
  "Conflicto de horario con otro turno existente (DB constraint)".

Definition TEXTO_DB_CREATE : string :=
  "Conflicto de horario: existe un turno solapado en la misma sala".

Definition distinto_de (excluir : option nat) (c : Turno) : Prop :=
  match excluir with Some x => id c <> x | None => True end.

(** The request body after the validation block of [updateTurno] has
    stored the two dates in it. *)
Definition con_horario (u : TurnoUpdate) (inicioDate finDate : JSDate) : TurnoUpdate :=
  {| up_peliculaId := up_peliculaId u; up_sala := up_sala u;
     up_inicio := Some inicioDate; up_fin := Some finDate;
     up_precio := up_precio u; up_idioma := up_idioma u;
     up_formato := up_formato u; up_aforo := up_aforo u;
     up_estado := up_estado u |}.

(** [{ ...updateData, actualizadoEn: new Date() }] *)
Definition datos_update (u : TurnoUpdate) (ahora : Z) : TurnoUpdateData :=
  {| ud_campos := u; ud_eliminadoEn := None; ud_actualizadoEn := Some (Fecha ahora) |}.

(** Room [sala_] holds no row other than row [i] that intersects [[s, e)]. *)
Definition sala_libre (t : list Turno) (i : nat) (sala_ : string) (s e : Z) : Prop :=
  forall c, In c t -> id c <> i -> sala c = sala_ -> ~ (s < fin c /\ inicio c < e).

(** The movie named by the patch, if any, exists. *)
Definition pelicula_existe (env : Entorno) (u : TurnoUpdate) : Prop :=
  forall pid, up_peliculaId u = Some pid -> pelicula_de (peliculas env) pid <> None.

(** [updateData.inicio ? new Date(updateData.inicio) : turnoExistente.inicio],
    the same for [fin], and [updateData.sala || turnoExistente.sala]. *)
Definition inicio_pedido (u : TurnoUpdate) (r0 : Turno) : JSDate :=
  o_else (up_inicio u) (Fecha (inicio r0)).
Definition fin_pedido (u : TurnoUpdate) (r0 : Turno) : JSDate :=
  o_else (up_fin u) (Fecha (fin r0)).
Definition sala_pedida (u : TurnoUpdate) (r0 : Turno) : string :=
  o_string (up_sala u) (sala r0).

(** Rows X (room "A1") and Y (room "A2"), both at 10:00. *)
Definition fila_y : Turno := fila_ej 1 "p60" "A2" (hora 10) (hora 10 + minutos 75).

Definition tabla_xy : list Turno := [fila_1; fila_y].

(** A patch that changes only the room. *)
Definition solo_sala (s : string) : TurnoUpdate :=
  {| up_peliculaId := None; up_sala := Some s; up_inicio := None; up_fin := None;
     up_precio := None; up_idioma := None; up_formato := None; up_aforo := None;
     up_estado := None |}.

(** A patch that changes the room and restates the start. *)
Definition sala_e_inicio (s : string) (i : Z) : TurnoUpdate :=
  {| up_peliculaId := None; up_sala := Some s; up_inicio := Some (Fecha i);
     up_fin := None; up_precio := None; up_idioma := None; up_formato := None;
     up_aforo := None; up_estado := None |}.

(** Room [s] has no row in table [t]. *)
Definition sala_vacia (t : list Turno) (s : string) : Prop :=
  forall c, In c t -> sala c <> s.

(** Entry [e] of [errores] records the item at position [ei_index e]. *)
Definition registra (turnos : list (option TurnoInput)) (desde : nat) (e : ErrorItem)
  : Prop :=
  (desde <= ei_index e)%nat
  /\ nth_error turnos (ei_index e - desde) = Some (Some (ei_data e)).

(** What [processTurnoItem] records for item [x] met on state [w]: the
    reason of the error entry, or [None] when the item is created.  The
    rules are those of the function, in its order: the movie lookup, the
    duration validation, the overlap pre-check, the exclusion constraint
    at the insert. *)
Definition motivo_del_item (env : Entorno) (w : Mundo) (x : TurnoInput)
  : option (option string) :=
  match find (fun p => String.eqb (pel_id p) (in_peliculaId x)
                       && es_null (pel_eliminadoEn p)) (peliculas env) with
  | None => Some (Some "Película no encontrada")
  | Some p =>
      let finDate := o_else (in_fin x) InvalidDate in
      let d := veredicto (in_inicio x) finDate (duracionMin p) (reloj env (lecturas w)) in
      if negb (valido d) then Some (mensaje d)
      else
        match in_inicio x, finDate with
        | Fecha i, Fecha f =>
            let o := veredicto_solape env (tabla w) (in_sala x) i f None in
            if negb (valido o) then Some (mensaje o)
            else if existsb (conflicto_exclusion (candidata x i f w)) (tabla w)
                 then Some (Some TEXTO_DB_BULK)
                 else None
        | _, _ => Some (mensaje d)
        end
  end.

Definition respuesta_bulk (turnos : list (option TurnoInput)) (acc : Acumulado)
  : Respuesta :=
  RespBulk 201 (fst acc) (snd acc)
    (List.length turnos) (List.length (fst acc)) (List.length (snd acc))
    (numero_a_texto (Z.of_nat (List.length (fst acc))) ++ " turnos creados exitosamente").

(** Scenario 6: a batch of three on an empty schedule. *)
Definition lote_ej : list TurnoInput :=
  [ pedido "p90" "A1" (hora 10) (Some (Fecha (hora 10 + minutos 105)));
    pedido "p60" "A1" (hora 11) (Some (Fecha (hora 11 + minutos 75)));
    pedido "p60" "B2" (hora 11) (Some (Fecha (hora 11 + minutos 75))) ].

Definition fila_b2 : Turno := fila_ej 1 "p60" "B2" (hora 11) (hora 11 + minutos 75).

(* ================================================================== *)
(** ** turnosController.ts: the two read endpoints *)

(** A turno with its [pelicula] relation, as [include] returns it. *)
Definition TurnoConPelicula : Type := (Turno * option Pelicula)%type.

(** The [pagination] object of a listing.  A [totalPages] that is not a
    finite number is serialised as [null]. *)
Record Paginacion : Type := {
  pg_page : Z;
  pg_limit : Z;
  pg_total : nat;
  pg_totalPages : option Z;
  pg_hasNext : bool;
  pg_hasPrev : bool
}.

(** Responses of the read endpoints; errors go through [errorHandler]. *)
Inductive RespuestaLectura : Type :=
| LecTurno (status : Z) (data : TurnoConPelicula)
| LecLista (status : Z) (data : list TurnoConPelicula) (pagination : Paginacion)
| LecError (r : Respuesta).

(** [getTurnoById]: GET /api/turnos/:id *)
Definition getTurnoById (i : nat) : M RespuestaLectura :=
  try_catch
    (turno <- turno_findFirst i ;;
     match turno with
     | None => throw (createError 404 "Turno no encontrado" "TURNO_NOT_FOUND")
     | Some turno =>
         ps <- leer_peliculas ;;
         ret (LecTurno 200 (turno, pelicula_de ps (peliculaId turno)))
     end)
    (fun error => ret (LecError (errorHandler error))).

(** The query string of GET /api/turnos, numbers and dates already
    converted: [q_page] and [q_limit] are [Number(page)] and
    [Number(limit)] for integral parameters; [q_fecha] is
    [new Date(fecha)]. *)
Record ConsultaTurnos : Type := {
  q_page : option Z;
  q_limit : option Z;
  q_peliculaId : option string;
  q_sala : option string;
  q_fecha : option JSDate;
  q_estado : option EstadoTurno
}.

(** [if (s)] on an optional string. *)
Definition truthy_string (o : option string) : bool :=
  match o with
  | Some s => negb (String.eqb s EmptyString)
  | None => false
  end.

(** The [where] object of [getTurnos]; [rango] is the pair
    [(fechaInicio, fechaFin)] when a date was given. *)
Definition where_listado (q : ConsultaTurnos) (rango : option (Z * Z)) (r : Turno)
  : bool :=
  es_null (eliminadoEn r)
  && estado_eqb (estado r) (o_else (q_estado q) ACTIVO)
  && (if truthy_string (q_peliculaId q)
      then String.eqb (peliculaId r) (o_else (q_peliculaId q) EmptyString)
      else true)
  && (if truthy_string (q_sala q)
      then String.eqb (sala r) (o_else (q_sala q) EmptyString)
      else true)
  && match rango with
     | Some (fechaInicio, fechaFin) => (fechaInicio <=? inicio r) && (inicio r <? fechaFin)
     | None => true
     end.

(** [orderBy: { inicio: 'asc' }].  The database leaves the order of rows
    with equal [inicio] open, and may choose it anew at every query; here
    they keep their table order.  A statement that puts the answers of
    several queries together is made for rows with pairwise distinct
    [inicio], whose order by start is unique. *)
Fixpoint insertar_por_inicio (x : Turno) (l : list Turno) : list Turno :=
  match l with
  | [] => [x]
  | y :: l' => if inicio x <? inicio y then x :: l else y :: insertar_por_inicio x l'
  end.

Definition ordenar_por_inicio (l : list Turno) : list Turno :=
  fold_right insertar_por_inicio [] (rev l).

Definition ERR_SKIP_NEGATIVO : ErrorJS :=
  {| e_statusCode := None; e_code := None;
     e_message := "Invalid value for skip argument: Value can only be positive" |}.

(** [findMany({ where, skip, take, orderBy })] on rows already filtered
    and ordered: a negative [take] counts from the end of the list. *)
Definition paginar {A} (skip take : Z) (l : list A) : M (list A) :=
  if skip <? 0 then throw ERR_SKIP_NEGATIVO
  else if 0 <=? take
       then ret (firstn (Z.to_nat take) (skipn (Z.to_nat skip) l))
       else ret (rev (firstn (Z.to_nat (- take)) (skipn (Z.to_nat skip) (rev l)))).

(** [Math.ceil(total / take)] as it appears in the JSON body. *)
Definition total_pages (total : nat) (take : Z) : option Z :=
  if take =? 0 then None
  else if 0 <? take then Some ((Z.of_nat total + take - 1) / take)
  else Some (- (Z.of_nat total / (- take))).

(** [Number(page) < totalPages] *)
Definition has_next (page : Z) (total : nat) (take : Z) : bool :=
  if take =? 0 then negb (Nat.eqb total 0)
  else match total_pages total take with
       | Some tp => page <? tp
       | None => false
       end.

(** [getTurnos]: GET /api/turnos.  [diaSiguiente] is
    [d => { d.setDate(d.getDate() + 1); return d }], the next calendar day
    in the time zone of the host. *)
Definition getTurnos (diaSiguiente : Z -> JSDate) (q : ConsultaTurnos)
  : M RespuestaLectura :=
  try_catch
    (let page := o_else (q_page q) 1 in
     let limit := o_else (q_limit q) 10 in
     let skip := (page - 1) * limit in
     let take := limit in
     throw_if (take >? 100)
       (createError 400 "El límite máximo es 100 registros por página" "LIMIT_EXCEEDED") ;;;
     rango <-
       match q_fecha q with
       | Some fechaInicio =>
           match fechaInicio with
           | Fecha fi =>
               match diaSiguiente fi with
               | Fecha ff => ret (Some (fi, ff))
               | InvalidDate => throw ERR_CLIENT_VALIDATION
               end
           | InvalidDate => throw ERR_CLIENT_VALIDATION
           end
       | None => ret None
       end ;;
     t <- leer_tabla ;;
     ps <- leer_peliculas ;;
     let coincidentes := ordenar_por_inicio (filter (where_listado q rango) t) in
     turnos <- paginar skip take coincidentes ;;
     let total := List.length coincidentes in
     ret (LecLista 200
            (map (fun r => (r, pelicula_de ps (peliculaId r))) turnos)
            {| pg_page := page; pg_limit := take; pg_total := total;
               pg_totalPages := total_pages total take;
               pg_hasNext := has_next page total take;
               pg_hasPrev := page >? 1 |}))
    (fun error => ret (LecError (errorHandler error))).

(* ================================================================== *)
(** ** turnoValidations.ts: getDisponibilidadSala *)

(** The [OR] of the three cases of the query of [getDisponibilidadSala],
    for the asked range [[fechaInicio, fechaFin)] and a stored row
    [[s, e)]. *)
Definition tres_casos (fechaInicio fechaFin s e : Z) : bool :=
  ((s >=? fechaInicio) && (s <? fechaFin))
  || ((e >? fechaInicio) && (e <=? fechaFin))
  || ((s <=? fechaInicio) && (e >=? fechaFin)).

Definition where_disponibilidad (sala_ : string) (fechaInicio fechaFin : Z) (r : Turno)
  : bool :=
  String.eqb (sala r) sala_
  && en_activo_inactivo (estado r)
  && es_null (eliminadoEn r)
  && tres_casos fechaInicio fechaFin (inicio r) (fin r).

(** An object returned for
    [select: { id, inicio, fin, pelicula: { select: { titulo } } }]. *)
Record TurnoSeleccionado : Type := {
  sel_id : nat;
  sel_inicio : Z;
  sel_fin : Z;
  sel_pelicula : option Pelicula
}.

(** The callback reads [turno.fechaHora] and [turno.duracion]; the
    selected object has neither property, so both are [undefined]. *)
Definition sel_fechaHora (_ : TurnoSeleccionado) : option JSDate := None.
Definition sel_duracion (_ : TurnoSeleccionado) : option Z := None.

(** An element of [turnosExistentes]. *)
Record HorarioExistente : Type := {
  he_id : nat;
  he_inicio : option JSDate;
  he_fin : JSDate;
  he_pelicula : string
}.

Record Disponibilidad : Type := {
  disponible : bool;
  turnosExistentes : list HorarioExistente
}.

Definition ERR_TYPE_UNDEFINED : ErrorJS :=
  {| e_statusCode := None; e_code := None;
     e_message := "Cannot read properties of undefined (reading 'getTime')" |}.

(** The callback of [turnosExistentes.map]: [turno.fechaHora.getTime()]
    throws when [turno.fechaHora] is [undefined]. *)
Definition a_horario (turno : TurnoSeleccionado) : M HorarioExistente :=
  match sel_fechaHora turno with
  | None => throw ERR_TYPE_UNDEFINED
  | Some fechaHora =>
      ret {| he_id := sel_id turno;
             he_inicio := Some fechaHora;
             he_fin := match fechaHora, sel_duracion turno with
                       | Fecha ms, Some d => newDate (ms + d * 60000)
                       | _, _ => InvalidDate
                       end;
             he_pelicula :=
               o_string (option_map titulo (sel_pelicula turno)) "Sin título" |}
  end.

(** [l.map(f)] for a callback that may throw. *)
Fixpoint map_M {A B} (f : A -> M B) (l : list A) : M (list B) :=
  match l with
  | [] => ret []
  | x :: l' => y <- f x ;; ys <- map_M f l' ;; ret (y :: ys)
  end.

(** [getDisponibilidadSala(sala, fechaInicio, fechaFin)]; the [catch]
    logs and throws the error again. *)
Definition getDisponibilidadSala (sala_ : string) (fechaInicio fechaFin : JSDate)
  : M Disponibilidad :=
  try_catch
    (match fechaInicio, fechaFin with
     | Fecha fi, Fecha ff =>
         t <- leer_tabla ;;
         ps <- leer_peliculas ;;
         let turnosExistentes :=
           map (fun r => {| sel_id := id r; sel_inicio := inicio r; sel_fin := fin r;
                            sel_pelicula := pelicula_de ps (peliculaId r) |})
               (ordenar_por_inicio (filter (where_disponibilidad sala_ fi ff) t)) in
         horarios <- map_M a_horario turnosExistentes ;;
         ret {| disponible := Nat.eqb (List.length turnosExistentes) 0;
                turnosExistentes := horarios |}
     | _, _ => throw ERR_CLIENT_VALIDATION
     end)
    (fun error => throw error).

(* ================================================================== *)
(** ** peliculasController.ts: the two functions that touch the turnos *)

Inductive RespuestaPeliculas : Type :=
| RpCuenta (status : Z) (count : nat) (message : string)
| RpMensaje (status : Z) (message : string)
| RpError (r : Respuesta).

(** One element of the [data] array of [createMany]:
    [{ ...turno, peliculaId: id, creadoPor: 'system' }].  [porDefecto] is
    the default of column [estado] in the schema, if it has one; an element
    without a value for a required column is not accepted by the client. *)
Definition datos_createMany (porDefecto : option EstadoTurno) (pid : string)
           (turno : TurnoInput) : option TurnoCreateData :=
  match in_fin turno,
        match in_estado turno with Some e => Some e | None => porDefecto end with
  | Some finDate, Some est =>
      Some {| cd_peliculaId := pid; cd_sala := in_sala turno;
              cd_inicio := in_inicio turno; cd_fin := finDate;
              cd_precio := in_precio turno; cd_idioma := in_idioma turno;
              cd_formato := in_formato turno; cd_aforo := in_aforo turno;
              cd_estado := est |}
  | _, _ => None
  end.

Fixpoint todos_some {A} (l : list (option A)) : option (list A) :=
  match l with
  | [] => Some []
  | Some a :: l' => option_map (cons a) (todos_some l')
  | None :: _ => None
  end.

(** The rows of one [INSERT] statement, inserted in order. *)
Fixpoint insertar_filas (ds : list TurnoCreateData) : M nat :=
  match ds with
  | [] => ret 0%nat
  | d :: ds' =>
      prisma_turno_create d ;;;
      n <- insertar_filas ds' ;;
      ret (S n)
  end.

(** [prisma.turno.createMany({ data })]: one statement, all rows or none. *)
Definition prisma_turno_createMany (data : list (option TurnoCreateData)) : M nat :=
  match todos_some data with
  | None => throw ERR_CLIENT_VALIDATION
  | Some ds =>
      antes <- leer_tabla ;;
      try_catch (insertar_filas ds)
                (fun error => escribir_tabla antes ;;; throw error)
  end.

(** [bulkCreateTurnos]: POST /api/peliculas/:id/turnos:bulkCreate. *)
Definition bulkCreateTurnos (porDefecto : option EstadoTurno) (pid : string)
           (turnos : list TurnoInput) : M RespuestaPeliculas :=
  try_catch
    (pelicula <- pelicula_findFirst pid ;;
     match pelicula with
     | None => throw (createError 404 "Película no encontrada" "MOVIE_NOT_FOUND")
     | Some _ =>
         count <- prisma_turno_createMany (map (datos_createMany porDefecto pid) turnos) ;;
         ret (RpCuenta 201 count
                (numero_a_texto (Z.of_nat count) ++ " turnos creados exitosamente"))
     end)
    (fun error => ret (RpError (errorHandler error))).

(** [_count: { select: { turnos: { where: { eliminadoEn: null } } } }] *)
Definition contar_turnos_vivos (pid : string) (t : list Turno) : nat :=
  List.length (filter (fun r => String.eqb (peliculaId r) pid && es_null (eliminadoEn r)) t).

(** [prisma.pelicula.update({ where: { id }, data: { eliminadoEn } })] on
    the catalogue. *)
Definition marcar_eliminada (pid : string) (ahora : Z) (ps : list Pelicula)
  : list Pelicula :=
  map (fun p => if String.eqb (pel_id p) pid
                then {| pel_id := pel_id p; titulo := titulo p;
                        duracionMin := duracionMin p;
                        pel_eliminadoEn := Some ahora |}
                else p) ps.

(** [deletePelicula]: DELETE /api/peliculas/:id (soft delete).  The value
    is the response together with the catalogue after the request. *)
Definition deletePelicula (pid : string) : M (RespuestaPeliculas * list Pelicula) :=
  ps <- leer_peliculas ;;
  try_catch
    (existingPelicula <- pelicula_findFirst pid ;;
     match existingPelicula with
     | None => throw (createError 404 "Película no encontrada" "MOVIE_NOT_FOUND")
     | Some _ =>
         t <- leer_tabla ;;
         (* Verificar si tiene turnos activos *)
         throw_if (Nat.ltb 0 (contar_turnos_vivos pid t))
           (createError 409
              "No se puede eliminar la película porque tiene turnos asociados"
              "HAS_ACTIVE_SCHEDULES") ;;;
         ahora <- newDateNow ;;
         match ahora with
         | Fecha a =>
             ret (RpMensaje 200 "Película eliminada exitosamente",
                  marcar_eliminada pid a ps)
         | InvalidDate => throw ERR_CLIENT_VALIDATION
         end
     end)
    (fun error => ret (RpError (errorHandler error), ps)).

(* ================================================================== *)
(** ** Vocabulary of the further properties *)

(** A window that has passed the duration rules: it is not empty and its
    whole minutes do not exceed 240. *)
Definition ventana_ok (i f : Z) : Prop := i < f /\ (f - i) / 60000 <= 240.

(** One change of the table by a write of the scheduler: a validated row
    is appended under the next identifier, or a live row is replaced by a
    new version that keeps its identifier and whose window is validated or
    unchanged. *)
Inductive paso_tabla : list Turno -> list Turno -> Prop :=
| pt_alta : forall t fila,
    id fila = List.length t -> eliminadoEn fila = None ->
    ventana_ok (inicio fila) (fin fila) ->
    paso_tabla t (t ++ [fila])
| pt_modif : forall t i r nueva,
    In r t -> id r = i -> eliminadoEn r = None -> id nueva = i ->
    (ventana_ok (inicio nueva) (fin nueva)
     \/ (inicio nueva = inicio r /\ fin nueva = fin r)) ->
    paso_tabla t (reemplazar i nueva t).

Inductive pasos_tabla : list Turno -> list Turno -> Prop :=
| ps_fin : forall t, pasos_tabla t t
| ps_mas : forall t t' t'', paso_tabla t t' -> pasos_tabla t' t'' -> pasos_tabla t t''.

(** Row [k] of the table has identifier [k]. *)
Definition ids_en_orden (t : list Turno) : Prop :=
  forall k r, nth_error t k = Some r -> id r = k.

Definition NO_ENCONTRADO : Respuesta :=
  RespError 404 "TURNO_NOT_FOUND" "Turno no encontrado".

(* ================================================================== *)
(** ** The writes of the two controllers *)

(** The five writes of table [turnos]: the four of turnosController.ts and
    [bulkCreateTurnos] of peliculasController.ts, which validates neither
    the duration nor the overlap of what it inserts. *)
Inductive Escritura : Type :=
| EsTurnos (op : Operacion)
| EsPelicula (porDefecto : option EstadoTurno) (pid : string)
             (turnos : list TurnoInput).

(** The table left by one write. *)
Definition tabla_tras (e : Escritura) (env : Entorno) (w : Mundo) : list Turno :=
  match e with
  | EsTurnos op => tabla (snd (ejecutar op env w))
  | EsPelicula porDefecto pid turnos =>
      tabla (snd (bulkCreateTurnos porDefecto pid turnos env w))
  end.

(** Tables reached from [t0] by any sequence of the five writes, each one
    with its own host (catalogue, clock, locale). *)
Inductive alcanzable_desde (t0 : list Turno) : list Turno -> Prop :=
| ad_aqui : alcanzable_desde t0 t0
| ad_paso : forall t e env n,
    alcanzable_desde t0 t ->
    alcanzable_desde t0 (tabla_tras e env {| tabla := t; lecturas := n |}).

(** Tables reached from the empty schedule by the five writes. *)
Definition alcanzable_total (t : list Turno) : Prop := alcanzable_desde [] t.

(** What the storage layer alone guarantees, whichever write made the
    rows: identifiers in order, no range with its bounds reversed, and no
    two rows in conflict for the exclusion constraint.  A row with
    [inicio = fin] has an empty range and conflicts with nothing. *)
Record Inv_total (t : list Turno) : Prop := {
  it_ids : ids_en_orden t;
  it_rango : forall r, In r t -> inicio r <= fin r;
  it_excl : forall a b, In a t -> In b t -> id a <> id b ->
                        conflicto_exclusion a b = false
}.

(** Every stored window is non-empty. *)
Definition filas_no_vacias (t : list Turno) : Prop :=
  forall r, In r t -> inicio r < fin r.

(** Computation [c] keeps property [P] of the table, whatever it answers. *)
Definition conserva (P : list Turno -> Prop) {A} (c : M A) : Prop :=
  forall env w, P (tabla w) -> P (tabla (snd (c env w))).

(* ================================================================== *)
(** ** Fixtures of the further properties *)

Definition pelicula_230 : Pelicula :=
  {| pel_id := "p230"; titulo := "Metraje largo"; duracionMin := 230;
     pel_eliminadoEn := None |}.

Definition entorno_largo : Entorno :=
  {| peliculas := [pelicula_230]; reloj := fun _ => 0;
     toLocaleString_esES := numero_a_texto |}.

Definition lote_51 : list TurnoInput := repeat pedido_1 51.

(** The row [c] is the one asked for by the bulk item [x]: room, movie and
    both instants are the item's, and the movie is a live one of the
    catalogue whose duration plus the buffer fits in the window. *)
Definition fila_de_item (env : Entorno) (x : TurnoInput) (c : Turno) : Prop :=
  in_inicio x = Fecha (inicio c)
  /\ in_fin x = Some (Fecha (fin c))
  /\ in_sala x = sala c
  /\ in_peliculaId x = peliculaId c
  /\ exists p, In p (peliculas env)
               /\ pel_id p = peliculaId c
               /\ pel_eliminadoEn p = None
               /\ duracionMin p + 15 <= (fin c - inicio c) / 60000 <= 240.

(** The query [q] asked for another page. *)
Definition con_pagina (q : ConsultaTurnos) (page : Z) : ConsultaTurnos :=
  {| q_page := Some page; q_limit := q_limit q; q_peliculaId := q_peliculaId q;
     q_sala := q_sala q; q_fecha := q_fecha q; q_estado := q_estado q |}.

(** The date of the query, if there is one, and the day after it are
    valid dates. *)
Definition fecha_de_consulta_ok (diaSiguiente : Z -> JSDate) (q : ConsultaTurnos)
  : bool :=
  match q_fecha q with
  | None => true
  | Some (Fecha fi) => negb (isNaN_getTime (diaSiguiente fi))
  | Some InvalidDate => false
  end.

(** The day asked for, as the pair of its two bounds. *)
Definition rango_de (diaSiguiente : Z -> JSDate) (q : ConsultaTurnos)
  : option (Z * Z) :=
  match q_fecha q with
  | Some (Fecha fi) =>
      match diaSiguiente fi with
      | Fecha ff => Some (fi, ff)
      | InvalidDate => None
      end
  | _ => None
  end.

(** A row of the table that a listing has to show: not soft-deleted, in
    the [estado] asked for (ACTIVO when none is), and passing each filter
    that the query carries. *)
Definition pedida (diaSiguiente : Z -> JSDate) (q : ConsultaTurnos) (r : Turno)
  : Prop :=
  eliminadoEn r = None
  /\ estado r = o_else (q_estado q) ACTIVO
  /\ (forall p, q_peliculaId q = Some p -> p <> EmptyString -> peliculaId r = p)
  /\ (forall s, q_sala q = Some s -> s <> EmptyString -> sala r = s)
  /\ (forall fi ff, q_fecha q = Some (Fecha fi) -> diaSiguiente fi = Fecha ff ->
                    fi <= inicio r < ff).

Definition por_inicio (a b : Turno) : Prop := inicio a <= inicio b.

(** A query for the rows of one room, ten per page. *)
Definition consulta_sala (s : string) : ConsultaTurnos :=
  {| q_page := None; q_limit := None; q_peliculaId := None; q_sala := Some s;
     q_fecha := None; q_estado := None |}.

(** A query with one row per page. *)
Definition consulta_de_a_una : ConsultaTurnos :=
  {| q_page := Some 1; q_limit := Some 1; q_peliculaId := None; q_sala := None;
     q_fecha := None; q_estado := None |}.

(** The next day on a host that keeps UTC. *)
Definition dia_utc (ms : Z) : JSDate := newDate (ms + 86400000).

(** The row [c] stores what the [createMany] element made from the body
    item [x] for movie [pid] says. *)
Definition fila_de_dato (pid : string) (x : TurnoInput) (c : Turno) : Prop :=
  peliculaId c = pid
  /\ sala c = in_sala x
  /\ in_inicio x = Fecha (inicio c)
  /\ in_fin x = Some (Fecha (fin c))
  /\ eliminadoEn c = None
  /\ inicio c <= fin c.

(** The host with another catalogue. *)
Definition con_peliculas (env : Entorno) (ps : list Pelicula) : Entorno :=
  {| peliculas := ps; reloj := reloj env;
     toLocaleString_esES := toLocaleString_esES env |}.

(** An item with a window of ten hours that ends before the epoch. *)
Definition pedido_largo : TurnoInput :=
  pedido "p90" "A1" (hora (-20)) (Some (Fecha (hora (-10)))).

(** An item of [bulkCreateTurnos] for room "A1" whose start and end are
    both 11:00, and the row it becomes for movie "p60". *)
Definition item_vacio : TurnoInput :=
  {| in_peliculaId := "p60"; in_sala := "A1"; in_inicio := Fecha (hora 11);
     in_fin := Some (Fecha (hora 11)); in_precio := 5 # 1; in_idioma := DOBLADO;
     in_formato := DOS_D; in_aforo := 100; in_estado := Some ACTIVO |}.

Definition fila_vacia : Turno := fila_ej 1 "p60" "A1" (hora 11) (hora 11).

(** A create request that asks for [estado] CANCELADO, and its row. *)
Definition pedido_cancelado : TurnoInput :=
  {| in_peliculaId := "p90"; in_sala := "A1"; in_inicio := Fecha (hora 10);
     in_fin := None; in_precio := 5 # 1; in_idioma := DOBLADO;
     in_formato := DOS_D; in_aforo := 100; in_estado := Some CANCELADO |}.

Definition fila_cancelada : Turno :=
  {| id := 0; peliculaId := "p90"; sala := "A1"; inicio := hora 10;
     fin := hora 10 + minutos 105; precio := 5 # 1; idioma := DOBLADO;
     formato := DOS_D; aforo := 100; estado := CANCELADO;
     eliminadoEn := None; actualizadoEn := None |}.

(** The row stored for the request of scenario 1 sent as a bulk item: it
    ends at the 12:00 of the caller. *)
Definition fila_12 : Turno := fila_ej 0 "p90" "A1" (hora 10) (hora 12).

(** A patch that changes only the [estado]. *)
Definition solo_estado (e : EstadoTurno) : TurnoUpdate :=
  {| up_peliculaId := None; up_sala := None; up_inicio := None; up_fin := None;
     up_precio := None; up_idioma := None; up_formato := None; up_aforo := None;
     up_estado := Some e |}.

(** An error thrown inside the controller of an update or of a delete is
    answered as an error response. *)
Ltac responde_error Ht :=
  unfold next, ret, errorHandler; cbn;
  do 2 eexists; split; [reflexivity|left]; do 3 eexists;
  split; [reflexivity|try exact Ht; try reflexivity].

(* ================================================================== *)
(** * Lemmas and theorems *)

(* ================================================================== *)
(** ** Double-precision arithmetic of the duration *)

Lemma redondeo_par_cotas a b :
  0 < b -> a / b <= redondeo_par a b <= a / b + 1.
Proof.
  intros Hb. unfold redondeo_par.
  destruct (2 * (a mod b) <? b); [lia|].
  destruct (b <? 2 * (a mod b)); [lia|].
  destruct (Z.even (a / b)); lia.
Qed.

Lemma redondeo_par_exacto a b : 0 < b -> redondeo_par (b * a) b = a.
Proof.
  intros Hb. unfold redondeo_par.
  replace (b * a) with (a * b) by lia.
  rewrite Z.mod_mul, Z.div_mul by lia.
  destruct (2 * 0 <? b) eqn:E; [reflexivity|]. apply Z.ltb_ge in E. lia.
Qed.

(** Scaling by [s > 30000] before rounding keeps the whole minutes. *)
Lemma redondeo_escalado x s :
  0 <= x -> 30000 < s ->
  redondeo_par (x * s) 60000 / s = x / 60000.
Proof.
  intros Hx Hs.
  pose proof (Z.div_mod x 60000 ltac:(lia)) as Ex.
  pose proof (Z.mod_pos_bound x 60000 ltac:(lia)) as Hr.
  set (N := x / 60000) in *. set (r := x mod 60000) in *.
  pose proof (Z.div_mod (x * s) 60000 ltac:(lia)) as Exs.
  pose proof (Z.mod_pos_bound (x * s) 60000 ltac:(lia)) as Hrs.
  assert (Hlow : N * s <= (x * s) / 60000).
  { apply Z.div_le_lower_bound; [lia|]. nia. }
  assert (Hup : (x * s) / 60000 <= (N + 1) * s - 1).
  { assert ((x * s) / 60000 < (N + 1) * s); [|lia].
    apply Z.div_lt_upper_bound; [lia|]. nia. }
  assert (Hm : N * s <= redondeo_par (x * s) 60000 <= (N + 1) * s - 1).
  { unfold redondeo_par.
    destruct (2 * ((x * s) mod 60000) <? 60000) eqn:E1; [lia|].
    apply Z.ltb_ge in E1.
    assert ((x * s) / 60000 <> (N + 1) * s - 1).
    { intros E. rewrite E in Exs. nia. }
    destruct (60000 <? 2 * ((x * s) mod 60000)); [lia|].
    destruct (Z.even ((x * s) / 60000)); lia. }
  symmetry. apply Z.div_unique with (r := redondeo_par (x * s) 60000 - N * s); lia.
Qed.

Lemma log2_60000 : Z.log2 60000 = 15.
Proof. reflexivity. Qed.

Lemma pow2_pos k : 0 < 2 ^ k \/ (k < 0 /\ 2 ^ k = 0).
Proof.
  destruct (Z.le_gt_cases 0 k) as [H|H].
  - left. apply Z.pow_pos_nonneg; lia.
  - right. split; [lia|]. apply Z.pow_neg_r. lia.
Qed.

(** The quotient by 60000 is exact up to its floor for windows below
    60000 * 2^38 ms. *)
Lemma piso_cociente_exacto x :
  0 < x < 60000 * 2 ^ 38 -> piso_cociente x 60000 = x / 60000.
Proof.
  intros [H0 Hx]. unfold piso_cociente.
  destruct (x =? 0) eqn:E0; [apply Z.eqb_eq in E0; lia|].
  destruct (0 <? x) eqn:E1; [|apply Z.ltb_ge in E1; lia].
  unfold cociente_doble. rewrite log2_60000.
  pose proof (Z.log2_spec x H0) as [Hl1 Hl2].
  pose proof (Z.log2_nonneg x) as Hl0.
  set (la := Z.log2 x) in *.
  assert (Hla : la <= 53).
  { destruct (Z.le_gt_cases la 53) as [H|H]; [exact H|].
    assert (2 ^ 54 <= 2 ^ la) by (apply Z.pow_le_mono_r; lia).
    change (2 ^ 54) with 18014398509481984 in *.
    change (60000 * 2 ^ 38) with 16492674416640000 in *. lia. }
  set (e0 := la - 15 - 52).
  assert (He0 : e0 <= -14) by (unfold e0; lia).
  replace (Z.max 0 (- e0)) with (- e0) by lia.
  replace (Z.max 0 e0) with 0 by lia.
  change (2 ^ 0) with 1. rewrite Z.mul_1_r.
  set (e := if x * 2 ^ (- e0) <? 2 ^ 52 * 60000 then e0 - 1 else e0).
  assert (He : e <= -15).
  { unfold e. destruct (x * 2 ^ (- e0) <? 2 ^ 52 * 60000) eqn:E; [lia|].
    apply Z.ltb_ge in E.
    destruct (Z.eq_dec la 53) as [E53|N53]; [|unfold e0; lia].
    exfalso. unfold e0 in E. rewrite E53 in E.
    change (- (53 - 15 - 52)) with 14 in E.
    change (2 ^ 14) with 16384 in E. change (2 ^ 52 * 60000) with 270215977642229760000 in E.
    change (60000 * 2 ^ 38) with 16492674416640000 in Hx. lia. }
  replace (Z.max 0 (- e)) with (- e) by lia.
  replace (Z.max 0 e) with 0 by lia.
  change (2 ^ 0) with 1. rewrite Z.mul_1_r.
  destruct (0 <=? e) eqn:Ee; [apply Z.leb_le in Ee; lia|].
  apply redondeo_escalado; [lia|].
  assert (2 ^ 15 <= 2 ^ (- e)) by (apply Z.pow_le_mono_r; lia).
  change (2 ^ 15) with 32768 in *. lia.
Qed.

Lemma doble_de_entero_exacto n : Z.abs n <= 2 ^ 53 -> doble_de_entero n = n.
Proof.
  intros H. unfold doble_de_entero.
  destruct (Z.abs n <=? 2 ^ 53) eqn:E; [reflexivity|]. apply Z.leb_gt in E. lia.
Qed.

Lemma doble_de_entero_grande n : 2 ^ 53 <= n -> 2 ^ 53 <= doble_de_entero n.
Proof.
  intros H. unfold doble_de_entero.
  destruct (Z.abs n <=? 2 ^ 53) eqn:E; [exact H|]. apply Z.leb_gt in E.
  assert (Hn : 0 < n) by (change (2 ^ 53) with 9007199254740992 in H; lia).
  rewrite Z.abs_eq, Z.sgn_pos by lia. rewrite Z.mul_1_l.
  pose proof (Z.log2_spec n Hn) as [Hl1 Hl2].
  assert (Hl : 53 <= Z.log2 n).
  { apply Z.log2_le_pow2; lia. }
  set (e := Z.log2 n - 52) in *.
  assert (He : 1 <= e) by (unfold e; lia).
  assert (Hp : 0 < 2 ^ e) by (apply Z.pow_pos_nonneg; lia).
  pose proof (redondeo_par_cotas n (2 ^ e) Hp) as [Hr _].
  assert (Hq : 2 ^ 52 <= n / 2 ^ e).
  { apply Z.div_le_lower_bound; [exact Hp|].
    rewrite Z.mul_comm, <- Z.pow_add_r by lia.
    replace (52 + e) with (Z.log2 n) by (unfold e; lia). exact Hl1. }
  assert (2 <= 2 ^ e).
  { change 2 with (2 ^ 1) at 1. apply Z.pow_le_mono_r; lia. }
  change (2 ^ 53) with (2 ^ 52 * 2). 
  apply Z.mul_le_mono_nonneg; try lia.
Qed.

(** Beyond 2^53 ms the whole minutes computed are at least 2^37. *)
Lemma piso_cociente_grande y : 2 ^ 53 <= y -> 2 ^ 37 <= piso_cociente y 60000.
Proof.
  intros Hy. unfold piso_cociente.
  assert (H0 : 0 < y) by (change (2 ^ 53) with 9007199254740992 in Hy; lia).
  destruct (y =? 0) eqn:E0; [apply Z.eqb_eq in E0; lia|].
  destruct (0 <? y) eqn:E1; [|apply Z.ltb_ge in E1; lia].
  unfold cociente_doble. rewrite log2_60000.
  pose proof (Z.log2_spec y H0) as [Hl1 Hl2].
  assert (Hl : 53 <= Z.log2 y) by (apply Z.log2_le_pow2; lia).
  set (la := Z.log2 y) in *.
  set (e0 := la - 15 - 52).
  set (num := fun e => y * 2 ^ Z.max 0 (- e)).
  set (den := fun e => 60000 * 2 ^ Z.max 0 e).
  set (e := if num e0 <? 2 ^ 52 * den e0 then e0 - 1 else e0).
  change (2 ^ 37 <= if 0 <=? e then redondeo_par (num e) (den e) * 2 ^ e
                    else redondeo_par (num e) (den e) / 2 ^ (- e)).
  assert (He : -15 <= e).
  { unfold e. destruct (num e0 <? 2 ^ 52 * den e0); unfold e0; lia. }
  assert (Hden : 0 < den e).
  { unfold den. assert (0 < 2 ^ Z.max 0 e) by (apply Z.pow_pos_nonneg; lia). lia. }
  assert (Hnd : 2 ^ 52 * den e <= num e).
  { unfold e. destruct (num e0 <? 2 ^ 52 * den e0) eqn:E.
    - (* one more bit *)
      unfold num, den.
      assert (Hla : (0 <= e0 /\ 2 ^ la = 2 ^ 67 * 2 ^ e0)
                    \/ (e0 < 0 /\ 2 ^ la * 2 ^ (- e0) = 2 ^ 67)).
      { destruct (Z.le_gt_cases 0 e0) as [H|H].
        - left. split; [exact H|].
          rewrite <- Z.pow_add_r by lia. f_equal. unfold e0. lia.
        - right. split; [exact H|]. rewrite <- Z.pow_add_r by lia.
          f_equal. unfold e0. lia. }
      destruct (Z.le_gt_cases 1 e0) as [H1|H1].
      + replace (Z.max 0 (- (e0 - 1))) with 0 by lia.
        replace (Z.max 0 (e0 - 1)) with (e0 - 1) by lia.
        destruct Hla as [[_ Hla]|[Hneg _]]; [|lia].
        assert (Hp : 2 ^ e0 = 2 * 2 ^ (e0 - 1)).
        { replace e0 with (1 + (e0 - 1)) at 1 by lia.
          rewrite Z.pow_add_r by lia. reflexivity. }
        assert (0 < 2 ^ (e0 - 1)) by (apply Z.pow_pos_nonneg; lia).
        change (2 ^ 0) with 1. change (2 ^ 52) with 4503599627370496.
        change (2 ^ 67) with 147573952589676412928 in Hla. nia.
      + replace (Z.max 0 (e0 - 1)) with 0 by lia.
        replace (Z.max 0 (- (e0 - 1))) with (1 - e0) by lia.
        assert (Hp : 2 ^ (1 - e0) = 2 * 2 ^ (- e0)).
        { replace (1 - e0) with (1 + (- e0)) by lia.
          rewrite Z.pow_add_r by lia. reflexivity. }
        assert (0 < 2 ^ (- e0)) by (apply Z.pow_pos_nonneg; lia).
        change (2 ^ 0) with 1. change (2 ^ 52) with 4503599627370496.
        destruct Hla as [[Hpos Hla]|[_ Hla]].
        * assert (Ez : e0 = 0) by lia.
          assert (Hu : 2 ^ (- e0) = 1) by (rewrite Ez; reflexivity).
          assert (Hv : 2 ^ e0 = 1) by (rewrite Ez; reflexivity).
          rewrite Hv in Hla. rewrite Hp, Hu.
          change (2 ^ 67) with 147573952589676412928 in Hla. lia.
        * change (2 ^ 67) with 147573952589676412928 in Hla. nia.
    - apply Z.ltb_ge in E. exact E. }
  pose proof (redondeo_par_cotas (num e) (den e) Hden) as [Hr _].
  assert (Hm : 2 ^ 52 <= redondeo_par (num e) (den e)).
  { apply Z.le_trans with (num e / den e); [|exact Hr].
    apply Z.div_le_lower_bound; [exact Hden|]. lia. }
  destruct (0 <=? e) eqn:Ee.
  - apply Z.leb_le in Ee.
    assert (Hpe : 0 < 2 ^ e) by (apply Z.pow_pos_nonneg; lia).
    change (2 ^ 52) with 4503599627370496 in Hm.
    assert (Hmm : redondeo_par (num e) (den e) * 1 <= redondeo_par (num e) (den e) * 2 ^ e)
      by (apply Z.mul_le_mono_nonneg_l; lia).
    change (2 ^ 37) with 137438953472. lia.
  - apply Z.leb_gt in Ee.
    assert (Hp : 0 < 2 ^ (- e)) by (apply Z.pow_pos_nonneg; lia).
    apply Z.div_le_lower_bound; [exact Hp|].
    assert (2 ^ (- e) <= 2 ^ 15) by (apply Z.pow_le_mono_r; lia).
    change (2 ^ 37) with 137438953472. change (2 ^ 15) with 32768 in *.
    change (2 ^ 52) with 4503599627370496 in Hm. nia.
Qed.

Lemma doble_de_entero_multiplo x :
  0 < x < 2 ^ 58 -> (32 | x) -> doble_de_entero x = x.
Proof.
  intros [H0 Hx] [k Hk]. unfold doble_de_entero.
  destruct (Z.abs x <=? 2 ^ 53) eqn:E; [reflexivity|]. apply Z.leb_gt in E.
  rewrite Z.abs_eq, Z.sgn_pos, Z.mul_1_l by lia. rewrite Z.abs_eq in E by lia.
  pose proof (Z.log2_spec x H0) as [Hl1 Hl2].
  assert (Hl : 53 <= Z.log2 x) by (apply Z.log2_le_pow2; lia).
  assert (Hu : Z.log2 x < 58) by (apply Z.log2_lt_pow2; lia).
  set (e := Z.log2 x - 52) in *.
  assert (He : 1 <= e <= 5) by (unfold e; lia).
  assert (Hp : 0 < 2 ^ e) by (apply Z.pow_pos_nonneg; lia).
  assert (H32 : 32 = 2 ^ e * 2 ^ (5 - e)).
  { rewrite <- Z.pow_add_r by lia. replace (e + (5 - e)) with 5 by lia. reflexivity. }
  replace x with (2 ^ e * (k * 2 ^ (5 - e))) at 1 by (rewrite Hk, H32; ring).
  rewrite redondeo_par_exacto by exact Hp.
  rewrite Hk, H32. ring.
Qed.

Lemma piso_cociente_multiplo q :
  0 < q -> 60000 * q < 2 ^ 58 -> piso_cociente (60000 * q) 60000 = q.
Proof.
  intros H0 Hx. unfold piso_cociente.
  destruct (60000 * q =? 0) eqn:E0; [apply Z.eqb_eq in E0; lia|].
  destruct (0 <? 60000 * q) eqn:E1; [|apply Z.ltb_ge in E1; lia].
  unfold cociente_doble. rewrite log2_60000.
  assert (Hu : Z.log2 (60000 * q) < 58) by (apply Z.log2_lt_pow2; lia).
  pose proof (Z.log2_nonneg (60000 * q)) as Hl0.
  set (la := Z.log2 (60000 * q)) in *.
  set (e0 := la - 15 - 52).
  assert (He0 : e0 <= -10) by (unfold e0; lia).
  replace (Z.max 0 (- e0)) with (- e0) by lia.
  replace (Z.max 0 e0) with 0 by lia.
  change (2 ^ 0) with 1. rewrite Z.mul_1_r.
  set (e := if 60000 * q * 2 ^ (- e0) <? 2 ^ 52 * 60000 then e0 - 1 else e0).
  assert (He : e <= -10).
  { unfold e. destruct (60000 * q * 2 ^ (- e0) <? 2 ^ 52 * 60000); lia. }
  replace (Z.max 0 (- e)) with (- e) by lia.
  replace (Z.max 0 e) with 0 by lia.
  change (2 ^ 0) with 1. rewrite Z.mul_1_r.
  destruct (0 <=? e) eqn:Ee; [apply Z.leb_le in Ee; lia|].
  assert (Hp : 0 < 2 ^ (- e)) by (apply Z.pow_pos_nonneg; lia).
  replace (60000 * q * 2 ^ (- e)) with (60000 * (q * 2 ^ (- e))) by ring.
  rewrite redondeo_par_exacto by lia.
  apply Z.div_mul. lia.
Qed.

(** Whole minutes of a window of at most 2^53 ms: the integer quotient. *)
Lemma duracion_exacta i f :
  0 < f - i <= 2 ^ 53 -> duracionTurnoMin_de i f = (f - i) / 60000.
Proof.
  intros [H0 Hx]. unfold duracionTurnoMin_de. change (1000 * 60) with 60000.
  rewrite doble_de_entero_exacto by lia.
  apply piso_cociente_exacto. split; [exact H0|].
  change (2 ^ 53) with 9007199254740992 in Hx.
  change (60000 * 2 ^ 38) with 16492674416640000. lia.
Qed.

(** Beyond 2^53 ms the minutes computed are at least 2^37. *)
Lemma duracion_grande i f :
  2 ^ 53 <= f - i -> 2 ^ 37 <= duracionTurnoMin_de i f.
Proof.
  intros H. unfold duracionTurnoMin_de. change (1000 * 60) with 60000.
  apply piso_cociente_grande. now apply doble_de_entero_grande.
Qed.

(** A window of a whole number of minutes, below 2^58 ms. *)
Lemma duracion_multiplo i q :
  0 < q -> 60000 * q < 2 ^ 58 -> duracionTurnoMin_de i (i + 60000 * q) = q.
Proof.
  intros H0 Hx. unfold duracionTurnoMin_de. change (1000 * 60) with 60000.
  replace (i + 60000 * q - i) with (60000 * q) by lia.
  rewrite doble_de_entero_multiplo; [now apply piso_cociente_multiplo|lia|].
  exists (1875 * q). lia.
Qed.

(** Minutes of at most 240 are the exact ones. *)
Lemma duracion_corta i f :
  i < f -> duracionTurnoMin_de i f <= 240 ->
  duracionTurnoMin_de i f = (f - i) / 60000.
Proof.
  intros Hlt H. destruct (Z.le_gt_cases (f - i) (2 ^ 53)) as [Hs|Hg].
  - apply duracion_exacta. lia.
  - pose proof (duracion_grande i f ltac:(lia)) as Hb.
    change (2 ^ 37) with 137438953472 in Hb. lia.
Qed.

(* ================================================================== *)
(** ** Running the validators *)

Lemma validateTurnoDuration_run inicioDate finDate d env w :
  validateTurnoDuration inicioDate finDate d env w
  = (Normal (veredicto inicioDate finDate d (reloj env (lecturas w))),
     tras_duracion inicioDate finDate w).
Proof.
  unfold validateTurnoDuration, try_catch, veredicto, falla_del_codigo, tras_duracion.
  destruct inicioDate as [|i], finDate as [|f];
    cbn [isNaN_getTime orb date_le ret]; try reflexivity.
  destruct (f <=? i) eqn:Hfi; [reflexivity|].
  unfold bind, newDateNow. cbn [date_lt].
  destruct (i <? reloj env (lecturas w)) eqn:Hpast; [reflexivity|].
  cbv zeta.
  destruct (duracionTurnoMin_de i f <? doble_de_entero (d + 15)) eqn:Hs; [reflexivity|].
  rewrite Z.gtb_ltb.
  destruct (240 <? duracionTurnoMin_de i f); reflexivity.
Qed.

Lemma tras_duracion_tabla inicioDate finDate w :
  tabla (tras_duracion inicioDate finDate w) = tabla w.
Proof.
  unfold tras_duracion.
  destruct (isNaN_getTime inicioDate || isNaN_getTime finDate); [reflexivity|].
  destruct (date_le finDate inicioDate); reflexivity.
Qed.

(** A valid verdict gives two well-formed dates with [fin > inicio]. *)
Lemma veredicto_valido inicioDate finDate d now :
  valido (veredicto inicioDate finDate d now) = true ->
  exists i f, inicioDate = Fecha i /\ finDate = Fecha f /\ i < f
              /\ now <= i /\ d + 15 <= (f - i) / 60000 <= 240.
Proof.
  unfold veredicto, falla_del_codigo.
  destruct inicioDate as [|i], finDate as [|f]; try discriminate.
  destruct (f <=? i) eqn:H1; [discriminate|].
  destruct (i <? now) eqn:H2; [discriminate|].
  cbv zeta.
  destruct (duracionTurnoMin_de i f <? doble_de_entero (d + 15)) eqn:H3; [discriminate|].
  destruct (240 <? duracionTurnoMin_de i f) eqn:H4; [discriminate|].
  intros _. exists i, f.
  apply Z.leb_gt in H1. apply Z.ltb_ge in H2, H3, H4.
  pose proof (duracion_corta i f H1 H4) as Hex. rewrite Hex in H3, H4.
  assert (H0 : 0 <= (f - i) / 60000) by (apply Z.div_pos; lia).
  assert (Hreq : d + 15 <= (f - i) / 60000).
  { destruct (Z.le_gt_cases (d + 15) (2 ^ 53)) as [Hs|Hg].
    - destruct (Z.le_gt_cases (- 2 ^ 53) (d + 15)) as [Hs'|Hg'].
      + rewrite doble_de_entero_exacto in H3 by lia. exact H3.
      + change (2 ^ 53) with 9007199254740992 in Hg'. lia.
    - pose proof (doble_de_entero_grande (d + 15) ltac:(lia)) as Hb.
      change (2 ^ 53) with 9007199254740992 in Hb. lia. }
  repeat split; lia.
Qed.

Lemma validateTurnoOverlap_run sala_ i f excluir env w :
  validateTurnoOverlap sala_ (Fecha i) (Fecha f) excluir env w
  = (Normal (veredicto_solape env (tabla w) sala_ i f excluir), w).
Proof.
  unfold validateTurnoOverlap, try_catch, veredicto_solape, bind, leer_tabla,
    leer_peliculas, formato_local, ret, throw.
  destruct (filter (where_solapamiento sala_ i f excluir) (tabla w)) as [|c l];
    [reflexivity|].
  destruct (pelicula_de (peliculas env) (peliculaId c)); reflexivity.
Qed.

Lemma veredicto_solape_valido env t sala_ i f excluir :
  valido (veredicto_solape env t sala_ i f excluir) = true <->
  filter (where_solapamiento sala_ i f excluir) t = [].
Proof.
  unfold veredicto_solape.
  destruct (filter (where_solapamiento sala_ i f excluir) t) as [|c l].
  - split; reflexivity.
  - destruct (pelicula_de (peliculas env) (peliculaId c)); cbn;
      split; discriminate.
Qed.

(* ================================================================== *)
(** ** Running the storage layer *)

Lemma comprobar_fila_run fk fila otros env w :
  match comprobar_fila fk fila otros env w with
  | (Normal _, w') =>
      w' = w /\ inicio fila <= fin fila
      /\ existsb (conflicto_exclusion fila) otros = false
  | (Lanza _, w') => w' = w
  end.
Proof.
  unfold comprobar_fila, tstzrange.
  destruct (fin fila <? inicio fila) eqn:Hb; [reflexivity|].
  assert (Hle : inicio fila <= fin fila) by lia.
  assert (Hex : match (if existsb (conflicto_exclusion fila) otros
                       then throw ERR_EXCLUSION
                       else if fk then
                              ps <- leer_peliculas ;;
                              match pelicula_de ps (peliculaId fila) with
                              | None => throw ERR_FOREIGN_KEY
                              | Some _ => ret tt
                              end
                            else ret tt) env w with
                | (Normal _, w') =>
                    w' = w /\ inicio fila <= fin fila
                    /\ existsb (conflicto_exclusion fila) otros = false
                | (Lanza _, w') => w' = w
                end).
  { destruct (existsb (conflicto_exclusion fila) otros) eqn:He; [reflexivity|].
    destruct fk; [|cbn; auto].
    unfold bind, leer_peliculas.
    destruct (pelicula_de (peliculas env) (peliculaId fila)); cbn; auto. }
  destruct (inicio fila =? fin fila); exact Hex.
Qed.

Lemma prisma_turno_create_run d env w :
  match prisma_turno_create d env w with
  | (Normal fila, w') =>
      exists i f, cd_inicio d = Fecha i /\ cd_fin d = Fecha f
                  /\ fila = fila_nueva d i f (List.length (tabla w))
                  /\ w' = con_tabla w (tabla w ++ [fila])%list
                  /\ i <= f
                  /\ existsb (conflicto_exclusion fila) (tabla w) = false
  | (Lanza _, w') => w' = w
  end.
Proof.
  unfold prisma_turno_create.
  destruct (cd_inicio d) as [|i]; [reflexivity|].
  destruct (cd_fin d) as [|f]; [reflexivity|].
  unfold bind at 1. unfold leer_tabla. unfold bind at 1.
  pose proof (comprobar_fila_run true (fila_nueva d i f (List.length (tabla w)))
                (tabla w) env w) as H.
  destruct (comprobar_fila true (fila_nueva d i f (List.length (tabla w))) (tabla w) env w)
    as [[[]|e] w1].
  - destruct H as (-> & Hle & Hex).
    unfold bind, escribir_tabla, ret. cbn in Hle.
    exists i, f. repeat split; auto.
  - exact H.
Qed.

Lemma prisma_turno_update_run i d env w :
  match prisma_turno_update i d env w with
  | (Normal nueva, w') =>
      exists r, find (fun x => Nat.eqb (id x) i) (tabla w) = Some r
                /\ nueva = aplicar_update d r
                /\ w' = con_tabla w (reemplazar i nueva (tabla w))
                /\ inicio nueva <= fin nueva
                /\ existsb (conflicto_exclusion nueva) (otros_que i (tabla w)) = false
  | (Lanza _, w') => w' = w
  end.
Proof.
  unfold prisma_turno_update.
  destruct (fecha_valida (up_inicio (ud_campos d)) && fecha_valida (up_fin (ud_campos d))
            && fecha_valida (ud_eliminadoEn d) && fecha_valida (ud_actualizadoEn d));
    [|reflexivity].
  unfold bind at 1. unfold leer_tabla.
  destruct (find (fun r => Nat.eqb (id r) i) (tabla w)) as [r|] eqn:Hf; [|reflexivity].
  unfold bind at 1.
  pose proof (comprobar_fila_run (es_some (up_peliculaId (ud_campos d)))
                (aplicar_update d r)
                (filter (fun x => negb (Nat.eqb (id x) i)) (tabla w)) env w) as H.
  destruct (comprobar_fila (es_some (up_peliculaId (ud_campos d))) (aplicar_update d r)
              (filter (fun x => negb (Nat.eqb (id x) i)) (tabla w)) env w)
    as [[[]|e] w1].
  - destruct H as (-> & Hle & Hex).
    unfold bind, escribir_tabla, ret.
    exists r. repeat split; auto.
  - exact H.
Qed.

(* ================================================================== *)
(** ** The invariant and the two ways a table changes *)

Lemma Inv_vacio : Inv [].
Proof.
  split; try (intros; contradiction).
  intros [|k] r H; discriminate H.
Qed.

(** Two stored rows with the same identifier are the same row. *)
Lemma Inv_id_inj t a b : Inv t -> In a t -> In b t -> id a = id b -> a = b.
Proof.
  intros HI Ha Hb Hab.
  apply In_nth_error in Ha as [ka Hka]. apply In_nth_error in Hb as [kb Hkb].
  pose proof (inv_ids t HI ka a Hka). pose proof (inv_ids t HI kb b Hkb).
  assert (ka = kb) by congruence. subst kb. congruence.
Qed.

Lemma sin_conflicto t r :
  conflicto_exclusion t r = false -> sala r = sala t ->
  inicio t < fin t -> inicio r < fin r -> sin_solape t r.
Proof.
  unfold conflicto_exclusion, tstzrange, sin_solape. intros Hc Hs Ht Hr.
  rewrite Hs, String.eqb_refl in Hc. cbn in Hc.
  destruct (fin t <? inicio t) eqn:E1; [lia|].
  destruct (inicio t =? fin t) eqn:E2; [lia|].
  destruct (fin r <? inicio r) eqn:E3; [lia|].
  destruct (inicio r =? fin r) eqn:E4; [lia|].
  cbn in Hc. apply andb_false_iff in Hc. lia.
Qed.

Lemma sin_solape_sym a b : sin_solape a b -> sin_solape b a.
Proof. unfold sin_solape. tauto. Qed.

Lemma existsb_false_In {A} (p : A -> bool) l x :
  existsb p l = false -> In x l -> p x = false.
Proof.
  intros H Hin. destruct (p x) eqn:E; [|reflexivity].
  assert (existsb p l = true) by (apply existsb_exists; eauto). congruence.
Qed.

(** Insertion of a checked row keeps the invariant. *)
Lemma Inv_alta t fila :
  Inv t ->
  id fila = List.length t -> inicio fila < fin fila ->
  existsb (conflicto_exclusion fila) t = false ->
  Inv (t ++ [fila]).
Proof.
  intros HI Hid Hr Hex. split.
  - intros k r Hk.
    destruct (Nat.lt_ge_cases k (List.length t)) as [Hlt|Hge].
    + rewrite nth_error_app1 in Hk by exact Hlt. eapply inv_ids; eauto.
    + rewrite nth_error_app2 in Hk by exact Hge.
      destruct (k - List.length t)%nat as [|m] eqn:E; cbn in Hk.
      * injection Hk as <-. lia.
      * destruct m; discriminate Hk.
  - intros r Hin. apply in_app_or in Hin as [Hin|[<-|[]]]; [|exact Hr].
    eapply inv_rango; eauto.
  - intros a b Ha Hb Hab Hs.
    apply in_app_or in Ha as [Ha|[<-|[]]]; apply in_app_or in Hb as [Hb|[<-|[]]].
    + eapply inv_excl; eauto.
    + apply sin_solape_sym. apply sin_conflicto; auto.
      * eapply existsb_false_In; eauto.
      * eapply inv_rango; eauto.
    + apply sin_conflicto; auto.
      * eapply existsb_false_In; eauto.
      * eapply inv_rango; eauto.
    + congruence.
Qed.

Lemma In_reemplazar i nueva t x :
  In x (reemplazar i nueva t) ->
  (x = nueva /\ exists r, In r t /\ id r = i) \/ (In x t /\ id x <> i).
Proof.
  unfold reemplazar. intros H. apply in_map_iff in H as (r & Hx & Hin).
  destruct (Nat.eqb (id r) i) eqn:E.
  - left. split; [congruence|]. exists r. split; [exact Hin|]. now apply Nat.eqb_eq.
  - right. subst x. split; [exact Hin|]. now apply Nat.eqb_neq.
Qed.

Lemma In_otros_que i t x : In x t -> id x <> i -> In x (otros_que i t).
Proof.
  intros Hin Hne. unfold otros_que. apply filter_In. split; [exact Hin|].
  apply negb_true_iff. now apply Nat.eqb_neq.
Qed.

(** Replacement of a row by a checked new version keeps the invariant. *)
Lemma Inv_modif t i nueva :
  Inv t ->
  id nueva = i -> inicio nueva < fin nueva ->
  existsb (conflicto_exclusion nueva) (otros_que i t) = false ->
  Inv (reemplazar i nueva t).
Proof.
  intros HI Hid Hr Hex. split.
  - intros k r Hk. unfold reemplazar in Hk. rewrite nth_error_map in Hk.
    destruct (nth_error t k) as [r0|] eqn:E; cbn in Hk; [|discriminate].
    pose proof (inv_ids t HI k r0 E) as Hr0.
    destruct (Nat.eqb (id r0) i) eqn:Ei; injection Hk as <-.
    + apply Nat.eqb_eq in Ei. congruence.
    + exact Hr0.
  - intros r Hin. apply In_reemplazar in Hin as [[-> _]|[Hin _]]; [exact Hr|].
    eapply inv_rango; eauto.
  - intros a b Ha Hb Hab Hs.
    apply In_reemplazar in Ha as [[-> _]|[Ha Hai]];
      apply In_reemplazar in Hb as [[-> _]|[Hb Hbi]].
    + congruence.
    + apply sin_conflicto; auto.
      * eapply existsb_false_In; eauto. now apply In_otros_que.
      * eapply inv_rango; eauto.
    + apply sin_solape_sym. apply sin_conflicto; auto.
      * eapply existsb_false_In; eauto. now apply In_otros_que.
      * eapply inv_rango; eauto.
    + eapply inv_excl; eauto.
Qed.

Lemma find_id_In i (t : list Turno) r :
  find (fun x => Nat.eqb (id x) i) t = Some r -> In r t /\ id r = i.
Proof.
  intros H. apply find_some in H as [Hin He]. split; [exact Hin|].
  now apply Nat.eqb_eq.
Qed.

(* ================================================================== *)
(** ** Every operation keeps the invariant *)

Lemma try_catch_snd {A} (m : M A) (h : ErrorJS -> M A) env w :
  (forall e w1, snd (h e env w1) = w1) ->
  snd (try_catch m h env w) = snd (m env w).
Proof.
  intros Hh. unfold try_catch. destruct (m env w) as [[a|e] w1]; cbn; auto.
Qed.

Lemma con_tabla_tabla w t : tabla (con_tabla w t) = t.
Proof. reflexivity. Qed.

(** A validated insert keeps the invariant, whether the storage accepts
    it or not. *)
Lemma alta_validada_Inv data d now env w :
  valido (veredicto (cd_inicio data) (cd_fin data) d now) = true ->
  Inv (tabla w) ->
  Inv (tabla (snd (prisma_turno_create data env w))).
Proof.
  intros Hv HI.
  pose proof (prisma_turno_create_run data env w) as H.
  destruct (prisma_turno_create data env w) as [[fila|e] w1]; cbn.
  - destruct H as (i & f & Hi & Hf & -> & -> & _ & Hex).
    apply veredicto_valido in Hv as (i' & f' & Hi' & Hf' & Hlt & _).
    rewrite Hi in Hi'. rewrite Hf in Hf'. injection Hi' as <-. injection Hf' as <-.
    rewrite con_tabla_tabla. apply Inv_alta; auto.
  - now subst w1.
Qed.

Lemma createTurno_Inv body env w :
  Inv (tabla w) -> Inv (tabla (snd (createTurno body env w))).
Proof.
  intros HI. unfold createTurno.
  rewrite try_catch_snd
    by (intros e w1; destruct (es_conflicto_db e); reflexivity).
  unfold bind at 1. unfold pelicula_findFirst, bind at 1, leer_peliculas, ret at 1.
  destruct (find _ (peliculas env)) as [p|]; [|exact HI].
  unfold bind at 1. rewrite validateTurnoDuration_run.
  destruct (valido (veredicto (in_inicio body)
                      (calcular_fin (in_inicio body) (duracionMin p))
                      (duracionMin p) (reloj env (lecturas w)))) eqn:Hv;
    unfold bind at 1; cbn [negb throw_if throw ret fst snd];
    [|now rewrite tras_duracion_tabla].
  pose proof Hv as Hv'.
  apply veredicto_valido in Hv' as (i & f & Hi & Hf & _).
  rewrite Hf, Hi in Hv |- *. unfold bind at 1. rewrite validateTurnoOverlap_run.
  set (w1 := tras_duracion (Fecha i) (Fecha f) w).
  assert (HI1 : Inv (tabla w1)) by (unfold w1; now rewrite tras_duracion_tabla).
  destruct (valido (veredicto_solape env (tabla w1) (in_sala body) i f None));
    unfold bind at 1; cbn [negb throw_if throw ret fst snd]; [|exact HI1].
  unfold bind.
  match goal with
  | |- context [prisma_turno_create ?d env w1] =>
      pose proof (alta_validada_Inv d (duracionMin p) (reloj env (lecturas w)) env w1) as HA;
      destruct (prisma_turno_create d env w1) as [[fila|e] w2]
  end; cbn in *; apply HA; auto.
Qed.

Lemma findFirst_In i (t : list Turno) r :
  find (fun x => Nat.eqb (id x) i && es_null (eliminadoEn x)) t = Some r ->
  In r t /\ id r = i /\ eliminadoEn r = None.
Proof.
  intros H. apply find_some in H as [Hin He].
  apply andb_true_iff in He as [H1 H2]. apply Nat.eqb_eq in H1.
  destruct (eliminadoEn r); [discriminate|]. auto.
Qed.

(** A checked update of a live row keeps the invariant, whether the
    storage accepts it or not. *)
Lemma modif_validada_Inv i data env w r0 :
  Inv (tabla w) ->
  In r0 (tabla w) -> id r0 = i ->
  inicio (aplicar_update data r0) < fin (aplicar_update data r0) ->
  Inv (tabla (snd (prisma_turno_update i data env w))).
Proof.
  intros HI Hin Hid Hr.
  pose proof (prisma_turno_update_run i data env w) as H.
  destruct (prisma_turno_update i data env w) as [[nueva|e] w1]; cbn.
  - destruct H as (r & Hf & -> & -> & _ & Hex).
    apply find_id_In in Hf as [Hrin Hrid].
    assert (r = r0) by (eapply Inv_id_inj; eauto; congruence). subst r.
    rewrite con_tabla_tabla. apply Inv_modif; auto.
  - now subst w1.
Qed.

Lemma updateTurno_Inv i u env w :
  Inv (tabla w) -> Inv (tabla (snd (updateTurno i u env w))).
Proof.
  intros HI. unfold updateTurno.
  rewrite try_catch_snd by reflexivity.
  unfold bind at 1. unfold turno_findFirst, bind at 1, leer_tabla, ret at 1.
  destruct (find _ (tabla w)) as [r0|] eqn:Hfind; [|exact HI].
  apply findFirst_In in Hfind as (Hin & Hid & Hnull).
  destruct (es_some (up_inicio u) || es_some (up_fin u)) eqn:Hg.
  - unfold bind at 1. unfold bind at 1. unfold leer_peliculas.
    destruct (pelicula_de (peliculas env) (peliculaId r0)) as [p|]; [|exact HI].
    unfold bind at 1. rewrite validateTurnoDuration_run.
    set (inicioDate := o_else (up_inicio u) (Fecha (inicio r0))).
    set (finDate := o_else (up_fin u) (Fecha (fin r0))).
    destruct (valido (veredicto inicioDate finDate (duracionMin p)
                        (reloj env (lecturas w)))) eqn:Hv;
      unfold bind at 1; cbn [negb throw_if throw ret fst snd];
      [|now rewrite tras_duracion_tabla].
    apply veredicto_valido in Hv as (i' & f' & Hi & Hf & Hlt & _).
    rewrite Hi, Hf. unfold bind at 1. rewrite validateTurnoOverlap_run.
    set (w1 := tras_duracion (Fecha i') (Fecha f') w).
    assert (Ht1 : tabla w1 = tabla w) by (unfold w1; apply tras_duracion_tabla).
    destruct (valido (veredicto_solape env (tabla w1) _ i' f' (Some i)));
      unfold bind at 1; cbn [negb throw_if throw ret fst snd];
      [|now rewrite Ht1].
    unfold bind at 1. unfold newDateNow. unfold bind at 1.
    match goal with
    | |- context [prisma_turno_update i ?d env ?w2] =>
        pose proof (modif_validada_Inv i d env w2 r0) as HA;
        destruct (prisma_turno_update i d env w2) as [[nueva|e] w3]
    end; cbn in *; apply HA; auto; rewrite ?Ht1; auto; congruence.
  - apply orb_false_iff in Hg as [Hgi Hgf].
    destruct (up_inicio u) eqn:Eui; [discriminate|].
    destruct (up_fin u) eqn:Euf; [discriminate|].
    unfold bind at 1. unfold ret at 1. unfold bind at 1. unfold newDateNow.
    unfold bind at 1.
    match goal with
    | |- context [prisma_turno_update i ?d env ?w2] =>
        pose proof (modif_validada_Inv i d env w2 r0) as HA;
        destruct (prisma_turno_update i d env w2) as [[nueva|e] w3]
    end; cbn in *; apply HA; auto; rewrite ?Eui, ?Euf; cbn;
      try (eapply inv_rango; eauto); congruence.
Qed.

Lemma deleteTurno_Inv i env w :
  Inv (tabla w) -> Inv (tabla (snd (deleteTurno i env w))).
Proof.
  intros HI. unfold deleteTurno.
  rewrite try_catch_snd by reflexivity.
  unfold bind at 1. unfold turno_findFirst, bind at 1, leer_tabla, ret at 1.
  destruct (find _ (tabla w)) as [r0|] eqn:Hfind; [|exact HI].
  apply findFirst_In in Hfind as (Hin & Hid & Hnull).
  unfold bind at 1. unfold newDateNow. unfold bind at 1.
  match goal with
  | |- context [prisma_turno_update i ?d env ?w2] =>
      pose proof (modif_validada_Inv i d env w2 r0) as HA;
      destruct (prisma_turno_update i d env w2) as [[nueva|e] w3]
  end; cbn in *; apply HA; auto; eapply inv_rango; eauto.
Qed.

Lemma processTurnoItem_Inv turnoData index acc env w :
  Inv (tabla w) ->
  Inv (tabla (snd (processTurnoItem (Some turnoData) index acc env w))).
Proof.
  intros HI. unfold processTurnoItem; cbv iota beta.
  unfold bind at 1. unfold pelicula_findFirst, bind at 1, leer_peliculas, ret at 1.
  destruct (find _ (peliculas env)) as [p|]; [|exact HI].
  unfold bind at 1. rewrite validateTurnoDuration_run.
  set (finDate := o_else (in_fin turnoData) InvalidDate).
  destruct (valido (veredicto (in_inicio turnoData) finDate (duracionMin p)
                      (reloj env (lecturas w)))) eqn:Hv;
    cbn [negb]; [|unfold ret; cbn; now rewrite tras_duracion_tabla].
  pose proof Hv as Hv'.
  apply veredicto_valido in Hv' as (i & f & Hi & Hf & _).
  rewrite Hf, Hi in Hv |- *. unfold bind at 1. rewrite validateTurnoOverlap_run.
  set (w1 := tras_duracion (Fecha i) (Fecha f) w).
  assert (HI1 : Inv (tabla w1)) by (unfold w1; now rewrite tras_duracion_tabla).
  destruct (valido (veredicto_solape env (tabla w1) (in_sala turnoData) i f None));
    cbn [negb]; [|exact HI1].
  rewrite try_catch_snd
    by (intros e w2; destruct (es_conflicto_db e); reflexivity).
  unfold bind.
  match goal with
  | |- context [prisma_turno_create ?d env w1] =>
      pose proof (alta_validada_Inv d (duracionMin p) (reloj env (lecturas w)) env w1) as HA;
      destruct (prisma_turno_create d env w1) as [[fila|e] w2]
  end; cbn in *; apply HA; auto.
Qed.

Lemma bucle_turnos_Inv turnos : forall i acc env w,
  Inv (tabla w) -> Inv (tabla (snd (bucle_turnos turnos i acc env w))).
Proof.
  induction turnos as [|x resto IH]; intros i acc env w HI; cbn [bucle_turnos].
  - exact HI.
  - unfold bind. destruct x as [x|]; [|exact HI].
    pose proof (processTurnoItem_Inv x i acc env w HI) as H1.
    destruct (processTurnoItem (Some x) i acc env w) as [[acc'|e] w1]; cbn in H1.
    + now apply IH.
    + exact H1.
Qed.

Lemma createMultipleTurnos_Inv turnos env w :
  Inv (tabla w) -> Inv (tabla (snd (createMultipleTurnos turnos env w))).
Proof.
  intros HI. unfold createMultipleTurnos.
  rewrite try_catch_snd by reflexivity.
  unfold bind at 1.
  destruct (Nat.eqb (List.length turnos) 0); cbn [throw_if throw ret]; [exact HI|].
  unfold bind at 1.
  destruct (Nat.ltb 50 (List.length turnos)); cbn [throw_if throw ret]; [exact HI|].
  unfold bind.
  pose proof (bucle_turnos_Inv turnos 0%nat ([], []) env w HI) as H1.
  destruct (bucle_turnos turnos 0%nat ([], []) env w) as [[acc|e] w1]; exact H1.
Qed.

Lemma ejecutar_Inv op env w :
  Inv (tabla w) -> Inv (tabla (snd (ejecutar op env w))).
Proof.
  destruct op; cbn [ejecutar].
  - apply createTurno_Inv.
  - apply updateTurno_Inv.
  - apply deleteTurno_Inv.
  - apply createMultipleTurnos_Inv.
Qed.

Lemma alcanzable_Inv t : alcanzable t -> Inv t.
Proof.
  induction 1 as [|t op env n _ IH].
  - exact Inv_vacio.
  - apply (ejecutar_Inv op env {| tabla := t; lecturas := n |}). exact IH.
Qed.

Lemma conflicto_false t r :
  (sala r = sala t -> sin_solape t r) -> conflicto_exclusion t r = false.
Proof.
  unfold conflicto_exclusion, sin_solape, tstzrange. intros H.
  destruct (String.eqb (sala r) (sala t)) eqn:Es; [|reflexivity].
  apply String.eqb_eq in Es. specialize (H Es). cbn.
  destruct (fin t <? inicio t); [reflexivity|].
  destruct (inicio t =? fin t);
    [destruct (fin r <? inicio r); [|destruct (inicio r =? fin r)]; reflexivity|].
  destruct (fin r <? inicio r); [reflexivity|].
  destruct (inicio r =? fin r); [reflexivity|].
  cbn. apply andb_false_iff. lia.
Qed.

Lemma existsb_false_forall {A} (p : A -> bool) l :
  (forall x, In x l -> p x = false) -> existsb p l = false.
Proof.
  intros H. destruct (existsb p l) eqn:E; [|reflexivity].
  apply existsb_exists in E as (x & Hin & Hp). rewrite (H x Hin) in Hp. discriminate.
Qed.

(* ================================================================== *)
(** ** Properties of the table kept by all five writes *)

Section Conserva.
(** A property of the table that every insert and every update of the
    storage layer keeps is kept by each controller: they touch the table
    through those two only, and the bulk insert of [createMany] either
    keeps all its rows or restores the table it found. *)
Variable P : list Turno -> Prop.

Lemma conserva_ret {A} (a : A) : conserva P (ret a).
Proof. intros env w H. exact H. Qed.

Lemma conserva_throw {A} (e : ErrorJS) : conserva P (@throw A e).
Proof. intros env w H. exact H. Qed.

Lemma conserva_lectura {A} (c : M A) :
  (forall env w, tabla (snd (c env w)) = tabla w) -> conserva P c.
Proof. intros Hc env w H. now rewrite Hc. Qed.

Lemma conserva_bind {A B} (c : M A) (k : A -> M B) :
  conserva P c -> (forall a, conserva P (k a)) -> conserva P (bind c k).
Proof.
  intros Hc Hk env w H. unfold bind.
  specialize (Hc env w H). destruct (c env w) as [[a|e] w1]; cbn in Hc |- *.
  - now apply Hk.
  - exact Hc.
Qed.

Lemma conserva_try_catch {A} (c : M A) (h : ErrorJS -> M A) :
  conserva P c -> (forall e, conserva P (h e)) -> conserva P (try_catch c h).
Proof.
  intros Hc Hh env w H. unfold try_catch.
  specialize (Hc env w H). destruct (c env w) as [[a|e] w1]; cbn in Hc |- *.
  - exact Hc.
  - now apply Hh.
Qed.

Lemma conserva_throw_if c e : conserva P (throw_if c e).
Proof. destruct c; [apply conserva_throw|apply conserva_ret]. Qed.

Ltac conservar :=
  repeat first
    [ apply conserva_ret
    | apply conserva_throw
    | apply conserva_throw_if
    | apply conserva_lectura; intros; reflexivity
    | apply conserva_bind; [|intro]
    | apply conserva_try_catch; [|intro]
    | progress cbv zeta
    | match goal with
      | |- conserva _ (match ?x with _ => _ end) => destruct x
      end ].

Lemma conserva_validateTurnoDuration inicioDate finDate d :
  conserva P (validateTurnoDuration inicioDate finDate d).
Proof.
  apply conserva_lectura. intros env w.
  rewrite validateTurnoDuration_run. apply tras_duracion_tabla.
Qed.

Lemma conserva_validateTurnoOverlap sala_ inicioDate finDate excluir :
  conserva P (validateTurnoOverlap sala_ inicioDate finDate excluir).
Proof. unfold validateTurnoOverlap. conservar. Qed.

Hypothesis P_create : forall d, conserva P (prisma_turno_create d).
Hypothesis P_update : forall i d, conserva P (prisma_turno_update i d).

Ltac conservar_escrituras :=
  repeat first
    [ apply P_create
    | apply P_update
    | apply conserva_validateTurnoDuration
    | apply conserva_validateTurnoOverlap
    | apply conserva_ret
    | apply conserva_throw
    | apply conserva_throw_if
    | apply conserva_lectura; intros; reflexivity
    | apply conserva_bind; [|intro]
    | apply conserva_try_catch; [|intro]
    | progress cbv zeta
    | match goal with
      | |- conserva _ (match ?x with _ => _ end) => destruct x
      end ].

Lemma conserva_createTurno body : conserva P (createTurno body).
Proof. unfold createTurno. conservar_escrituras. Qed.

Lemma conserva_updateTurno i u : conserva P (updateTurno i u).
Proof. unfold updateTurno. conservar_escrituras. Qed.

Lemma conserva_deleteTurno i : conserva P (deleteTurno i).
Proof. unfold deleteTurno. conservar_escrituras. Qed.

Lemma conserva_processTurnoItem x index acc :
  conserva P (processTurnoItem x index acc).
Proof. unfold processTurnoItem. conservar_escrituras. Qed.

Lemma conserva_bucle_turnos turnos : forall i acc,
  conserva P (bucle_turnos turnos i acc).
Proof.
  induction turnos as [|x resto IH]; intros i acc; cbn [bucle_turnos].
  - apply conserva_ret.
  - apply conserva_bind; [apply conserva_processTurnoItem|intro; apply IH].
Qed.

Lemma conserva_createMultipleTurnos turnos :
  conserva P (createMultipleTurnos turnos).
Proof.
  unfold createMultipleTurnos.
  apply conserva_try_catch; [|intro; conservar_escrituras].
  apply conserva_bind; [apply conserva_throw_if|intro].
  apply conserva_bind; [apply conserva_throw_if|intro].
  apply conserva_bind; [apply conserva_bucle_turnos|intro; apply conserva_ret].
Qed.

Lemma conserva_insertar_filas ds : conserva P (insertar_filas ds).
Proof.
  induction ds as [|d ds IH]; cbn [insertar_filas].
  - apply conserva_ret.
  - apply conserva_bind; [apply P_create|intro].
    apply conserva_bind; [exact IH|intro; apply conserva_ret].
Qed.

(** The rollback of a failed [createMany] puts back the table read before
    the statement, which has the property. *)
Lemma conserva_createMany data : conserva P (prisma_turno_createMany data).
Proof.
  intros env w H. unfold prisma_turno_createMany.
  destruct (todos_some data) as [ds|]; [|exact H].
  unfold bind, leer_tabla, try_catch.
  pose proof (conserva_insertar_filas ds env w H) as Hi.
  destruct (insertar_filas ds env w) as [[n|e] w1]; cbn in Hi |- *; assumption.
Qed.

Lemma conserva_bulkCreateTurnos porDefecto pid turnos :
  conserva P (bulkCreateTurnos porDefecto pid turnos).
Proof.
  unfold bulkCreateTurnos.
  apply conserva_try_catch; [|intro; apply conserva_ret].
  apply conserva_bind; [conservar_escrituras|intros [p|]].
  - apply conserva_bind; [apply conserva_createMany|intro; apply conserva_ret].
  - apply conserva_throw.
Qed.

Lemma conserva_escritura e env w :
  P (tabla w) -> P (tabla_tras e env w).
Proof.
  destruct e as [[body|i u|i|turnos]|porDefecto pid turnos]; cbn [tabla_tras ejecutar].
  - apply conserva_createTurno.
  - apply conserva_updateTurno.
  - apply conserva_deleteTurno.
  - apply conserva_createMultipleTurnos.
  - apply conserva_bulkCreateTurnos.
Qed.

Lemma conserva_alcanzable t0 t :
  alcanzable_desde t0 t -> P t0 -> P t.
Proof.
  induction 1 as [|t e env n _ IH]; intros H0; [exact H0|].
  apply (conserva_escritura e env {| tabla := t; lecturas := n |}). now apply IH.
Qed.
End Conserva.

Lemma conflicto_exclusion_sym a b :
  conflicto_exclusion a b = conflicto_exclusion b a.
Proof.
  unfold conflicto_exclusion. rewrite (String.eqb_sym (sala b) (sala a)).
  destruct (String.eqb (sala a) (sala b)); [|reflexivity]. cbn [andb].
  destruct (tstzrange (inicio a) (fin a)) as [[|l1 h1]|],
           (tstzrange (inicio b) (fin b)) as [[|l2 h2]|]; try reflexivity.
  cbn. apply andb_comm.
Qed.

Lemma Inv_total_vacio : Inv_total [].
Proof.
  split; try (intros; contradiction).
  intros [|k] r H; discriminate H.
Qed.

Lemma ids_inj t a b :
  ids_en_orden t -> In a t -> In b t -> id a = id b -> a = b.
Proof.
  intros Hids Ha Hb Hab.
  apply In_nth_error in Ha as [ka Hka]. apply In_nth_error in Hb as [kb Hkb].
  pose proof (Hids ka a Hka). pose proof (Hids kb b Hkb).
  assert (ka = kb) by congruence. subst kb. congruence.
Qed.

(** A checked insert keeps [Inv_total]. *)
Lemma Inv_total_create d : conserva Inv_total (prisma_turno_create d).
Proof.
  intros env w HI.
  pose proof (prisma_turno_create_run d env w) as H.
  destruct (prisma_turno_create d env w) as [[fila|e] w1]; cbn [snd];
    [|now subst w1].
  destruct H as (i & f & Hi & Hf & Hfila & -> & Hle & Hex).
  rewrite con_tabla_tabla.
  assert (Hid : id fila = List.length (tabla w)) by (now rewrite Hfila).
  assert (Hr : inicio fila <= fin fila) by (now rewrite Hfila).
  split.
  - intros k r Hk.
    destruct (Nat.lt_ge_cases k (List.length (tabla w))) as [Hlt|Hge].
    + rewrite nth_error_app1 in Hk by exact Hlt. now apply (it_ids _ HI).
    + rewrite nth_error_app2 in Hk by exact Hge.
      destruct (k - List.length (tabla w))%nat as [|m] eqn:E; cbn in Hk.
      * injection Hk as <-. lia.
      * destruct m; discriminate Hk.
  - intros r Hin. apply in_app_or in Hin as [Hin|[<-|[]]]; [|exact Hr].
    now apply (it_rango _ HI).
  - intros a b Ha Hb Hab.
    apply in_app_or in Ha as [Ha|[<-|[]]]; apply in_app_or in Hb as [Hb|[<-|[]]].
    + now apply (it_excl _ HI).
    + rewrite conflicto_exclusion_sym. eapply existsb_false_In; eauto.
    + eapply existsb_false_In; eauto.
    + congruence.
Qed.

(** A checked update keeps [Inv_total]. *)
Lemma Inv_total_update i d : conserva Inv_total (prisma_turno_update i d).
Proof.
  intros env w HI.
  pose proof (prisma_turno_update_run i d env w) as H.
  destruct (prisma_turno_update i d env w) as [[nueva|e] w1]; cbn [snd];
    [|now subst w1].
  destruct H as (r & Hf & Hn & -> & Hle & Hex).
  rewrite con_tabla_tabla.
  assert (Hid : id nueva = i).
  { apply find_id_In in Hf as [_ Hrid]. now rewrite Hn. }
  split.
  - intros k x Hk. unfold reemplazar in Hk. rewrite nth_error_map in Hk.
    destruct (nth_error (tabla w) k) as [r1|] eqn:E; cbn in Hk; [|discriminate].
    pose proof (it_ids _ HI k r1 E) as Hr1.
    destruct (Nat.eqb (id r1) i) eqn:Ei; injection Hk as <-.
    + apply Nat.eqb_eq in Ei. congruence.
    + exact Hr1.
  - intros x Hin. apply In_reemplazar in Hin as [[-> _]|[Hin _]]; [exact Hle|].
    now apply (it_rango _ HI).
  - intros a b Ha Hb Hab.
    apply In_reemplazar in Ha as [[-> _]|[Ha Hai]];
      apply In_reemplazar in Hb as [[-> _]|[Hb Hbi]].
    + congruence.
    + eapply existsb_false_In; eauto. now apply In_otros_que.
    + rewrite conflicto_exclusion_sym.
      eapply existsb_false_In; eauto. now apply In_otros_que.
    + now apply (it_excl _ HI).
Qed.

Lemma alcanzable_total_Inv t : alcanzable_total t -> Inv_total t.
Proof.
  intros H.
  apply (conserva_alcanzable Inv_total Inv_total_create Inv_total_update [] t H).
  exact Inv_total_vacio.
Qed.

Lemma Inv_total_de_Inv t : Inv t -> Inv_total t.
Proof.
  intros HI. split.
  - exact (inv_ids _ HI).
  - intros r Hr. pose proof (inv_rango _ HI r Hr). lia.
  - intros a b Ha Hb Hab. apply conflicto_false. intros Hs.
    apply (inv_excl _ HI); auto.
Qed.

Lemma Inv_de_total t : Inv_total t -> filas_no_vacias t -> Inv t.
Proof.
  intros HI Hne. split.
  - exact (it_ids _ HI).
  - exact Hne.
  - intros a b Ha Hb Hab Hs. apply sin_conflicto; auto.
    now apply (it_excl _ HI).
Qed.

(** The four writes of turnosController.ts are among the five. *)
Lemma alcanzable_es_total t : alcanzable t -> alcanzable_total t.
Proof.
  induction 1 as [|t op env n _ IH]; [apply ad_aqui|].
  exact (ad_paso [] t (EsTurnos op) env n IH).
Qed.

(* ================================================================== *)
(** ** Text and range lemmas *)

Lemma prefix_append s r : String.prefix s (s ++ r) = true.
Proof.
  induction s as [|c s IH]; cbn.
  - destruct r; reflexivity.
  - destruct (ascii_dec c c) as [_|N]; [exact IH|congruence].
Qed.

Lemma includes_prefix s sub : String.prefix sub s = true -> includes s sub = true.
Proof. intros H. destruct s; cbn [includes]; rewrite H; reflexivity. Qed.

Lemma includes_append p s sub :
  includes s sub = true -> includes (p ++ s) sub = true.
Proof.
  intros H. induction p as [|c p IH]; cbn [append]; [exact H|].
  cbn [includes]. destruct (String.prefix sub (String c (p ++ s))); auto.
Qed.

Lemma includes_medio p s r : includes (p ++ s ++ r) s = true.
Proof. apply includes_append, includes_prefix, prefix_append. Qed.

(** Implication from the four-case enumeration to the half-open test and
    back, for well-formed ranges. *)
Lemma cuatro_casos_interseca s1 e1 s2 e2 :
  s1 < e1 -> s2 < e2 ->
  cuatro_casos s1 e1 s2 e2 = interseca s1 e1 s2 e2.
Proof.
  intros H1 H2. unfold cuatro_casos, interseca.
  rewrite !Z.gtb_ltb, !Z.geb_leb.
  destruct (s2 <=? s1) eqn:A, (s1 <? e2) eqn:B, (s2 <? e1) eqn:C,
           (e1 <=? e2) eqn:D, (s1 <=? s2) eqn:E, (e2 <=? e1) eqn:F;
    cbn; try reflexivity; lia.
Qed.

(* ================================================================== *)
(** ** The example scenarios of the specification *)

Example escenario_1 :
  createTurno pedido_1 entorno_ej mundo_vacio
  = (Normal (RespTurno 201 fila_1 "Turno creado exitosamente"),
     {| tabla := [fila_1]; lecturas := 1 |}).
Proof. vm_compute. reflexivity. Qed.

(** Scenario 2: same room, create at 11:00 with a 60-minute movie. *)
Example escenario_2 :
  createTurno (pedido "p60" "A1" (hora 11) None) entorno_ej mundo_1
  = (Normal (RespError 409 "SCHEDULE_CONFLICT"
               (MSG_CONFLICTO "A1" "Largometraje" "36000000" "42300000")),
     tick mundo_1).
Proof. vm_compute. reflexivity. Qed.

(** Scenario 3: start before the validation instant. *)
Example escenario_3 :
  fst (createTurno pedido_1 (entorno_a (hora 24)) mundo_vacio)
  = Normal (RespError 400 "INVALID_DURATION" MSG_IN_THE_PAST).
Proof. vm_compute. reflexivity. Qed.

(** Scenario 4: 30 minutes for a 180-minute movie. *)
Example escenario_4 :
  fst (validateTurnoDuration (Fecha (hora 10)) (Fecha (hora 10 + minutos 30)) 180
         entorno_ej mundo_vacio)
  = Normal (no_valido (MSG_TOO_SHORT 30 195 180)).
Proof. vm_compute. reflexivity. Qed.

(* ================================================================== *)
(** ** The soft delete on a table that satisfies the invariant *)

(** A new version of a stored row that keeps its room and its window
    passes the exclusion constraint. *)
Lemma mismo_horario_sin_conflicto t i r nueva :
  Inv_total t -> In r t -> id r = i ->
  sala nueva = sala r -> inicio nueva = inicio r -> fin nueva = fin r ->
  existsb (conflicto_exclusion nueva) (otros_que i t) = false.
Proof.
  intros HI Hin Hid Hs Hi Hf. apply existsb_false_forall. intros x Hx.
  unfold otros_que in Hx. apply filter_In in Hx as [Hxin Hne].
  apply negb_true_iff in Hne. apply Nat.eqb_neq in Hne.
  assert (Hrx : conflicto_exclusion r x = false)
    by (apply (it_excl t HI); auto; congruence).
  unfold conflicto_exclusion in *. rewrite Hs, Hi, Hf. exact Hrx.
Qed.

Lemma find_id_of_In t i r :
  ids_en_orden t -> In r t -> id r = i -> find (fun x => Nat.eqb (id x) i) t = Some r.
Proof.
  intros HI Hin Hid.
  destruct (find (fun x => Nat.eqb (id x) i) t) as [r'|] eqn:Hf.
  - apply find_id_In in Hf as [Hin' Hid']. f_equal.
    eapply ids_inj; eauto. congruence.
  - pose proof (find_none _ _ Hf r Hin) as Hn. cbn in Hn.
    apply Nat.eqb_neq in Hn. contradiction.
Qed.

Lemma deleteTurno_run i r env w :
  Inv_total (tabla w) ->
  find (fun x => Nat.eqb (id x) i && es_null (eliminadoEn x)) (tabla w) = Some r ->
  deleteTurno i env w
  = (Normal (RespMensaje 200 "Turno eliminado exitosamente"),
     con_tabla (tick w)
       (reemplazar i (borrada (reloj env (lecturas w)) r) (tabla w))).
Proof.
  intros HI Hfind. unfold deleteTurno, try_catch.
  unfold bind at 1. unfold turno_findFirst, bind at 1, leer_tabla, ret at 1.
  rewrite Hfind. apply findFirst_In in Hfind as (Hin & Hid & Hnull).
  unfold bind at 1. unfold newDateNow. unfold bind at 1.
  unfold prisma_turno_update. cbn [datos_borrado ud_campos up_inicio up_fin
    ud_eliminadoEn ud_actualizadoEn fecha_valida andb up_peliculaId es_some].
  unfold bind at 1. unfold leer_tabla. cbn [tabla].
  rewrite (find_id_of_In (tabla w) i r (it_ids _ HI) Hin Hid).
  unfold bind at 1. unfold comprobar_fila.
  fold (borrada (reloj env (lecturas w)) r).
  assert (Hr : inicio r <= fin r) by (eapply it_rango; eauto).
  unfold tstzrange. cbn [borrada aplicar_update inicio fin datos_borrado ud_campos
    up_inicio up_fin o_ms].
  destruct (fin r <? inicio r) eqn:E1; [lia|].
  fold (otros_que i (tabla w)).
  rewrite (mismo_horario_sin_conflicto (tabla w) i r _ HI Hin Hid)
    by reflexivity.
  destruct (inicio r =? fin r); reflexivity.
Qed.

(* ================================================================== *)
(** ** Claims C2, C6 and C9 *)

Lemma tabla_dos_alcanzable : alcanzable tabla_dos.
Proof.
  change tabla_dos with
    (tabla (snd (ejecutar (OpCreate (pedido "p60" "A1" (hora 12) None)) entorno_ej
                   {| tabla := [fila_1]; lecturas := 0 |}))).
  apply alc_paso.
  change [fila_1] with
    (tabla (snd (ejecutar (OpCreate pedido_1) entorno_ej
                   {| tabla := []; lecturas := 0 |}))).
  apply alc_paso. apply alc_vacio.
Qed.

(** C2 (four cases reduce to one test).  For a candidate [[s1, e1)] and a
    stored range [[s2, e2)], both with start before end, the disjunction of
    the four cases of the query of validateTurnoOverlap holds exactly when
    s1 < e2 AND s2 < e1. *)
Theorem C2_four_cases_iff_half_open :
  forall s1 e1 s2 e2, s1 < e1 -> s2 < e2 ->
    (cuatro_casos s1 e1 s2 e2 = true <-> (s1 < e2 /\ s2 < e1)).
Proof.
  intros s1 e1 s2 e2 H1 H2.
  rewrite (cuatro_casos_interseca s1 e1 s2 e2 H1 H2).
  unfold interseca. rewrite andb_true_iff, !Z.ltb_lt. tauto.
Qed.

Lemma C2_four_cases_iff_half_open_witness :
  cuatro_casos (hora 11) (hora 12) (hora 10) (hora 10 + minutos 105) = true
  <-> (hora 11 < hora 10 + minutos 105 /\ hora 10 < hora 12).
Proof.
  apply (C2_four_cases_iff_half_open (hora 11) (hora 12) (hora 10)
           (hora 10 + minutos 105)); reflexivity.
Defined.

Lemma texto_de_fallo_clase k k' r r' :
  texto_de_fallo k r = texto_de_fallo k' r' -> misma_clase k k' = true.
Proof.
  destruct k, k'; cbn; intros H; try reflexivity; exfalso;
    unfold MSG_FECHAS_INVALIDAS, MSG_INVALID_RANGE, MSG_IN_THE_PAST,
      MSG_TOO_LONG, MSG_TOO_SHORT in H; cbn [append] in H; discriminate H.
Qed.

(** For a duration of magnitude at most 2^36 minutes the code reports
    what the rules of the specification report, whatever the dates. *)
Lemma falla_del_codigo_exacta start end_ d now :
  Z.abs d <= 2 ^ 36 ->
  falla_del_codigo start end_ d now = primera_falla start end_ d now.
Proof.
  intros Hd. change (2 ^ 36) with 68719476736 in Hd.
  unfold falla_del_codigo, primera_falla.
  destruct start as [|i], end_ as [|f]; try reflexivity.
  destruct (f <=? i) eqn:H1; [reflexivity|]. apply Z.leb_gt in H1.
  destruct (i <? now); [reflexivity|]. cbv zeta.
  rewrite (doble_de_entero_exacto (d + 15))
    by (change (2 ^ 53) with 9007199254740992; lia).
  destruct (Z.le_gt_cases (f - i) (2 ^ 53)) as [Hs|Hg].
  - rewrite duracion_exacta by lia. reflexivity.
  - pose proof (duracion_grande i f ltac:(lia)) as Hb.
    change (2 ^ 37) with 137438953472 in Hb.
    change (2 ^ 53) with 9007199254740992 in Hg.
    assert (Hq : 137438953472 <= (f - i) / 60000)
      by (apply Z.div_le_lower_bound; lia).
    destruct (duracionTurnoMin_de i f <? d + 15) eqn:E1; [apply Z.ltb_lt in E1; lia|].
    destruct ((f - i) / 60000 <? d + 15) eqn:E2; [apply Z.ltb_lt in E2; lia|].
    destruct (240 <? duracionTurnoMin_de i f) eqn:E3; [|apply Z.ltb_ge in E3; lia].
    destruct (240 <? (f - i) / 60000) eqn:E4; [reflexivity|apply Z.ltb_ge in E4; lia].
Qed.

(** C6 (amended: Duration Validator, first failure wins).  For every
    referenceDurationMinutes of magnitude at most 2^36 (every 32-bit
    integer is one) and all dates, with [now] the instant the validator
    reads, its result is the verdict of the rules taken in order:
    ill-formed timestamps; end <= start (INVALID_RANGE); start < now
    (IN_THE_PAST); floor((end - start) / 60s) below
    referenceDurationMinutes + 15 (TOO_SHORT, both values in the message);
    above 240 (TOO_LONG).  It is valid exactly when no rule fails, and the
    messages of different kinds are different texts. *)
Theorem C6_first_failing_rule_in_order :
  forall (start end_ : JSDate) (referenceDurationMinutes : Z) env w,
    Z.abs referenceDurationMinutes <= 2 ^ 36 ->
    let now := reloj env (lecturas w) in
    let r := fst (validateTurnoDuration start end_ referenceDurationMinutes env w) in
    (r = Normal match primera_falla start end_ referenceDurationMinutes now with
                | None => es_valido
                | Some k => no_valido (texto_de_fallo k referenceDurationMinutes)
                end)
    /\ (r = Normal es_valido
        <-> primera_falla start end_ referenceDurationMinutes now = None)
    /\ (forall k k' d d', texto_de_fallo k d = texto_de_fallo k' d' ->
                          misma_clase k k' = true)
    /\ (forall a q d,
          includes (texto_de_fallo (TOO_SHORT a q) d) (numero_a_texto a) = true
          /\ includes (texto_de_fallo (TOO_SHORT a q) d) (numero_a_texto q) = true).
Proof.
  intros start end_ d env w Hd now r. subst r now.
  rewrite validateTurnoDuration_run. cbn [fst]. unfold veredicto.
  rewrite (falla_del_codigo_exacta start end_ d _ Hd).
  split; [reflexivity|]. split; [|split].
  - destruct (primera_falla start end_ d (reloj env (lecturas w))).
    + split; intros H; discriminate H.
    + split; reflexivity.
  - intros k k' d1 d2. apply texto_de_fallo_clase.
  - intros a q d0. cbn [texto_de_fallo]. unfold MSG_TOO_SHORT. split.
    + apply includes_medio.
    + do 3 apply includes_append. apply includes_prefix, prefix_append.
Qed.

(** A 100-minute window for a 90-minute movie: too short, 100 against 105. *)
Lemma C6_first_failing_rule_in_order_witness :
  fst (validateTurnoDuration (Fecha (hora 10)) (Fecha (hora 10 + minutos 100)) 90
         entorno_ej mundo_vacio)
  = Normal (no_valido (MSG_TOO_SHORT 100 105 90)).
Proof.
  exact (proj1 (C6_first_failing_rule_in_order
                  (Fecha (hora 10)) (Fecha (hora 10 + minutos 100)) 90
                  entorno_ej mundo_vacio ltac:(vm_compute; discriminate))).
Defined.

(** C6, as stated for all inputs, fails.  Between the first and the last
    instant that a date can hold but one millisecond, the difference of
    the two time values is not a double: it is rounded up by one, the
    minutes computed are 288000000000 and not 287999999999, and a movie of
    287999999985 minutes, for which the rules give TOO_SHORT, is answered
    TOO_LONG. *)
Lemma C6_minutes_are_rounded_beyond_double_precision :
  fst (validateTurnoDuration (Fecha (- 8639999999999999)) (Fecha 8640000000000000)
         287999999985 (entorno_a (- 8640000000000000)) mundo_vacio)
  = Normal (no_valido MSG_TOO_LONG)
  /\ primera_falla (Fecha (- 8639999999999999)) (Fecha 8640000000000000)
       287999999985 (- 8640000000000000)
     = Some (TOO_SHORT 287999999999 288000000000).
Proof. split; vm_compute; reflexivity. Qed.

(** C9, as stated, fails: the validation instant is not an argument of
    validateTurnoDuration but the reading of the system clock, so two
    invocations with the same three arguments return different results. *)
Lemma C9_same_arguments_different_results :
  fst (validateTurnoDuration (Fecha (hora 10)) (Fecha (hora 10 + minutos 105)) 90
         (entorno_a 0) mundo_vacio)
  <> fst (validateTurnoDuration (Fecha (hora 10)) (Fecha (hora 10 + minutos 105)) 90
            (entorno_a (hora 24)) mundo_vacio).
Proof. vm_compute. discriminate. Qed.

(** C9 (amended).  The result of the Duration Validator is determined by
    its three arguments and the instant read from the system clock: two
    invocations with equal arguments whose clock readings are equal return
    equal results, whatever the catalogue, the locale and the table; and
    an invocation leaves the table of turnos as it was. *)
Theorem C9_determined_by_arguments_and_clock :
  forall inicioDate finDate duracionPeliculaMin env1 w1 env2 w2,
    reloj env1 (lecturas w1) = reloj env2 (lecturas w2) ->
    fst (validateTurnoDuration inicioDate finDate duracionPeliculaMin env1 w1)
    = fst (validateTurnoDuration inicioDate finDate duracionPeliculaMin env2 w2)
    /\ tabla (snd (validateTurnoDuration inicioDate finDate duracionPeliculaMin env1 w1))
       = tabla w1.
Proof.
  intros i f d env1 w1 env2 w2 Hclk.
  rewrite !validateTurnoDuration_run. cbn [fst snd].
  rewrite Hclk. split; [reflexivity|apply tras_duracion_tabla].
Qed.

Lemma C9_determined_by_arguments_and_clock_witness :
  fst (validateTurnoDuration (Fecha (hora 10)) (Fecha (hora 10 + minutos 105)) 90
         entorno_ej mundo_vacio)
  = fst (validateTurnoDuration (Fecha (hora 10)) (Fecha (hora 10 + minutos 105)) 90
           {| peliculas := []; reloj := fun n => Z.of_nat n - 1;
              toLocaleString_esES := fun _ => "x" |} mundo_1)
  /\ tabla (snd (validateTurnoDuration (Fecha (hora 10))
                   (Fecha (hora 10 + minutos 105)) 90 entorno_ej mundo_vacio))
     = tabla mundo_vacio.
Proof.
  apply (C9_determined_by_arguments_and_clock
           (Fecha (hora 10)) (Fecha (hora 10 + minutos 105)) 90
           entorno_ej mundo_vacio
           {| peliculas := []; reloj := fun n => Z.of_nat n - 1;
              toLocaleString_esES := fun _ => "x" |} mundo_1).
  reflexivity.
Defined.

Lemma tabla_borrada_alcanzable : alcanzable tabla_borrada.
Proof.
  change tabla_borrada with
    (tabla (snd (ejecutar (OpDelete 0%nat) entorno_ej
                   {| tabla := [fila_1]; lecturas := 0 |}))).
  apply alc_paso.
  change [fila_1] with
    (tabla (snd (ejecutar (OpCreate pedido_1) entorno_ej
                   {| tabla := []; lecturas := 0 |}))).
  apply alc_paso. apply alc_vacio.
Qed.

(* ================================================================== *)
(** ** Claim C3: the single create *)

(** What a successful [createTurno] has done. *)
Lemma createTurno_exito body env w st turno msg :
  fst (createTurno body env w) = Normal (RespTurno st turno msg) ->
  exists p s,
    find (fun x => String.eqb (pel_id x) (in_peliculaId body)
                   && es_null (pel_eliminadoEn x)) (peliculas env) = Some p
    /\ in_inicio body = Fecha s
    /\ turno = fila_nueva
                 (datos_create body (Fecha s)
                    (Fecha (s + (duracionMin p + 15) * 60 * 1000)))
                 s (s + (duracionMin p + 15) * 60 * 1000) (List.length (tabla w))
    /\ tabla (snd (createTurno body env w)) = (tabla w ++ [turno])%list
    /\ st = 201.
Proof.
  intros H. destruct (createTurno body env w) as [res w'] eqn:E.
  cbn [fst snd] in *. subst res. revert E.
  unfold createTurno, try_catch.
  unfold bind at 1. unfold pelicula_findFirst, bind at 1, leer_peliculas, ret at 1.
  destruct (find _ (peliculas env)) as [p|] eqn:Hp; [|no_es_exito].
  unfold bind at 1. rewrite validateTurnoDuration_run.
  destruct (valido (veredicto (in_inicio body)
                      (calcular_fin (in_inicio body) (duracionMin p))
                      (duracionMin p) (reloj env (lecturas w)))) eqn:Hv;
    unfold bind at 1; cbn [negb throw_if throw ret fst snd]; [|no_es_exito].
  apply veredicto_valido in Hv as (i & f & Hi & Hf & _).
  rewrite Hf, Hi. unfold bind at 1. rewrite validateTurnoOverlap_run.
  set (w1 := tras_duracion (Fecha i) (Fecha f) w).
  assert (Ht1 : tabla w1 = tabla w) by (unfold w1; apply tras_duracion_tabla).
  destruct (valido (veredicto_solape env (tabla w1) (in_sala body) i f None));
    unfold bind at 1; cbn [negb throw_if throw ret fst snd]; [|no_es_exito].
  unfold bind.
  fold (datos_create body (Fecha i) (Fecha f)).
  pose proof (prisma_turno_create_run (datos_create body (Fecha i) (Fecha f)) env w1) as HR.
  destruct (prisma_turno_create (datos_create body (Fecha i) (Fecha f)) env w1)
    as [[fila|e] w2]; [|no_es_exito].
  destruct HR as (i' & f' & Hi' & Hf' & -> & -> & _ & _).
  cbn in Hi', Hf'. injection Hi' as <-. injection Hf' as <-.
  cbn [ret fst snd]. intros H. injection H as Hst Ht Hm Hw.
  rewrite Hi in Hf. cbn [calcular_fin] in Hf. unfold newDate in Hf.
  destruct (Z.abs (i + (duracionMin p + 15) * 60 * 1000) <=? maxTimeValue);
    [|discriminate]. injection Hf as Hf.
  exists p, i. subst w'. rewrite con_tabla_tabla. rewrite Ht1 in *. subst f turno.
  repeat split; auto.
Qed.

(** The persisted end of scenario 1 is 11:45, not the 12:00 of the caller. *)
Example escenario_1_fin : fin fila_1 = hora 11 + minutos 45.
Proof. reflexivity. Qed.

(** C3 (cancelled and soft-deleted rows must not block a write).  On the
    reachable table whose only row is cancelled and soft-deleted, the
    pre-check of a create in the same room and window finds no conflict,
    and yet the create is rejected as a schedule conflict by the exclusion
    constraint, which has no predicate on [estado] or [eliminadoEn]. *)
Theorem C3_cancelled_row_rejects_create :
  let w := {| tabla := tabla_borrada; lecturas := 0 |} in
  let body := pedido "p60" "A1" (hora 11) None in
  alcanzable tabla_borrada
  /\ estado fila_1_borrada = CANCELADO
  /\ eliminadoEn fila_1_borrada <> None
  /\ filter (where_solapamiento "A1" (hora 11) (hora 11 + minutos 75) None)
       tabla_borrada = []
  /\ conflicto_exclusion
       (fila_nueva (datos_create body (Fecha (hora 11)) (Fecha (hora 11 + minutos 75)))
          (hora 11) (hora 11 + minutos 75) 1)
       fila_1_borrada = true
  /\ createTurno body entorno_ej w
     = (Normal (RespError 409 "SCHEDULE_CONFLICT"
                  "Conflicto de horario: existe un turno solapado en la misma sala"),
        tick w).
Proof.
  cbv zeta. split; [exact tabla_borrada_alcanzable|].
  split; [reflexivity|]. split; [discriminate|].
  split; [reflexivity|]. split; [reflexivity|].
  vm_compute. reflexivity.
Qed.

(* ================================================================== *)
(** ** Outcomes of the insert and of the two create paths *)

Lemma tras_duracion_valido i f d now w :
  valido (veredicto (Fecha i) (Fecha f) d now) = true ->
  tras_duracion (Fecha i) (Fecha f) w = tick w.
Proof.
  intros Hv. apply veredicto_valido in Hv as (i' & f' & Hi & Hf & Hlt & _).
  injection Hi as <-. injection Hf as <-.
  unfold tras_duracion. cbn. destruct (f <=? i) eqn:E; [lia|reflexivity].
Qed.

Lemma es_conflicto_db_exclusion : es_conflicto_db ERR_EXCLUSION = true.
Proof. vm_compute. reflexivity. Qed.

Lemma prisma_turno_create_rechazo d i f env w :
  cd_inicio d = Fecha i -> cd_fin d = Fecha f -> i <= f ->
  existsb (conflicto_exclusion (fila_nueva d i f (List.length (tabla w)))) (tabla w) = true ->
  prisma_turno_create d env w = (Lanza ERR_EXCLUSION, w).
Proof.
  intros Hi Hf Hle Hex. unfold prisma_turno_create. rewrite Hi, Hf.
  unfold bind at 1. unfold leer_tabla. unfold bind at 1.
  unfold comprobar_fila, tstzrange. cbn [fila_nueva inicio fin].
  destruct (f <? i) eqn:E; [lia|]. rewrite Hex.
  destruct (i =? f); reflexivity.
Qed.

Lemma prisma_turno_create_ok d i f p env w :
  cd_inicio d = Fecha i -> cd_fin d = Fecha f -> i <= f ->
  existsb (conflicto_exclusion (fila_nueva d i f (List.length (tabla w)))) (tabla w) = false ->
  pelicula_de (peliculas env) (cd_peliculaId d) = Some p ->
  prisma_turno_create d env w
  = (Normal (fila_nueva d i f (List.length (tabla w))),
     con_tabla w (tabla w ++ [fila_nueva d i f (List.length (tabla w))])%list).
Proof.
  intros Hi Hf Hle Hex Hp. unfold prisma_turno_create. rewrite Hi, Hf.
  unfold bind at 1. unfold leer_tabla. unfold bind at 1.
  unfold comprobar_fila, tstzrange. cbn [fila_nueva inicio fin peliculaId].
  destruct (f <? i) eqn:E; [lia|]. rewrite Hex.
  destruct (i =? f); unfold bind at 1; unfold bind at 1; unfold leer_peliculas;
    rewrite Hp; reflexivity.
Qed.

(** A movie found by [findFirst] is reachable through the relation. *)
Lemma pelicula_findFirst_relacion ps pid p :
  find (fun x => String.eqb (pel_id x) pid && es_null (pel_eliminadoEn x)) ps = Some p ->
  exists p', pelicula_de ps pid = Some p'.
Proof.
  intros H. apply find_some in H as [Hin Hp].
  apply andb_true_iff in Hp as [Hid _].
  unfold pelicula_de.
  destruct (find (fun x => String.eqb (pel_id x) pid) ps) as [p'|] eqn:E; [eauto|].
  pose proof (find_none _ _ E p Hin) as Hn. cbn in Hn. congruence.
Qed.

Section CaminoCreate.
(** One run of [createTurno] that reaches the overlap pre-check. *)
Variables (body : TurnoInput) (env : Entorno) (w : Mundo).
Variables (p : Pelicula) (i f : Z).
Hypothesis Hpelicula :
  find (fun x => String.eqb (pel_id x) (in_peliculaId body)
                 && es_null (pel_eliminadoEn x)) (peliculas env) = Some p.
Hypothesis Hinicio : in_inicio body = Fecha i.
Hypothesis Hfin : calcular_fin (Fecha i) (duracionMin p) = Fecha f.
Hypothesis Hduracion :
  valido (veredicto (Fecha i) (Fecha f) (duracionMin p) (reloj env (lecturas w))) = true.

Lemma createTurno_hasta_precheck :
  createTurno body env w
  = try_catch
      (overlapValidation <- ret (veredicto_solape env (tabla w) (in_sala body) i f None) ;;
       throw_if (negb (valido overlapValidation))
         (createError 409 (mensaje_de overlapValidation) "SCHEDULE_CONFLICT") ;;;
       turno <- prisma_turno_create (datos_create body (Fecha i) (Fecha f)) ;;
       ret (RespTurno 201 turno "Turno creado exitosamente"))
      (fun error =>
         if es_conflicto_db error then
           next (createError 409
                   "Conflicto de horario: existe un turno solapado en la misma sala"
                   "SCHEDULE_CONFLICT")
         else next error) env (tick w).
Proof.
  unfold createTurno, try_catch.
  unfold bind at 1. unfold pelicula_findFirst, bind at 1, leer_peliculas, ret at 1.
  rewrite Hpelicula. unfold bind at 1. rewrite Hinicio, Hfin.
  rewrite validateTurnoDuration_run, Hduracion.
  rewrite (tras_duracion_valido _ _ _ _ w Hduracion).
  unfold bind at 1. cbn [negb throw_if ret].
  unfold bind at 1. rewrite validateTurnoOverlap_run.
  reflexivity.
Qed.

(** Rejection by the pre-check. *)
Lemma createTurno_rechazo_precheck :
  valido (veredicto_solape env (tabla w) (in_sala body) i f None) = false ->
  exists m,
    createTurno body env w = (Normal (RespError 409 "SCHEDULE_CONFLICT" m), tick w).
Proof.
  intros Hov. rewrite createTurno_hasta_precheck.
  unfold try_catch, bind, ret. cbn [tabla tick]. rewrite Hov.
  cbn [negb throw_if throw].
  match goal with
  | |- context [es_conflicto_db ?e] => destruct (es_conflicto_db e)
  end; unfold next, ret, errorHandler; cbn; eexists; reflexivity.
Qed.

(** Rejection by the exclusion constraint, the pre-check having passed. *)
Lemma createTurno_rechazo_storage :
  valido (veredicto_solape env (tabla w) (in_sala body) i f None) = true ->
  existsb (conflicto_exclusion (candidata body i f w)) (tabla w) = true ->
  createTurno body env w
  = (Normal (RespError 409 "SCHEDULE_CONFLICT"
               "Conflicto de horario: existe un turno solapado en la misma sala"),
     tick w).
Proof.
  intros Hov Hex. rewrite createTurno_hasta_precheck.
  unfold try_catch, bind, ret. cbn [tabla tick]. rewrite Hov.
  cbn [negb throw_if throw ret].
  apply veredicto_valido in Hduracion as (i' & f' & Hi & Hf & Hlt & _).
  injection Hi as <-. injection Hf as <-.
  rewrite (prisma_turno_create_rechazo _ i f env (tick w));
    [rewrite es_conflicto_db_exclusion; reflexivity
    |reflexivity|reflexivity|lia|exact Hex].
Qed.
End CaminoCreate.

Section CaminoBulk.
(** One run of [processTurnoItem] that reaches the overlap pre-check. *)
Variables (turnoData : TurnoInput) (index : nat) (acc : Acumulado).
Variables (env : Entorno) (w : Mundo).
Variables (p : Pelicula) (i f : Z).
Hypothesis Hpelicula :
  find (fun x => String.eqb (pel_id x) (in_peliculaId turnoData)
                 && es_null (pel_eliminadoEn x)) (peliculas env) = Some p.
Hypothesis Hinicio : in_inicio turnoData = Fecha i.
Hypothesis Hfin : in_fin turnoData = Some (Fecha f).
Hypothesis Hduracion :
  valido (veredicto (Fecha i) (Fecha f) (duracionMin p) (reloj env (lecturas w))) = true.

Lemma processTurnoItem_hasta_precheck :
  processTurnoItem (Some turnoData) index acc env w
  = (overlapValidation <- ret (veredicto_solape env (tabla w) (in_sala turnoData) i f None) ;;
     if negb (valido overlapValidation) then
       ret (push_error acc index (mensaje overlapValidation) turnoData)
     else
       try_catch
         (created <- prisma_turno_create (datos_create turnoData (Fecha i) (Fecha f)) ;;
          ret (push_creado acc created))
         (fun err =>
            if es_conflicto_db err then
              ret (push_error acc index
                     (Some "Conflicto de horario con otro turno existente (DB constraint)")
                     turnoData)
            else ret (push_error acc index (Some (e_message err)) turnoData)))
      env (tick w).
Proof.
  unfold processTurnoItem; cbv iota beta.
  unfold bind at 1. unfold pelicula_findFirst, bind at 1, leer_peliculas, ret at 1.
  rewrite Hpelicula. unfold bind at 1. rewrite Hinicio, Hfin. cbn [o_else].
  rewrite validateTurnoDuration_run, Hduracion.
  rewrite (tras_duracion_valido _ _ _ _ w Hduracion).
  cbn [negb]. unfold bind at 1. rewrite validateTurnoOverlap_run.
  reflexivity.
Qed.

Lemma processTurnoItem_rechazo_precheck :
  valido (veredicto_solape env (tabla w) (in_sala turnoData) i f None) = false ->
  processTurnoItem (Some turnoData) index acc env w
  = (Normal (push_error acc index
               (mensaje (veredicto_solape env (tabla w) (in_sala turnoData) i f None))
               turnoData),
     tick w).
Proof.
  intros Hov. rewrite processTurnoItem_hasta_precheck.
  unfold bind, ret. cbn [tabla tick]. rewrite Hov. reflexivity.
Qed.

Lemma processTurnoItem_rechazo_storage :
  valido (veredicto_solape env (tabla w) (in_sala turnoData) i f None) = true ->
  existsb (conflicto_exclusion (candidata turnoData i f w)) (tabla w) = true ->
  processTurnoItem (Some turnoData) index acc env w
  = (Normal (push_error acc index
               (Some "Conflicto de horario con otro turno existente (DB constraint)")
               turnoData),
     tick w).
Proof.
  intros Hov Hex. rewrite processTurnoItem_hasta_precheck.
  unfold bind at 1. unfold ret at 1. cbn [tabla tick]. rewrite Hov. cbn [negb].
  unfold try_catch, bind.
  apply veredicto_valido in Hduracion as (i' & f' & Hi & Hf & Hlt & _).
  injection Hi as <-. injection Hf as <-.
  rewrite (prisma_turno_create_rechazo _ i f env (tick w));
    [rewrite es_conflicto_db_exclusion; reflexivity
    |reflexivity|reflexivity|lia|exact Hex].
Qed.

Lemma processTurnoItem_ok :
  valido (veredicto_solape env (tabla w) (in_sala turnoData) i f None) = true ->
  existsb (conflicto_exclusion (candidata turnoData i f w)) (tabla w) = false ->
  processTurnoItem (Some turnoData) index acc env w
  = (Normal (push_creado acc (candidata turnoData i f w)),
     con_tabla (tick w) (tabla w ++ [candidata turnoData i f w])%list).
Proof.
  intros Hov Hex. rewrite processTurnoItem_hasta_precheck.
  unfold bind at 1. unfold ret at 1. cbn [tabla tick]. rewrite Hov. cbn [negb].
  unfold try_catch, bind.
  apply veredicto_valido in Hduracion as (i' & f' & Hi & Hf & Hlt & _).
  injection Hi as <-. injection Hf as <-.
  destruct (pelicula_findFirst_relacion _ _ _ Hpelicula) as [p' Hp'].
  rewrite (prisma_turno_create_ok _ i f p' env (tick w));
    [reflexivity|reflexivity|reflexivity|lia|exact Hex|exact Hp'].
Qed.
End CaminoBulk.

(** C7, as stated, fails.  A bulk create whose insert is rejected by the
    exclusion constraint is answered with status 201 and a per-item entry
    that has no kind and whose text names the database constraint, while a
    rejection by the pre-check carries another text; and for a single
    create the two rejections, equal in status and code, differ in their
    message: the caller can tell which layer rejected. *)
Lemma C7_storage_rejection_is_distinguishable :
  fst (createMultipleTurnos [Some item_11h] entorno_ej
         {| tabla := tabla_borrada; lecturas := 0 |})
  = Normal (RespBulk 201 []
              [{| ei_index := 0; ei_error := Some TEXTO_DB_BULK; ei_data := item_11h |}]
              1 0 1 "0 turnos creados exitosamente")
  /\ fst (createMultipleTurnos [Some item_11h] entorno_ej
            {| tabla := [fila_1]; lecturas := 0 |})
     = Normal (RespBulk 201 []
                 [{| ei_index := 0;
                     ei_error := Some (MSG_CONFLICTO "A1" "Largometraje"
                                         "36000000" "42300000");
                     ei_data := item_11h |}]
                 1 0 1 "0 turnos creados exitosamente")
  /\ fst (createTurno item_11h entorno_ej {| tabla := tabla_borrada; lecturas := 0 |})
     = Normal (RespError 409 "SCHEDULE_CONFLICT" TEXTO_DB_CREATE)
  /\ fst (createTurno item_11h entorno_ej {| tabla := [fila_1]; lecturas := 0 |})
     = Normal (RespError 409 "SCHEDULE_CONFLICT"
                 (MSG_CONFLICTO "A1" "Largometraje" "36000000" "42300000"))
  /\ TEXTO_DB_BULK <> MSG_CONFLICTO "A1" "Largometraje" "36000000" "42300000"
  /\ TEXTO_DB_CREATE <> MSG_CONFLICTO "A1" "Largometraje" "36000000" "42300000".
Proof.
  repeat split; try (vm_compute; reflexivity); vm_compute; discriminate.
Qed.

(** C7 (amended).  For every single create that reaches the overlap
    pre-check, a rejection by the exclusion constraint of the storage and a
    rejection by the pre-check are answered with the same status 409 and
    the same code SCHEDULE_CONFLICT; the storage rejection carries a fixed
    message.  In a bulk create the storage rejection is recorded as a
    per-item entry with the item's index and a fixed text. *)
Theorem C7_same_status_and_code_on_create :
  (forall body env w p i f,
      find (fun x => String.eqb (pel_id x) (in_peliculaId body)
                     && es_null (pel_eliminadoEn x)) (peliculas env) = Some p ->
      in_inicio body = Fecha i ->
      calcular_fin (Fecha i) (duracionMin p) = Fecha f ->
      valido (veredicto (Fecha i) (Fecha f) (duracionMin p)
                (reloj env (lecturas w))) = true ->
      (valido (veredicto_solape env (tabla w) (in_sala body) i f None) = false ->
       exists m,
         fst (createTurno body env w) = Normal (RespError 409 "SCHEDULE_CONFLICT" m))
      /\ (valido (veredicto_solape env (tabla w) (in_sala body) i f None) = true ->
          existsb (conflicto_exclusion
                     (fila_nueva (datos_create body (Fecha i) (Fecha f)) i f
                        (List.length (tabla w)))) (tabla w) = true ->
          fst (createTurno body env w)
          = Normal (RespError 409 "SCHEDULE_CONFLICT" TEXTO_DB_CREATE)))
  /\ (forall turnoData index acc env w p i f,
        find (fun x => String.eqb (pel_id x) (in_peliculaId turnoData)
                       && es_null (pel_eliminadoEn x)) (peliculas env) = Some p ->
        in_inicio turnoData = Fecha i ->
        in_fin turnoData = Some (Fecha f) ->
        valido (veredicto (Fecha i) (Fecha f) (duracionMin p)
                  (reloj env (lecturas w))) = true ->
        valido (veredicto_solape env (tabla w) (in_sala turnoData) i f None) = true ->
        existsb (conflicto_exclusion
                   (fila_nueva (datos_create turnoData (Fecha i) (Fecha f)) i f
                      (List.length (tabla w)))) (tabla w) = true ->
        fst (processTurnoItem (Some turnoData) index acc env w)
        = Normal (push_error acc index (Some TEXTO_DB_BULK) turnoData)).
Proof.
  split.
  - intros body env w p i f Hp Hi Hf Hd. split.
    + intros Hov.
      destruct (createTurno_rechazo_precheck body env w p i f Hp Hi Hf Hd Hov) as [m Hm].
      exists m. now rewrite Hm.
    + intros Hov Hex.
      now rewrite (createTurno_rechazo_storage body env w p i f Hp Hi Hf Hd Hov Hex).
  - intros turnoData index acc env w p i f Hp Hi Hf Hd Hov Hex.
    now rewrite (processTurnoItem_rechazo_storage turnoData index acc env w p i f
                   Hp Hi Hf Hd Hov Hex).
Qed.

Lemma C7_same_status_and_code_on_create_witness :
  fst (createTurno item_11h entorno_ej {| tabla := tabla_borrada; lecturas := 0 |})
  = Normal (RespError 409 "SCHEDULE_CONFLICT" TEXTO_DB_CREATE)
  /\ exists m,
      fst (createTurno item_11h entorno_ej {| tabla := [fila_1]; lecturas := 0 |})
      = Normal (RespError 409 "SCHEDULE_CONFLICT" m).
Proof.
  split.
  - exact (proj2 (proj1 C7_same_status_and_code_on_create
                    item_11h entorno_ej {| tabla := tabla_borrada; lecturas := 0 |}
                    pelicula_60 (hora 11) (hora 11 + minutos 75)
                    eq_refl eq_refl eq_refl eq_refl) eq_refl eq_refl).
  - exact (proj1 (proj1 C7_same_status_and_code_on_create
                    item_11h entorno_ej {| tabla := [fila_1]; lecturas := 0 |}
                    pelicula_60 (hora 11) (hora 11 + minutos 75)
                    eq_refl eq_refl eq_refl eq_refl) eq_refl).
Defined.

(* ================================================================== *)
(** ** Outcomes of [updateTurno] *)

Lemma filter_nada {A} (p : A -> bool) l :
  (forall x, In x l -> p x = false) -> filter p l = [].
Proof.
  induction l as [|a l IH]; intros H; cbn; [reflexivity|].
  rewrite (H a (or_introl eq_refl)). apply IH. intros x Hx. apply H. now right.
Qed.

(** The pre-check finds nothing when no other row of the room intersects
    the window. *)
Lemma precheck_libre t sala_ s e excluir :
  filas_no_vacias t -> s < e ->
  (forall c, In c t -> distinto_de excluir c -> sala c = sala_ ->
             ~ (s < fin c /\ inicio c < e)) ->
  filter (where_solapamiento sala_ s e excluir) t = [].
Proof.
  intros HI Hse Hlibre. apply filter_nada. intros c Hc.
  unfold where_solapamiento.
  destruct (String.eqb (sala c) sala_) eqn:Es; [|reflexivity].
  apply String.eqb_eq in Es.
  assert (Hex : distinto_de excluir c \/
                match excluir with Some x => negb (Nat.eqb (id c) x) | None => true end
                = false).
  { unfold distinto_de. destruct excluir as [x|]; [|now left].
    destruct (Nat.eqb (id c) x) eqn:E; [now right|left; now apply Nat.eqb_neq]. }
  destruct Hex as [Hd|Hx]; [|rewrite Hx; apply andb_false_r].
  rewrite (cuatro_casos_interseca s e (inicio c) (fin c) Hse (HI c Hc)).
  specialize (Hlibre c Hc Hd Es). unfold interseca.
  assert ((s <? fin c) && (inicio c <? e) = false) as ->
    by (apply andb_false_iff; lia).
  rewrite andb_false_r. reflexivity.
Qed.

(** The pre-check finds a live ACTIVO/INACTIVO row of the room that
    intersects the window. *)
Lemma precheck_ocupado t sala_ s e excluir c :
  filas_no_vacias t -> s < e -> In c t -> distinto_de excluir c -> sala c = sala_ ->
  en_activo_inactivo (estado c) = true -> eliminadoEn c = None ->
  s < fin c -> inicio c < e ->
  filter (where_solapamiento sala_ s e excluir) t <> [].
Proof.
  intros HI Hse Hc Hd Hs Hest Hel H1 H2 Hnil.
  assert (Hin : In c (filter (where_solapamiento sala_ s e excluir) t)).
  { apply filter_In. split; [exact Hc|]. unfold where_solapamiento.
    rewrite Hs, String.eqb_refl, Hest, Hel. cbn [es_null andb].
    rewrite (cuatro_casos_interseca s e (inicio c) (fin c) Hse (HI c Hc)).
    unfold interseca.
    assert ((s <? fin c) && (inicio c <? e) = true) as ->
      by (apply andb_true_iff; lia).
    unfold distinto_de in Hd. destruct excluir as [x|]; [|reflexivity].
    apply Nat.eqb_neq in Hd. now rewrite Hd. }
  rewrite Hnil in Hin. contradiction.
Qed.

(** The exclusion constraint accepts a row whose room holds no other row
    that intersects its window. *)
Lemma exclusion_libre t i nueva :
  (forall c, In c t -> id c <> i -> sala c = sala nueva ->
             ~ (inicio nueva < fin c /\ inicio c < fin nueva)) ->
  existsb (conflicto_exclusion nueva) (otros_que i t) = false.
Proof.
  intros Hlibre. apply existsb_false_forall. intros x Hx.
  unfold otros_que in Hx. apply filter_In in Hx as [Hxin Hne].
  apply negb_true_iff in Hne. apply Nat.eqb_neq in Hne.
  apply conflicto_false. intros Hs. unfold sin_solape. now apply Hlibre.
Qed.

Lemma prisma_turno_update_ok i d r env w :
  Inv (tabla w) -> In r (tabla w) -> id r = i ->
  fecha_valida (up_inicio (ud_campos d)) && fecha_valida (up_fin (ud_campos d))
  && fecha_valida (ud_eliminadoEn d) && fecha_valida (ud_actualizadoEn d) = true ->
  inicio (aplicar_update d r) <= fin (aplicar_update d r) ->
  existsb (conflicto_exclusion (aplicar_update d r)) (otros_que i (tabla w)) = false ->
  (es_some (up_peliculaId (ud_campos d)) = true ->
   pelicula_de (peliculas env) (peliculaId (aplicar_update d r)) <> None) ->
  prisma_turno_update i d env w
  = (Normal (aplicar_update d r),
     con_tabla w (reemplazar i (aplicar_update d r) (tabla w))).
Proof.
  intros HI Hin Hid Hfv Hle Hex Hfk. unfold prisma_turno_update. rewrite Hfv.
  unfold bind at 1. unfold leer_tabla.
  rewrite (find_id_of_In (tabla w) i r (inv_ids _ HI) Hin Hid).
  fold (otros_que i (tabla w)).
  unfold bind at 1. unfold comprobar_fila, tstzrange.
  destruct (fin (aplicar_update d r) <? inicio (aplicar_update d r)) eqn:E; [lia|].
  rewrite Hex.
  assert (Hfin : forall o : option Rango,
             (match o with
              | Some _ =>
                  if es_some (up_peliculaId (ud_campos d)) then
                    ps <- leer_peliculas ;;
                    match pelicula_de ps (peliculaId (aplicar_update d r)) with
                    | None => throw ERR_FOREIGN_KEY
                    | Some _ => ret tt
                    end
                  else ret tt
              | None => throw ERR_RANGE_BOUNDS
              end) env w
             = match o with
               | Some _ => (Normal tt, w)
               | None => (Lanza ERR_RANGE_BOUNDS, w)
               end).
  { intros [o|]; [|reflexivity].
    destruct (es_some (up_peliculaId (ud_campos d))); [|reflexivity].
    unfold bind, leer_peliculas.
    destruct (pelicula_de (peliculas env) (peliculaId (aplicar_update d r)));
      [reflexivity|]. exfalso. now apply Hfk. }
  rewrite Hfin. destruct (inicio (aplicar_update d r) =? fin (aplicar_update d r));
    reflexivity.
Qed.

Section CaminoUpdate.
Variables (env : Entorno) (w : Mundo) (i : nat) (u : TurnoUpdate) (r0 : Turno).
Hypothesis HI : Inv (tabla w).
Hypothesis Hfind :
  find (fun x => Nat.eqb (id x) i && es_null (eliminadoEn x)) (tabla w) = Some r0.

(** Without a start or an end in the patch: no validation at all. *)
Lemma updateTurno_sin_horario :
  es_some (up_inicio u) || es_some (up_fin u) = false ->
  existsb (conflicto_exclusion
             (aplicar_update (datos_update u (reloj env (lecturas w))) r0))
    (otros_que i (tabla w)) = false ->
  pelicula_existe env u ->
  updateTurno i u env w
  = (Normal (RespTurno 200
               (aplicar_update (datos_update u (reloj env (lecturas w))) r0)
               "Turno actualizado exitosamente"),
     con_tabla (tick w)
       (reemplazar i (aplicar_update (datos_update u (reloj env (lecturas w))) r0)
          (tabla w))).
Proof.
  intros Hg Hex Hfk. unfold updateTurno, try_catch.
  unfold bind at 1. unfold turno_findFirst, bind at 1, leer_tabla, ret at 1.
  rewrite Hfind, Hg. apply findFirst_In in Hfind as (Hin & Hid & Hnull).
  apply orb_false_iff in Hg as [Hgi Hgf].
  destruct (up_inicio u) eqn:Eui; [discriminate|].
  destruct (up_fin u) eqn:Euf; [discriminate|].
  unfold bind at 1. unfold ret at 1. unfold bind at 1. unfold newDateNow.
  unfold bind at 1.
  fold (datos_update u (reloj env (lecturas w))).
  rewrite (prisma_turno_update_ok i _ r0 env
             {| tabla := tabla w; lecturas := S (lecturas w) |}); auto.
  - cbn. rewrite Eui, Euf. reflexivity.
  - cbn. rewrite Eui, Euf. cbn. pose proof (inv_rango _ HI r0 Hin). lia.
  - cbn [datos_update ud_campos]. intros Hs.
    destruct (up_peliculaId u) as [pid|] eqn:Epid; [|discriminate].
    cbn. rewrite Epid. cbn. now apply Hfk.
Qed.

Variable p : Pelicula.
Hypothesis Hguarda : es_some (up_inicio u) || es_some (up_fin u) = true.
Hypothesis Hpelicula : pelicula_de (peliculas env) (peliculaId r0) = Some p.

(** With a start or an end in the patch: the duration is validated first. *)
Lemma updateTurno_duracion_invalida :
  valido (veredicto (inicio_pedido u r0) (fin_pedido u r0) (duracionMin p) (reloj env (lecturas w))) = false ->
  exists m,
    updateTurno i u env w
    = (Normal (RespError 400 "INVALID_DURATION" m), tras_duracion (inicio_pedido u r0) (fin_pedido u r0) w).
Proof.
  intros Hv. unfold updateTurno, try_catch.
  unfold bind at 1. unfold turno_findFirst, bind at 1, leer_tabla, ret at 1.
  rewrite Hfind, Hguarda.
  unfold bind at 1. unfold bind at 1. unfold leer_peliculas. rewrite Hpelicula.
  unfold bind at 1. rewrite validateTurnoDuration_run.
  fold (inicio_pedido u r0) (fin_pedido u r0). rewrite Hv.
  unfold bind at 1. cbn [negb throw_if throw].
  unfold next, ret, errorHandler. cbn. eexists. reflexivity.
Qed.

Variables (s e : Z).
Hypothesis Hs : inicio_pedido u r0 = Fecha s.
Hypothesis He : fin_pedido u r0 = Fecha e.
Hypothesis Hduracion :
  valido (veredicto (Fecha s) (Fecha e) (duracionMin p) (reloj env (lecturas w))) = true.

(** Then the overlap pre-check runs in the room of the patch, without the
    row itself. *)
Lemma updateTurno_rechazo_precheck :
  valido (veredicto_solape env (tabla w) (sala_pedida u r0) s e (Some i)) = false ->
  exists m,
    updateTurno i u env w = (Normal (RespError 409 "SCHEDULE_CONFLICT" m), tick w).
Proof.
  intros Hov. unfold updateTurno, try_catch.
  unfold bind at 1. unfold turno_findFirst, bind at 1, leer_tabla, ret at 1.
  rewrite Hfind, Hguarda.
  unfold bind at 1. unfold bind at 1. unfold leer_peliculas. rewrite Hpelicula.
  unfold bind at 1. rewrite validateTurnoDuration_run.
  fold (inicio_pedido u r0) (fin_pedido u r0). rewrite Hs, He, Hduracion.
  rewrite (tras_duracion_valido _ _ _ _ w Hduracion).
  unfold bind at 1. cbn [negb throw_if ret].
  unfold bind at 1. rewrite validateTurnoOverlap_run.
  fold (sala_pedida u r0). cbn [tabla tick]. rewrite Hov.
  unfold bind at 1. cbn [negb throw_if throw].
  unfold next, ret, errorHandler. cbn. eexists. reflexivity.
Qed.

(** Then the storage applies the patch with the two validated dates. *)
Lemma updateTurno_con_horario :
  valido (veredicto_solape env (tabla w) (sala_pedida u r0) s e (Some i)) = true ->
  existsb (conflicto_exclusion
             (aplicar_update
                (datos_update (con_horario u (Fecha s) (Fecha e))
                   (reloj env (S (lecturas w)))) r0))
    (otros_que i (tabla w)) = false ->
  pelicula_existe env u ->
  updateTurno i u env w
  = (Normal (RespTurno 200
               (aplicar_update
                  (datos_update (con_horario u (Fecha s) (Fecha e))
                     (reloj env (S (lecturas w)))) r0)
               "Turno actualizado exitosamente"),
     con_tabla (tick (tick w))
       (reemplazar i
          (aplicar_update
             (datos_update (con_horario u (Fecha s) (Fecha e))
                (reloj env (S (lecturas w)))) r0)
          (tabla w))).
Proof.
  intros Hov Hex Hfk. unfold updateTurno, try_catch.
  unfold bind at 1. unfold turno_findFirst, bind at 1, leer_tabla, ret at 1.
  rewrite Hfind, Hguarda. apply findFirst_In in Hfind as (Hin & Hid & Hnull).
  unfold bind at 1. unfold bind at 1. unfold leer_peliculas. rewrite Hpelicula.
  unfold bind at 1. rewrite validateTurnoDuration_run.
  fold (inicio_pedido u r0) (fin_pedido u r0). rewrite Hs, He, Hduracion.
  rewrite (tras_duracion_valido _ _ _ _ w Hduracion).
  unfold bind at 1. cbn [negb throw_if ret].
  unfold bind at 1. rewrite validateTurnoOverlap_run.
  fold (sala_pedida u r0). cbn [tabla tick]. rewrite Hov.
  unfold bind at 1. cbn [negb throw_if ret].
  fold (con_horario u (Fecha s) (Fecha e)).
  unfold bind at 1. unfold newDateNow. unfold bind at 1. cbn [lecturas tabla].
  fold (datos_update (con_horario u (Fecha s) (Fecha e)) (reloj env (S (lecturas w)))).
  apply veredicto_valido in Hduracion as (s' & e' & Hs' & He' & Hlt & _).
  injection Hs' as <-. injection He' as <-.
  rewrite (prisma_turno_update_ok i _ r0 env
             {| tabla := tabla w; lecturas := S (S (lecturas w)) |}); auto.
  - cbn. lia.
  - cbn [datos_update ud_campos con_horario up_peliculaId]. intros Hsome.
    destruct (up_peliculaId u) as [pid|] eqn:Epid; [|discriminate].
    cbn. rewrite Epid. cbn. now apply Hfk.
Qed.
End CaminoUpdate.

Lemma o_string_o_else a b : a <> Some EmptyString -> o_string a b = o_else a b.
Proof.
  intros H. destruct a as [x|]; [|reflexivity]. cbn.
  destruct (String.eqb x EmptyString) eqn:E; [|reflexivity].
  apply String.eqb_eq in E. congruence.
Qed.

Lemma tabla_una_alcanzable : alcanzable [fila_1].
Proof.
  change [fila_1] with
    (tabla (snd (ejecutar (OpCreate pedido_1) entorno_ej
                   {| tabla := []; lecturas := 0 |}))).
  apply alc_paso. apply alc_vacio.
Qed.

Lemma tabla_xy_alcanzable : alcanzable tabla_xy.
Proof.
  change tabla_xy with
    (tabla (snd (ejecutar (OpCreate (pedido "p60" "A2" (hora 10) None)) entorno_ej
                   {| tabla := [fila_1]; lecturas := 0 |}))).
  apply alc_paso. exact tabla_una_alcanzable.
Qed.

Lemma tabla_una_no_vacia : filas_no_vacias [fila_1].
Proof. intros r [<-|[]]. reflexivity. Qed.

Lemma tabla_xy_no_vacia : filas_no_vacias tabla_xy.
Proof. intros r [<-|[<-|[]]]; reflexivity. Qed.

Lemma tabla_borrada_no_vacia : filas_no_vacias tabla_borrada.
Proof. intros r [<-|[]]. reflexivity. Qed.




(* ================================================================== *)
(** ** The bulk loop *)

Lemma precheck_sala_vacia t s i f excluir :
  sala_vacia t s -> filter (where_solapamiento s i f excluir) t = [].
Proof.
  intros Hv. apply filter_nada. intros c Hc. unfold where_solapamiento.
  destruct (String.eqb (sala c) s) eqn:E; [|reflexivity].
  apply String.eqb_eq in E. now apply Hv in Hc.
Qed.

Lemma exclusion_sala_vacia t fila :
  sala_vacia t (sala fila) -> existsb (conflicto_exclusion fila) t = false.
Proof.
  intros Hv. apply existsb_false_forall. intros c Hc. unfold conflicto_exclusion.
  destruct (String.eqb (sala c) (sala fila)) eqn:E; [|reflexivity].
  apply String.eqb_eq in E. now apply Hv in Hc.
Qed.

Lemma sala_vacia_app t fila s :
  sala_vacia t s -> sala fila <> s -> sala_vacia (t ++ [fila]) s.
Proof.
  intros Hv Hf c Hc. apply in_app_or in Hc as [Hc|[<-|[]]]; auto.
Qed.

(** Every item ends in exactly one of the two arrays, and only a created
    row changes the table. *)
Lemma processTurnoItem_forma turnoData index acc env w :
  exists acc' w',
    processTurnoItem (Some turnoData) index acc env w = (Normal acc', w')
    /\ ((exists m, acc' = push_error acc index m turnoData /\ tabla w' = tabla w)
        \/ (exists fila, acc' = push_creado acc fila
                         /\ tabla w' = (tabla w ++ [fila])%list)).
Proof.
  unfold processTurnoItem; cbv iota beta.
  unfold bind at 1. unfold pelicula_findFirst, bind at 1, leer_peliculas, ret at 1.
  destruct (find _ (peliculas env)) as [p|];
    [|do 2 eexists; split; [reflexivity|left; eauto]].
  unfold bind at 1. rewrite validateTurnoDuration_run.
  set (finDate := o_else (in_fin turnoData) InvalidDate).
  destruct (valido (veredicto (in_inicio turnoData) finDate (duracionMin p)
                      (reloj env (lecturas w)))) eqn:Hv; cbn [negb].
  2:{ do 2 eexists; split; [reflexivity|left]. eexists; split; [reflexivity|].
      apply tras_duracion_tabla. }
  apply veredicto_valido in Hv as (i & f & Hi & Hf & _).
  rewrite Hf, Hi. unfold bind at 1. rewrite validateTurnoOverlap_run.
  set (w1 := tras_duracion (Fecha i) (Fecha f) w).
  assert (Ht1 : tabla w1 = tabla w) by (unfold w1; apply tras_duracion_tabla).
  destruct (valido (veredicto_solape env (tabla w1) (in_sala turnoData) i f None));
    cbn [negb]; [|do 2 eexists; split; [reflexivity|left; eauto]].
  unfold try_catch, bind.
  fold (datos_create turnoData (Fecha i) (Fecha f)).
  pose proof (prisma_turno_create_run (datos_create turnoData (Fecha i) (Fecha f))
                env w1) as HR.
  destruct (prisma_turno_create (datos_create turnoData (Fecha i) (Fecha f)) env w1)
    as [[fila|err] w2].
  - destruct HR as (i' & f' & _ & _ & _ & -> & _ & _).
    do 2 eexists; split; [reflexivity|right]. exists fila. split; [reflexivity|].
    rewrite con_tabla_tabla, Ht1. reflexivity.
  - subst w2.
    destruct (es_conflicto_db err); do 2 eexists; (split; [reflexivity|left; eauto]).
Qed.

(** The outcome of one item, with the reason of its error entry. *)
Lemma processTurnoItem_resultado x index acc env w :
  match motivo_del_item env w x with
  | Some m =>
      fst (processTurnoItem (Some x) index acc env w)
      = Normal (push_error acc index m x)
      /\ tabla (snd (processTurnoItem (Some x) index acc env w)) = tabla w
  | None =>
      exists i f,
        in_inicio x = Fecha i /\ in_fin x = Some (Fecha f)
        /\ processTurnoItem (Some x) index acc env w
           = (Normal (push_creado acc (candidata x i f w)),
              con_tabla (tick w) (tabla w ++ [candidata x i f w])%list)
  end.
Proof.
  unfold motivo_del_item.
  destruct (find _ (peliculas env)) as [p|] eqn:Hp.
  2:{ assert (Hr : processTurnoItem (Some x) index acc env w
                   = (Normal (push_error acc index (Some "Película no encontrada") x), w)).
      { unfold processTurnoItem; cbv iota beta.
        unfold bind at 1. unfold pelicula_findFirst, bind at 1, leer_peliculas, ret at 1.
        rewrite Hp. reflexivity. }
      rewrite Hr. split; reflexivity. }
  cbv zeta.
  destruct (valido (veredicto (in_inicio x) (o_else (in_fin x) InvalidDate)
                      (duracionMin p) (reloj env (lecturas w)))) eqn:Hv; cbn [negb].
  2:{ assert (Hr : processTurnoItem (Some x) index acc env w
                   = (Normal (push_error acc index
                                (mensaje (veredicto (in_inicio x)
                                            (o_else (in_fin x) InvalidDate)
                                            (duracionMin p) (reloj env (lecturas w))))
                                x),
                      tras_duracion (in_inicio x) (o_else (in_fin x) InvalidDate) w)).
      { unfold processTurnoItem; cbv iota beta.
        unfold bind at 1. unfold pelicula_findFirst, bind at 1, leer_peliculas, ret at 1.
        rewrite Hp. unfold bind at 1. rewrite validateTurnoDuration_run, Hv.
        reflexivity. }
      rewrite Hr. split; [reflexivity|apply tras_duracion_tabla]. }
  pose proof Hv as Hv'.
  apply veredicto_valido in Hv' as (i & f & Hi & Hf & _).
  destruct (in_fin x) as [ff|] eqn:Hfin; cbn [o_else] in Hf, Hv |- *; [|discriminate].
  subst ff. rewrite Hi in Hv |- *.
  destruct (valido (veredicto_solape env (tabla w) (in_sala x) i f None)) eqn:Ho;
    cbn [negb].
  2:{ rewrite (processTurnoItem_rechazo_precheck x index acc env w p i f Hp Hi Hfin Hv Ho).
      split; reflexivity. }
  destruct (existsb (conflicto_exclusion (candidata x i f w)) (tabla w)) eqn:Hex.
  - rewrite (processTurnoItem_rechazo_storage x index acc env w p i f Hp Hi Hfin Hv Ho Hex).
    split; reflexivity.
  - exists i, f. split; [reflexivity|]. split; [reflexivity|].
    exact (processTurnoItem_ok x index acc env w p i f Hp Hi Hfin Hv Ho Hex).
Qed.

(** The loop over [l ++ [x]] is the loop over [l] followed by item [x],
    processed at its own index on the state the prefix has left. *)
Lemma bucle_turnos_snoc l x : forall i acc env w,
  bucle_turnos (l ++ [x]) i acc env w
  = (acc' <- bucle_turnos l i acc ;;
     processTurnoItem x (i + List.length l) acc') env w.
Proof.
  induction l as [|y l IH]; intros i acc env w; cbn [app bucle_turnos List.length].
  - unfold bind, ret. rewrite Nat.add_0_r.
    destruct (processTurnoItem x i acc env w) as [[a|e] w1]; reflexivity.
  - unfold bind.
    destruct (processTurnoItem y i acc env w) as [[a|e] w1]; [|reflexivity].
    rewrite IH. unfold bind. rewrite Nat.add_succ_r. reflexivity.
Qed.

(** The loop always completes; it adds one entry per item, and each new
    error entry carries the index and the data of its item. *)
Lemma bucle_turnos_persiste resto c : forall i acc env w,
  In c (tabla w) -> In c (tabla (snd (bucle_turnos resto i acc env w))).
Proof.
  induction resto as [|y l IH]; intros i acc env w Hc; cbn [bucle_turnos];
    [exact Hc|].
  unfold bind. destruct y as [y|]; [|exact Hc].
  destruct (processTurnoItem_forma y i acc env w)
    as (acc' & w1 & Hrun & [(m & _ & Ht)|(g & _ & Ht)]); rewrite Hrun; apply IH.
  - now rewrite Ht.
  - rewrite Ht. apply in_or_app. now left.
Qed.

Lemma bucle_turnos_total turnos : forall i acc env w,
  exists creados errores,
    fst (bucle_turnos (map Some turnos) i acc env w)
    = Normal ((fst acc ++ creados)%list, (snd acc ++ errores)%list)
    /\ (List.length creados + List.length errores = List.length turnos)%nat
    /\ (forall e, In e errores -> registra (map Some turnos) i e)
    /\ (forall c, In c creados
                  -> In c (tabla (snd (bucle_turnos (map Some turnos) i acc env w)))).
Proof.
  induction turnos as [|x resto IH]; intros i acc env w; cbn [map bucle_turnos].
  - exists [], []. cbn. rewrite !app_nil_r. destruct acc. repeat split; contradiction.
  - unfold bind.
    destruct (processTurnoItem_forma x i acc env w)
      as (acc' & w1 & Hrun & [(m & -> & Ht)|(fila & -> & Ht)]); rewrite Hrun.
    + destruct (IH (S i) (push_error acc i m x) env w1)
        as (cs & es & Hr & Hlen & Hreg & Hin).
      exists cs, ({| ei_index := i; ei_error := m; ei_data := x |} :: es).
      rewrite Hr. cbn [push_error fst snd]. rewrite <- app_assoc. cbn [app List.length].
      split; [reflexivity|]. split; [lia|]. split; [|exact Hin].
      intros e [<-|He]; unfold registra; cbn [ei_index ei_data].
      * rewrite Nat.sub_diag. split; [lia|reflexivity].
      * apply Hreg in He as [Hle Hn]. split; [lia|].
        replace (ei_index e - i)%nat with (S (ei_index e - S i)) by lia.
        exact Hn.
    + destruct (IH (S i) (push_creado acc fila) env w1)
        as (cs & es & Hr & Hlen & Hreg & Hin).
      exists (fila :: cs), es.
      rewrite Hr. cbn [push_creado fst snd]. rewrite <- app_assoc. cbn [app List.length].
      split; [reflexivity|]. split; [lia|]. split.
      * intros e He. apply Hreg in He as [Hle Hn]. split; [lia|].
        replace (ei_index e - i)%nat with (S (ei_index e - S i)) by lia.
        exact Hn.
      * intros c [<-|Hc]; [|now apply Hin].
        apply bucle_turnos_persiste. rewrite Ht. apply in_or_app. right. now left.
Qed.

Lemma createMultipleTurnos_run turnos env w :
  (0 < List.length turnos <= 50)%nat ->
  createMultipleTurnos turnos env w
  = match bucle_turnos turnos 0%nat ([], []) env w with
    | (Normal acc, w') => (Normal (respuesta_bulk turnos acc), w')
    | (Lanza e, w') => (Normal (errorHandler e), w')
    end.
Proof.
  intros [H0 H50]. unfold createMultipleTurnos, try_catch.
  unfold bind at 1.
  destruct (Nat.eqb (List.length turnos) 0) eqn:E0;
    [apply Nat.eqb_eq in E0; lia|].
  cbn [throw_if ret]. unfold bind at 1.
  destruct (Nat.ltb 50 (List.length turnos)) eqn:E50;
    [apply Nat.ltb_lt in E50; lia|].
  cbn [throw_if ret]. unfold bind.
  destruct (bucle_turnos turnos 0%nat ([], []) env w) as [[acc|e] w']; reflexivity.
Qed.

Section LoteDeTres.
(** A batch of three: item 2 asks for the room of item 1 at hours that
    intersect it, item 3 asks for another room; the rooms of items 1 and 3
    hold no row before the batch, and each item passes the duration
    validation at the instant the clock reads for it. *)
Variables (env : Entorno) (w : Mundo).
Variables (x1 x2 x3 : TurnoInput) (p1 p2 p3 : Pelicula).
Variables (i1 f1 i2 f2 i3 f3 : Z).

Hypothesis Hp1 :
  find (fun x => String.eqb (pel_id x) (in_peliculaId x1)
                 && es_null (pel_eliminadoEn x)) (peliculas env) = Some p1.
Hypothesis Hp2 :
  find (fun x => String.eqb (pel_id x) (in_peliculaId x2)
                 && es_null (pel_eliminadoEn x)) (peliculas env) = Some p2.
Hypothesis Hp3 :
  find (fun x => String.eqb (pel_id x) (in_peliculaId x3)
                 && es_null (pel_eliminadoEn x)) (peliculas env) = Some p3.
Hypothesis Hi1 : in_inicio x1 = Fecha i1.
Hypothesis Hf1 : in_fin x1 = Some (Fecha f1).
Hypothesis Hi2 : in_inicio x2 = Fecha i2.
Hypothesis Hf2 : in_fin x2 = Some (Fecha f2).
Hypothesis Hi3 : in_inicio x3 = Fecha i3.
Hypothesis Hf3 : in_fin x3 = Some (Fecha f3).
Hypothesis Hd1 :
  valido (veredicto (Fecha i1) (Fecha f1) (duracionMin p1)
            (reloj env (lecturas w))) = true.
Hypothesis Hd2 :
  valido (veredicto (Fecha i2) (Fecha f2) (duracionMin p2)
            (reloj env (S (lecturas w)))) = true.
Hypothesis Hd3 :
  valido (veredicto (Fecha i3) (Fecha f3) (duracionMin p3)
            (reloj env (S (S (lecturas w))))) = true.
Hypothesis Hvacia1 : sala_vacia (tabla w) (in_sala x1).
Hypothesis Hvacia3 : sala_vacia (tabla w) (in_sala x3).
Hypothesis Hmisma : in_sala x2 = in_sala x1.
Hypothesis Hotra : in_sala x3 <> in_sala x1.
Hypothesis Hestado : in_estado x1 <> Some CANCELADO.
Hypothesis Hsolapa : i1 < f2 /\ i2 < f1.

Lemma lote_de_tres :
  exists p1',
    pelicula_de (peliculas env) (in_peliculaId x1) = Some p1'
    /\ createMultipleTurnos [Some x1; Some x2; Some x3] env w
       = (Normal (RespBulk 201
                    [candidata x1 i1 f1 w;
                     fila_nueva (datos_create x3 (Fecha i3) (Fecha f3)) i3 f3
                       (S (List.length (tabla w)))]
                    [{| ei_index := 1;
                        ei_error := Some (MSG_CONFLICTO (in_sala x2) (titulo p1')
                                            (toLocaleString_esES env i1)
                                            (toLocaleString_esES env f1));
                        ei_data := x2 |}]
                    3 2 1 "2 turnos creados exitosamente"),
          con_tabla (tick (tick (tick w)))
            (tabla w ++ [candidata x1 i1 f1 w;
                         fila_nueva (datos_create x3 (Fecha i3) (Fecha f3)) i3 f3
                           (S (List.length (tabla w)))])%list).
Proof.
  destruct (pelicula_findFirst_relacion _ _ _ Hp1) as [p1' Hp1'].
  exists p1'. split; [exact Hp1'|].
  pose proof (veredicto_valido _ _ _ _ Hd1) as (? & ? & E1 & E2 & Hlt1 & _).
  injection E1 as <-. injection E2 as <-.
  pose proof (veredicto_valido _ _ _ _ Hd2) as (? & ? & E1 & E2 & Hlt2 & _).
  injection E1 as <-. injection E2 as <-.
  rewrite createMultipleTurnos_run by (cbn; lia).
  cbn [bucle_turnos]. unfold bind at 1.
  (* item 1 *)
  rewrite (processTurnoItem_ok x1 0%nat ([], []) env w p1 i1 f1 Hp1 Hi1 Hf1 Hd1).
  2:{ apply veredicto_solape_valido. now apply precheck_sala_vacia. }
  2:{ now apply exclusion_sala_vacia. }
  set (a := candidata x1 i1 f1 w).
  set (w1 := con_tabla (tick w) (tabla w ++ [a])%list).
  unfold bind at 1.
  (* item 2 *)
  assert (Hfil : filter (where_solapamiento (in_sala x2) i2 f2 None) (tabla w1) = [a]).
  { unfold w1. rewrite con_tabla_tabla, filter_app.
    rewrite precheck_sala_vacia by (rewrite Hmisma; exact Hvacia1).
    cbn [filter app]. unfold where_solapamiento.
    unfold a, candidata.
    cbn [fila_nueva sala estado eliminadoEn inicio fin datos_create cd_sala
         cd_estado es_null].
    rewrite Hmisma, String.eqb_refl.
    rewrite (cuatro_casos_interseca i2 f2 i1 f1 Hlt2 Hlt1). unfold interseca.
    assert ((i2 <? f1) && (i1 <? f2) = true) as -> by (apply andb_true_iff; lia).
    destruct (in_estado x1) as [[]|]; try reflexivity. now elim Hestado. }
  assert (Hov2 : veredicto_solape env (tabla w1) (in_sala x2) i2 f2 None
                 = no_valido (MSG_CONFLICTO (in_sala x2) (titulo p1')
                                (toLocaleString_esES env i1)
                                (toLocaleString_esES env f1))).
  { unfold veredicto_solape. rewrite Hfil.
    unfold a, candidata at 1 2 3.
    cbn [fila_nueva peliculaId datos_create cd_peliculaId inicio fin].
    rewrite Hp1'. reflexivity. }
  rewrite (processTurnoItem_rechazo_precheck x2 1%nat _ env w1 p2 i2 f2 Hp2 Hi2 Hf2 Hd2)
    by (rewrite Hov2; reflexivity).
  rewrite Hov2. cbn [mensaje no_valido]. unfold bind at 1.
  (* item 3 *)
  assert (Hv3 : sala_vacia (tabla (tick w1)) (in_sala x3)).
  { cbn [tick tabla w1 con_tabla]. apply sala_vacia_app; [exact Hvacia3|].
    cbn. congruence. }
  rewrite (processTurnoItem_ok x3 2%nat _ env (tick w1) p3 i3 f3 Hp3 Hi3 Hf3 Hd3).
  2:{ apply veredicto_solape_valido. now apply precheck_sala_vacia. }
  2:{ now apply exclusion_sala_vacia. }
  unfold candidata. cbn [tick tabla w1 con_tabla lecturas].
  rewrite length_app, Nat.add_1_r.
  unfold ret. unfold respuesta_bulk, push_creado, push_error.
  cbn [fst snd app List.length]. unfold con_tabla, tick. cbn [tabla lecturas].
  rewrite <- app_assoc. reflexivity.
Qed.
End LoteDeTres.



(** C8 (a batch with a null element).  The route of createMultipleTurnos
    validates nothing, and the first property read of [processTurnoItem]
    is outside its inner [try]: on a batch whose second element is [null],
    after a first item that is created and before a third that asks for
    another room, the loop stops at the second element.  The answer is the
    500 of the error handler, with no entry for any item; the row of the
    first item stays in the table and the third item is never processed. *)
Theorem C8_null_item_aborts_the_batch :
  createMultipleTurnos
    [Some (pedido "p90" "A1" (hora 10) (Some (Fecha (hora 10 + minutos 105))));
     None;
     Some (pedido "p60" "B2" (hora 11) (Some (Fecha (hora 11 + minutos 75))))]
    entorno_ej mundo_vacio
  = (Normal (RespError 500 "INTERNAL_SERVER_ERROR"
               "Cannot read properties of null (reading 'peliculaId')"),
     {| tabla := [fila_1]; lecturas := 1 |}).
Proof. reflexivity. Qed.

(* ================================================================== *)
(** ** What each write does to the table *)

Lemma veredicto_ventana_ok i f d now :
  valido (veredicto (Fecha i) (Fecha f) d now) = true -> ventana_ok i f.
Proof.
  intros Hv. apply veredicto_valido in Hv as (i' & f' & Hi & Hf & Hlt & _ & _ & Hmax).
  injection Hi as <-. injection Hf as <-. split; assumption.
Qed.

(** [createTurno] always answers: with an error and the table as it was,
    or with the created row, appended to the table. *)
Lemma createTurno_casos body env w :
  exists resp w',
    createTurno body env w = (Normal resp, w')
    /\ ((exists st c m, resp = RespError st c m /\ tabla w' = tabla w)
        \/ (exists turno,
              resp = RespTurno 201 turno "Turno creado exitosamente"
              /\ tabla w' = (tabla w ++ [turno])%list
              /\ id turno = List.length (tabla w)
              /\ eliminadoEn turno = None
              /\ ventana_ok (inicio turno) (fin turno)
              /\ existsb (conflicto_exclusion turno) (tabla w) = false)).
Proof.
  unfold createTurno, try_catch.
  unfold bind at 1. unfold pelicula_findFirst, bind at 1, leer_peliculas, ret at 1.
  destruct (find _ (peliculas env)) as [p|] eqn:Hp.
  2:{ unfold throw, next, ret, errorHandler; cbn.
      do 2 eexists; split; [reflexivity|left]. do 3 eexists. split; reflexivity. }
  unfold bind at 1. rewrite validateTurnoDuration_run.
  destruct (valido (veredicto (in_inicio body)
                      (calcular_fin (in_inicio body) (duracionMin p))
                      (duracionMin p) (reloj env (lecturas w)))) eqn:Hv;
    unfold bind at 1; cbn [negb throw_if throw ret fst snd].
  2:{ match goal with
      | |- context [es_conflicto_db ?e] => destruct (es_conflicto_db e)
      end; unfold next, ret, errorHandler; cbn;
      (do 2 eexists; split; [reflexivity|left]; do 3 eexists;
       split; [reflexivity|apply tras_duracion_tabla]). }
  pose proof Hv as Hv'.
  apply veredicto_valido in Hv' as (i & f & Hi & Hf & _).
  rewrite Hf, Hi in Hv |- *. unfold bind at 1. rewrite validateTurnoOverlap_run.
  set (w1 := tras_duracion (Fecha i) (Fecha f) w).
  assert (Ht1 : tabla w1 = tabla w) by (unfold w1; apply tras_duracion_tabla).
  destruct (valido (veredicto_solape env (tabla w1) (in_sala body) i f None));
    unfold bind at 1; cbn [negb throw_if throw ret fst snd].
  2:{ match goal with
      | |- context [es_conflicto_db ?e] => destruct (es_conflicto_db e)
      end; unfold next, ret, errorHandler; cbn;
      (do 2 eexists; split; [reflexivity|left]; do 3 eexists;
       split; [reflexivity|exact Ht1]). }
  unfold bind.
  fold (datos_create body (Fecha i) (Fecha f)).
  pose proof (prisma_turno_create_run (datos_create body (Fecha i) (Fecha f)) env w1) as HR.
  destruct (prisma_turno_create (datos_create body (Fecha i) (Fecha f)) env w1)
    as [[fila|e] w2].
  - destruct HR as (i' & f' & Hi' & Hf' & -> & -> & _ & Hex).
    cbn in Hi', Hf'. injection Hi' as <-. injection Hf' as <-.
    cbn [ret]. do 2 eexists; split; [reflexivity|right].
    eexists. split; [reflexivity|]. rewrite con_tabla_tabla, Ht1 in *.
    repeat split; try reflexivity; try exact Hex;
      apply (veredicto_ventana_ok _ _ _ _ Hv).
  - subst w2. destruct (es_conflicto_db e); unfold next, ret, errorHandler; cbn;
      (do 2 eexists; split; [reflexivity|left]; do 3 eexists;
       split; [reflexivity|exact Ht1]).
Qed.

(** [updateTurno] always answers: with an error and the table as it was,
    or with the new version of the live row [i], put in its place. *)
Lemma updateTurno_casos i u env w :
  ids_en_orden (tabla w) ->
  exists resp w',
    updateTurno i u env w = (Normal resp, w')
    /\ ((exists st c m, resp = RespError st c m /\ tabla w' = tabla w)
        \/ (exists r0 nueva,
              find (fun x => Nat.eqb (id x) i && es_null (eliminadoEn x)) (tabla w)
              = Some r0
              /\ resp = RespTurno 200 nueva "Turno actualizado exitosamente"
              /\ tabla w' = reemplazar i nueva (tabla w)
              /\ id nueva = i
              /\ eliminadoEn nueva = None
              /\ (ventana_ok (inicio nueva) (fin nueva)
                  \/ (inicio nueva = inicio r0 /\ fin nueva = fin r0))
              /\ existsb (conflicto_exclusion nueva) (otros_que i (tabla w)) = false)).
Proof.
  intros HI. unfold updateTurno, try_catch.
  unfold bind at 1. unfold turno_findFirst, bind at 1, leer_tabla, ret at 1.
  destruct (find _ (tabla w)) as [r0|] eqn:Hfind; [|responde_error HI].
  pose proof (findFirst_In _ _ _ Hfind) as (Hin & Hid & Hnull).
  destruct (es_some (up_inicio u) || es_some (up_fin u)) eqn:Hg.
  - unfold bind at 1. unfold bind at 1. unfold leer_peliculas.
    destruct (pelicula_de (peliculas env) (peliculaId r0)) as [p|];
      [|responde_error HI].
    unfold bind at 1. rewrite validateTurnoDuration_run.
    set (inicioDate := o_else (up_inicio u) (Fecha (inicio r0))).
    set (finDate := o_else (up_fin u) (Fecha (fin r0))).
    destruct (valido (veredicto inicioDate finDate (duracionMin p)
                        (reloj env (lecturas w)))) eqn:Hv;
      unfold bind at 1; cbn [negb throw_if throw ret fst snd].
    2:{ unfold next, ret, errorHandler; cbn.
        do 2 eexists; split; [reflexivity|left]; do 3 eexists.
        split; [reflexivity|apply tras_duracion_tabla]. }
    pose proof Hv as Hv'.
    apply veredicto_valido in Hv' as (i' & f' & Hi & Hf & _).
    rewrite Hi, Hf in Hv |- *. unfold bind at 1. rewrite validateTurnoOverlap_run.
    set (w1 := tras_duracion (Fecha i') (Fecha f') w).
    assert (Ht1 : tabla w1 = tabla w) by (unfold w1; apply tras_duracion_tabla).
    destruct (valido (veredicto_solape env (tabla w1) _ i' f' (Some i)));
      unfold bind at 1; cbn [negb throw_if throw ret fst snd];
      [|responde_error Ht1].
    unfold bind at 1. unfold newDateNow. unfold bind at 1.
    match goal with
    | |- context [prisma_turno_update i ?d env ?w2] =>
        pose proof (prisma_turno_update_run i d env w2) as HR;
        destruct (prisma_turno_update i d env w2) as [[nueva|e] w3]
    end.
    + destruct HR as (r & Hr & -> & -> & _ & Hex).
      cbn [tabla] in Hr, Hex. rewrite Ht1 in Hr, Hex.
      apply find_id_In in Hr as [Hrin Hrid].
      assert (r = r0) by (eapply ids_inj; eauto; congruence). subst r.
      cbn [ret]. do 2 eexists; split; [reflexivity|right].
      exists r0. eexists. split; [reflexivity|]. split; [reflexivity|].
      rewrite con_tabla_tabla. cbn [tabla]. rewrite Ht1.
      split; [reflexivity|]. split; [exact Hid|]. split; [cbn; exact Hnull|].
      split; [left; cbn; apply (veredicto_ventana_ok _ _ _ _ Hv)|exact Hex].
    + subst w3. responde_error Ht1.
  - pose proof Hg as Hg'. apply orb_false_iff in Hg' as [Hgi Hgf].
    destruct (up_inicio u) eqn:Eui; [discriminate|].
    destruct (up_fin u) eqn:Euf; [discriminate|].
    unfold bind at 1. unfold ret at 1. unfold bind at 1. unfold newDateNow.
    unfold bind at 1.
    match goal with
    | |- context [prisma_turno_update i ?d env ?w2] =>
        pose proof (prisma_turno_update_run i d env w2) as HR;
        destruct (prisma_turno_update i d env w2) as [[nueva|e] w3]
    end.
    + destruct HR as (r & Hr & -> & -> & _ & Hex).
      cbn [tabla] in Hr, Hex.
      apply find_id_In in Hr as [Hrin Hrid].
      assert (r = r0) by (eapply ids_inj; eauto; congruence). subst r.
      cbn [ret]. do 2 eexists; split; [reflexivity|right].
      exists r0. eexists. split; [reflexivity|]. split; [reflexivity|].
      rewrite con_tabla_tabla. cbn [tabla].
      split; [reflexivity|]. split; [exact Hid|]. split; [cbn; exact Hnull|].
      split; [right; cbn; rewrite Eui, Euf; split; reflexivity|exact Hex].
    + subst w3. responde_error HI.
Qed.

(** An item of a bulk request ends in [errores] with the table as it was,
    or in [turnosCreados] as the row of the item, validated against the
    duration of its movie. *)
Lemma processTurnoItem_casos turnoData index acc env w :
  exists acc' w',
    processTurnoItem (Some turnoData) index acc env w = (Normal acc', w')
    /\ ((exists m, acc' = push_error acc index m turnoData /\ tabla w' = tabla w)
        \/ (exists p i f,
              find (fun x => String.eqb (pel_id x) (in_peliculaId turnoData)
                             && es_null (pel_eliminadoEn x)) (peliculas env) = Some p
              /\ in_inicio turnoData = Fecha i
              /\ in_fin turnoData = Some (Fecha f)
              /\ valido (veredicto (Fecha i) (Fecha f) (duracionMin p)
                           (reloj env (lecturas w))) = true
              /\ acc' = push_creado acc (candidata turnoData i f w)
              /\ tabla w' = (tabla w ++ [candidata turnoData i f w])%list)).
Proof.
  unfold processTurnoItem; cbv iota beta.
  unfold bind at 1. unfold pelicula_findFirst, bind at 1, leer_peliculas, ret at 1.
  destruct (find _ (peliculas env)) as [p|] eqn:Hp;
    [|do 2 eexists; split; [reflexivity|left; eauto]].
  unfold bind at 1. rewrite validateTurnoDuration_run.
  destruct (in_fin turnoData) as [finDate|] eqn:Efin; cbn [o_else].
  2:{ destruct (in_inicio turnoData); cbn;
        (do 2 eexists; split; [reflexivity|left; eauto]). }
  destruct (valido (veredicto (in_inicio turnoData) finDate (duracionMin p)
                      (reloj env (lecturas w)))) eqn:Hv; cbn [negb].
  2:{ do 2 eexists; split; [reflexivity|left]. eexists; split; [reflexivity|].
      apply tras_duracion_tabla. }
  pose proof Hv as Hv'.
  apply veredicto_valido in Hv' as (i & f & Hi & Hf & _).
  rewrite Hf, Hi in Hv |- *. unfold bind at 1. rewrite validateTurnoOverlap_run.
  set (w1 := tras_duracion (Fecha i) (Fecha f) w).
  assert (Ht1 : tabla w1 = tabla w) by (unfold w1; apply tras_duracion_tabla).
  destruct (valido (veredicto_solape env (tabla w1) (in_sala turnoData) i f None));
    cbn [negb]; [|do 2 eexists; split; [reflexivity|left; eauto]].
  unfold try_catch, bind.
  fold (datos_create turnoData (Fecha i) (Fecha f)).
  pose proof (prisma_turno_create_run (datos_create turnoData (Fecha i) (Fecha f))
                env w1) as HR.
  destruct (prisma_turno_create (datos_create turnoData (Fecha i) (Fecha f)) env w1)
    as [[fila|err] w2].
  - destruct HR as (i2 & f2 & Hi2 & Hf2 & -> & -> & _ & _).
    cbn in Hi2, Hf2. injection Hi2 as <-. injection Hf2 as <-.
    do 2 eexists; split; [reflexivity|right]. exists p, i, f.
    rewrite con_tabla_tabla, Ht1. unfold candidata.
    repeat split; auto.
  - subst w2.
    destruct (es_conflicto_db err); do 2 eexists; (split; [reflexivity|left; eauto]).
Qed.

Lemma pasos_uno t t' : paso_tabla t t' -> pasos_tabla t t'.
Proof. intros H. eapply ps_mas; [exact H|apply ps_fin]. Qed.

Lemma pasos_trans t t' t'' :
  pasos_tabla t t' -> pasos_tabla t' t'' -> pasos_tabla t t''.
Proof.
  induction 1 as [|a b c Hab _ IH]; intros H; [exact H|].
  eapply ps_mas; [exact Hab|now apply IH].
Qed.

Lemma createTurno_pasos body env w :
  pasos_tabla (tabla w) (tabla (snd (createTurno body env w))).
Proof.
  destruct (createTurno_casos body env w)
    as (resp & w' & Hrun & [(st & c & m & _ & Ht)|(turno & _ & Ht & Hid & Hel & Hv & _)]);
    rewrite Hrun; cbn [snd]; rewrite Ht.
  - apply ps_fin.
  - apply pasos_uno. now apply pt_alta.
Qed.

Lemma updateTurno_pasos i u env w :
  Inv_total (tabla w) -> pasos_tabla (tabla w) (tabla (snd (updateTurno i u env w))).
Proof.
  intros HI.
  destruct (updateTurno_casos i u env w (it_ids _ HI))
    as (resp & w' & Hrun & [(st & c & m & _ & Ht)
                           |(r0 & nueva & Hf & _ & Ht & Hid & Hel & Hv & _)]);
    rewrite Hrun; cbn [snd]; rewrite Ht.
  - apply ps_fin.
  - apply findFirst_In in Hf as (Hin & Hid0 & Hnull).
    apply pasos_uno. now apply (pt_modif (tabla w) i r0 nueva).
Qed.

Lemma deleteTurno_pasos i env w :
  Inv_total (tabla w) -> pasos_tabla (tabla w) (tabla (snd (deleteTurno i env w))).
Proof.
  intros HI.
  destruct (find (fun x => Nat.eqb (id x) i && es_null (eliminadoEn x)) (tabla w))
    as [r|] eqn:Hfind.
  - rewrite (deleteTurno_run i r env w HI Hfind). cbn [snd]. rewrite con_tabla_tabla.
    apply findFirst_In in Hfind as (Hin & Hid & Hnull).
    apply pasos_uno. apply (pt_modif (tabla w) i r); auto.
  - unfold deleteTurno, try_catch.
    unfold bind at 1. unfold turno_findFirst, bind at 1, leer_tabla, ret at 1.
    rewrite Hfind. cbn. apply ps_fin.
Qed.

Lemma bucle_turnos_pasos turnos : forall i acc env w,
  pasos_tabla (tabla w) (tabla (snd (bucle_turnos turnos i acc env w))).
Proof.
  induction turnos as [|x resto IH]; intros i acc env w; cbn [bucle_turnos].
  - apply ps_fin.
  - unfold bind. destruct x as [x|]; [|apply ps_fin].
    destruct (processTurnoItem_casos x i acc env w)
      as (acc' & w1 & Hrun & [(m & _ & Ht)|(p & s & f & _ & _ & _ & Hv & _ & Ht)]);
      rewrite Hrun.
    + rewrite <- Ht. apply IH.
    + apply (ps_mas _ (tabla w ++ [candidata x s f w])%list);
        [|rewrite <- Ht; apply IH].
      apply pt_alta; try reflexivity. apply (veredicto_ventana_ok _ _ _ _ Hv).
Qed.

Lemma createMultipleTurnos_pasos turnos env w :
  pasos_tabla (tabla w) (tabla (snd (createMultipleTurnos turnos env w))).
Proof.
  unfold createMultipleTurnos.
  rewrite try_catch_snd by reflexivity.
  unfold bind at 1.
  destruct (Nat.eqb (List.length turnos) 0); cbn [throw_if throw ret]; [apply ps_fin|].
  unfold bind at 1.
  destruct (Nat.ltb 50 (List.length turnos)); cbn [throw_if throw ret]; [apply ps_fin|].
  unfold bind.
  pose proof (bucle_turnos_pasos turnos 0%nat ([], []) env w) as H1.
  destruct (bucle_turnos turnos 0%nat ([], []) env w) as [[acc|e] w1]; exact H1.
Qed.

Lemma ejecutar_pasos op env w :
  Inv_total (tabla w) -> pasos_tabla (tabla w) (tabla (snd (ejecutar op env w))).
Proof.
  intros HI. destruct op; cbn [ejecutar].
  - apply createTurno_pasos.
  - now apply updateTurno_pasos.
  - now apply deleteTurno_pasos.
  - apply createMultipleTurnos_pasos.
Qed.

(** *** Consequences of the shape of the changes *)

Lemma map_id_reemplazar i nueva t :
  id nueva = i -> map id (reemplazar i nueva t) = map id t.
Proof.
  intros Hid. unfold reemplazar. rewrite map_map. apply map_ext_in.
  intros r _. destruct (Nat.eqb (id r) i) eqn:E; [|reflexivity].
  apply Nat.eqb_eq in E. congruence.
Qed.

Lemma pasos_ids t t' :
  pasos_tabla t t' -> exists nuevos, map id t' = (map id t ++ nuevos)%list.
Proof.
  induction 1 as [t|t t1 t2 H1 _ [n IH]].
  - exists []. now rewrite app_nil_r.
  - destruct H1 as [t fila _ _ _|t i r nueva _ _ _ Hid _].
    + rewrite map_app in IH. cbn in IH. rewrite <- app_assoc in IH. eauto.
    + rewrite (map_id_reemplazar i nueva t Hid) in IH. eauto.
Qed.

Lemma paso_ids_en_orden t t' :
  ids_en_orden t -> paso_tabla t t' -> ids_en_orden t'.
Proof.
  unfold ids_en_orden.
  intros Hids H. destruct H as [t0 fila Hid _ _|t0 i r nueva _ _ _ Hid _]; intros k x Hk.
  - destruct (Nat.lt_ge_cases k (List.length t0)) as [Hlt|Hge].
    + rewrite nth_error_app1 in Hk by exact Hlt. now apply Hids.
    + rewrite nth_error_app2 in Hk by exact Hge.
      destruct (k - List.length t0)%nat as [|m] eqn:E; cbn in Hk.
      * injection Hk as <-. lia.
      * destruct m; discriminate Hk.
  - unfold reemplazar in Hk. rewrite nth_error_map in Hk.
    destruct (nth_error t0 k) as [r1|] eqn:E; cbn in Hk; [|discriminate].
    pose proof (Hids k r1 E) as Hr1.
    destruct (Nat.eqb (id r1) i) eqn:Ei; injection Hk as <-.
    + apply Nat.eqb_eq in Ei. congruence.
    + exact Hr1.
Qed.

(** A step never touches a soft-deleted row. *)
Lemma paso_conserva_borradas t t' k r :
  ids_en_orden t -> paso_tabla t t' ->
  nth_error t k = Some r -> eliminadoEn r <> None -> nth_error t' k = Some r.
Proof.
  unfold ids_en_orden.
  intros Hids H. destruct H as [t0 fila _ _ _|t0 i r1 nueva Hin Hid1 Hlive _ _];
    intros Hk Hdel.
  - rewrite nth_error_app1; [exact Hk|]. apply nth_error_Some. congruence.
  - unfold reemplazar. rewrite nth_error_map, Hk. cbn.
    destruct (Nat.eqb (id r) i) eqn:E; [|reflexivity].
    apply Nat.eqb_eq in E. exfalso.
    apply In_nth_error in Hin as [k1 Hk1].
    pose proof (Hids k r Hk). pose proof (Hids k1 r1 Hk1).
    assert (k = k1) by congruence. subst k1.
    assert (r = r1) by congruence. subst r1. contradiction.
Qed.

Lemma pasos_conserva_borradas t t' :
  pasos_tabla t t' -> ids_en_orden t ->
  forall k r, nth_error t k = Some r -> eliminadoEn r <> None ->
              nth_error t' k = Some r.
Proof.
  induction 1 as [t|t t1 t2 H1 _ IH]; intros Hids k r Hk Hdel; [exact Hk|].
  apply IH.
  - eapply paso_ids_en_orden; eauto.
  - eapply paso_conserva_borradas; eauto.
  - exact Hdel.
Qed.

Lemma paso_ventanas t t' :
  (forall r, In r t -> ventana_ok (inicio r) (fin r)) -> paso_tabla t t' ->
  forall r, In r t' -> ventana_ok (inicio r) (fin r).
Proof.
  intros Hall H. destruct H as [t0 fila _ _ Hv|t0 i r1 nueva Hin _ _ _ Hv]; intros r Hr.
  - apply in_app_or in Hr as [Hr|[<-|[]]]; auto.
  - apply In_reemplazar in Hr as [[-> _]|[Hr _]]; [|now apply Hall].
    destruct Hv as [Hv|[Hi Hf]]; [exact Hv|]. rewrite Hi, Hf. now apply Hall.
Qed.

Lemma pasos_ventanas t t' :
  pasos_tabla t t' -> (forall r, In r t -> ventana_ok (inicio r) (fin r)) ->
  forall r, In r t' -> ventana_ok (inicio r) (fin r).
Proof.
  induction 1 as [t|t t1 t2 H1 _ IH]; intros Hall; [exact Hall|].
  apply IH. eapply paso_ventanas; eauto.
Qed.

Lemma alcanzable_ventanas t :
  alcanzable t -> forall r, In r t -> ventana_ok (inicio r) (fin r).
Proof.
  induction 1 as [|t op env n Halc IH].
  - intros r [].
  - apply (pasos_ventanas t); [|exact IH].
    apply (ejecutar_pasos op env {| tabla := t; lecturas := n |}).
    apply Inv_total_de_Inv. now apply alcanzable_Inv.
Qed.

(* ================================================================== *)
(** ** Further properties of the write endpoints *)

(** X1 (createTurno, all or nothing).  [createTurno] never throws: it
    answers either an error, and then the table is exactly as before, or
    201 with the created row, and then the table is the old table with that
    one row appended under the next identifier, live and with a window that
    passed the duration rules. *)
Theorem X1_createTurno_error_or_one_row_appended :
  forall body env w,
  exists resp w',
    createTurno body env w = (Normal resp, w')
    /\ ((exists st c m, resp = RespError st c m /\ tabla w' = tabla w)
        \/ (exists turno,
              resp = RespTurno 201 turno "Turno creado exitosamente"
              /\ tabla w' = (tabla w ++ [turno])%list
              /\ id turno = List.length (tabla w)
              /\ eliminadoEn turno = None
              /\ inicio turno < fin turno)).
Proof.
  intros body env w.
  destruct (createTurno_casos body env w)
    as (resp & w' & Hrun & [H|(turno & Hr & Ht & Hid & Hel & [Hlt _] & _)]).
  - exists resp, w'. split; [exact Hrun|now left].
  - exists resp, w'. split; [exact Hrun|right]. exists turno. repeat split; auto.
Qed.

Lemma nth_error_reemplazar t i nueva k r :
  ids_en_orden t -> nth_error t k = Some r ->
  nth_error (reemplazar i nueva t) k = Some (if Nat.eqb k i then nueva else r).
Proof.
  intros Hids Hk. unfold reemplazar. rewrite nth_error_map, Hk. cbn.
  now rewrite (Hids k r Hk).
Qed.

(** X2 (updateTurno, all or nothing, one row only).  On a reachable table
    [updateTurno] never throws: it answers either an error, and then the
    table is exactly as before, or 200 with the new version of row [i], and
    then the table has the same rows in the same places except that row [i]
    is the new version, which keeps the identifier and is still live. *)
Theorem X2_updateTurno_error_or_one_row_replaced :
  forall i u env w,
    alcanzable (tabla w) ->
    exists resp w',
      updateTurno i u env w = (Normal resp, w')
      /\ ((exists st c m, resp = RespError st c m /\ tabla w' = tabla w)
          \/ (exists nueva,
                resp = RespTurno 200 nueva "Turno actualizado exitosamente"
                /\ id nueva = i
                /\ eliminadoEn nueva = None
                /\ List.length (tabla w') = List.length (tabla w)
                /\ nth_error (tabla w') i = Some nueva
                /\ (forall k r, nth_error (tabla w) k = Some r -> k <> i ->
                                nth_error (tabla w') k = Some r))).
Proof.
  intros i u env w Halc. pose proof (alcanzable_Inv _ Halc) as HI.
  destruct (updateTurno_casos i u env w (inv_ids _ HI))
    as (resp & w' & Hrun & [H|(r0 & nueva & Hf & Hr & Ht & Hid & Hel & _ & _)]).
  - exists resp, w'. split; [exact Hrun|now left].
  - exists resp, w'. split; [exact Hrun|right]. exists nueva.
    apply findFirst_In in Hf as (Hin & Hid0 & _).
    assert (Hids : ids_en_orden (tabla w)) by exact (inv_ids _ HI).
    apply In_nth_error in Hin as [k0 Hk0].
    assert (k0 = i) by (rewrite <- (Hids k0 r0 Hk0); exact Hid0). subst k0.
    rewrite Ht. repeat split; auto.
    + unfold reemplazar. apply length_map.
    + rewrite (nth_error_reemplazar _ i nueva i r0 Hids Hk0).
      now rewrite Nat.eqb_refl.
    + intros k r Hk Hne. rewrite (nth_error_reemplazar _ i nueva k r Hids Hk).
      apply Nat.eqb_neq in Hne. now rewrite Hne.
Qed.

Lemma X2_updateTurno_error_or_one_row_replaced_witness :
  exists resp w',
    updateTurno 0 (solo_sala "A2") entorno_ej {| tabla := tabla_xy; lecturas := 0 |}
    = (Normal resp, w')
    /\ ((exists st c m, resp = RespError st c m /\ tabla w' = tabla_xy)
        \/ (exists nueva,
              resp = RespTurno 200 nueva "Turno actualizado exitosamente"
              /\ id nueva = 0%nat
              /\ eliminadoEn nueva = None
              /\ List.length (tabla w') = List.length tabla_xy
              /\ nth_error (tabla w') 0 = Some nueva
              /\ (forall k r, nth_error tabla_xy k = Some r -> k <> 0%nat ->
                              nth_error (tabla w') k = Some r))).
Proof.
  exact (X2_updateTurno_error_or_one_row_replaced 0%nat (solo_sala "A2") entorno_ej
           {| tabla := tabla_xy; lecturas := 0 |} tabla_xy_alcanzable).
Defined.

(** X4 (no row is ever removed or renumbered).  Every write operation on
    a reachable table keeps every row position and identifier: the list of
    identifiers before the operation is a prefix of the list after it. *)
Theorem X4_rows_are_never_removed :
  forall t, alcanzable t ->
  forall op env n,
  exists nuevos,
    map id (tabla (snd (ejecutar op env {| tabla := t; lecturas := n |})))
    = (map id t ++ nuevos)%list.
Proof.
  intros t Halc op env n. apply pasos_ids.
  apply (ejecutar_pasos op env {| tabla := t; lecturas := n |}).
  apply Inv_total_de_Inv. now apply alcanzable_Inv.
Qed.

Lemma X4_rows_are_never_removed_witness :
  exists nuevos,
    map id (tabla (snd (ejecutar (OpDelete 0) entorno_ej
                          {| tabla := tabla_xy; lecturas := 0 |})))
    = (map id tabla_xy ++ nuevos)%list.
Proof.
  exact (X4_rows_are_never_removed tabla_xy tabla_xy_alcanzable
           (OpDelete 0) entorno_ej 0%nat).
Defined.

(** X5 (a soft-deleted row is frozen).  In a reachable table, a row whose
    [eliminadoEn] is set is left in its place, unchanged in every column,
    by every later create, update, delete and bulk create. *)
Theorem X5_soft_deleted_rows_are_frozen :
  forall t, alcanzable t ->
  forall k r, nth_error t k = Some r -> eliminadoEn r <> None ->
  forall op env n,
    nth_error (tabla (snd (ejecutar op env {| tabla := t; lecturas := n |}))) k
    = Some r.
Proof.
  intros t Halc k r Hk Hdel op env n.
  pose proof (alcanzable_Inv _ Halc) as HI.
  apply (pasos_conserva_borradas t); auto.
  - apply (ejecutar_pasos op env {| tabla := t; lecturas := n |}).
    now apply Inv_total_de_Inv.
  - exact (inv_ids _ HI).
Qed.

Lemma X5_soft_deleted_rows_are_frozen_witness :
  nth_error (tabla (snd (ejecutar (OpUpdate 0 (solo_sala "A2")) entorno_ej
                           {| tabla := tabla_borrada; lecturas := 0 |}))) 0
  = Some fila_1_borrada.
Proof.
  apply (X5_soft_deleted_rows_are_frozen tabla_borrada tabla_borrada_alcanzable
           0%nat fila_1_borrada eq_refl).
  discriminate.
Defined.

(** X6 (no stored turno lasts 241 minutes or more).  Every row of a table
    reached through the four writes of turnosController.ts ends after it
    starts and less than 241 minutes later: each of their writes of
    [inicio] or [fin] went through the duration rules. *)
Theorem X6_stored_windows_are_bounded :
  forall t, alcanzable t ->
  forall r, In r t -> 0 < fin r - inicio r < minutos 241.
Proof.
  intros t Halc r Hr.
  destruct (alcanzable_ventanas t Halc r Hr) as [Hlt Hmax].
  unfold minutos. split; [lia|].
  pose proof (Z.div_mod (fin r - inicio r) 60000 ltac:(lia)) as Hdm.
  pose proof (Z.mod_pos_bound (fin r - inicio r) 60000 ltac:(lia)) as Hmod.
  lia.
Qed.

Lemma X6_stored_windows_are_bounded_witness :
  0 < fin fila_y - inicio fila_y < minutos 241.
Proof.
  apply (X6_stored_windows_are_bounded tabla_xy tabla_xy_alcanzable fila_y).
  right. left. reflexivity.
Defined.

(* ================================================================== *)
(** ** Reading after writing: [getTurnoById] *)

Lemma findFirst_tras_borrar t i nueva :
  eliminadoEn nueva <> None ->
  find (fun x => Nat.eqb (id x) i && es_null (eliminadoEn x)) (reemplazar i nueva t)
  = None.
Proof.
  intros Hdel. unfold reemplazar. induction t as [|r t IH]; cbn; [reflexivity|].
  destruct (Nat.eqb (id r) i) eqn:E.
  - destruct (eliminadoEn nueva); [|congruence].
    cbn. rewrite andb_false_r. exact IH.
  - rewrite E. cbn. exact IH.
Qed.

Lemma no_encontrado_delete i env w :
  find (fun x => Nat.eqb (id x) i && es_null (eliminadoEn x)) (tabla w) = None ->
  deleteTurno i env w = (Normal NO_ENCONTRADO, w).
Proof.
  intros H. unfold deleteTurno, try_catch.
  unfold bind at 1. unfold turno_findFirst, bind at 1, leer_tabla, ret at 1.
  rewrite H. reflexivity.
Qed.

Lemma no_encontrado_update i u env w :
  find (fun x => Nat.eqb (id x) i && es_null (eliminadoEn x)) (tabla w) = None ->
  updateTurno i u env w = (Normal NO_ENCONTRADO, w).
Proof.
  intros H. unfold updateTurno, try_catch.
  unfold bind at 1. unfold turno_findFirst, bind at 1, leer_tabla, ret at 1.
  rewrite H. reflexivity.
Qed.

Lemma no_encontrado_get i env w :
  find (fun x => Nat.eqb (id x) i && es_null (eliminadoEn x)) (tabla w) = None ->
  getTurnoById i env w = (Normal (LecError NO_ENCONTRADO), w).
Proof.
  intros H. unfold getTurnoById, try_catch.
  unfold bind at 1. unfold turno_findFirst, bind at 1, leer_tabla, ret at 1.
  rewrite H. reflexivity.
Qed.

Lemma encontrado_get i r env w :
  find (fun x => Nat.eqb (id x) i && es_null (eliminadoEn x)) (tabla w) = Some r ->
  getTurnoById i env w
  = (Normal (LecTurno 200 (r, pelicula_de (peliculas env) (peliculaId r))), w).
Proof.
  intros H. unfold getTurnoById, try_catch.
  unfold bind at 1. unfold turno_findFirst, bind at 1, leer_tabla, ret at 1.
  rewrite H. reflexivity.
Qed.

(** X3 (after a soft delete the turno is gone for every endpoint).  Once
    [deleteTurno] has deleted a live row of a reachable table, a second
    delete, any update and the read by identifier all answer 404
    TURNO_NOT_FOUND and leave the table as it is. *)
Theorem X3_deleted_turno_is_not_found :
  forall t, alcanzable t ->
  forall i r env n,
    find (fun x => Nat.eqb (id x) i && es_null (eliminadoEn x)) t = Some r ->
    let w' := snd (deleteTurno i env {| tabla := t; lecturas := n |}) in
    fst (deleteTurno i env {| tabla := t; lecturas := n |})
    = Normal (RespMensaje 200 "Turno eliminado exitosamente")
    /\ forall env' u,
        deleteTurno i env' w' = (Normal NO_ENCONTRADO, w')
        /\ updateTurno i u env' w' = (Normal NO_ENCONTRADO, w')
        /\ getTurnoById i env' w' = (Normal (LecError NO_ENCONTRADO), w').
Proof.
  intros t Halc i r env n Hfind w'. subst w'.
  rewrite (deleteTurno_run i r env {| tabla := t; lecturas := n |}
             (Inv_total_de_Inv _ (alcanzable_Inv _ Halc)) Hfind).
  cbn [fst snd]. split; [reflexivity|]. intros env' u.
  assert (Hnone : find (fun x => Nat.eqb (id x) i && es_null (eliminadoEn x))
                    (tabla (con_tabla (tick {| tabla := t; lecturas := n |})
                              (reemplazar i (borrada (reloj env n) r) t))) = None).
  { rewrite con_tabla_tabla. apply findFirst_tras_borrar. discriminate. }
  split; [|split].
  - now apply no_encontrado_delete.
  - now apply no_encontrado_update.
  - now apply no_encontrado_get.
Qed.

Lemma X3_deleted_turno_is_not_found_witness :
  let w' := snd (deleteTurno 0 entorno_ej {| tabla := tabla_xy; lecturas := 0 |}) in
  fst (deleteTurno 0 entorno_ej {| tabla := tabla_xy; lecturas := 0 |})
  = Normal (RespMensaje 200 "Turno eliminado exitosamente")
  /\ forall env' u,
      deleteTurno 0 env' w' = (Normal NO_ENCONTRADO, w')
      /\ updateTurno 0 u env' w' = (Normal NO_ENCONTRADO, w')
      /\ getTurnoById 0 env' w' = (Normal (LecError NO_ENCONTRADO), w').
Proof.
  exact (X3_deleted_turno_is_not_found tabla_xy tabla_xy_alcanzable
           0%nat fila_1 entorno_ej 0%nat eq_refl).
Defined.

Lemma find_primero {A} (P : A -> bool) l k x :
  nth_error l k = Some x -> P x = true ->
  (forall j y, (j < k)%nat -> nth_error l j = Some y -> P y = false) ->
  find P l = Some x.
Proof.
  revert k. induction l as [|a l IH]; intros k Hk Hx Hbefore.
  - destruct k; discriminate Hk.
  - destruct k as [|k]; cbn in Hk.
    + injection Hk as ->. cbn. now rewrite Hx.
    + cbn. rewrite (Hbefore 0%nat a) by (lia || reflexivity).
      apply (IH k Hk Hx). intros j y Hj Hy.
      apply (Hbefore (S j) y); [lia|exact Hy].
Qed.

Lemma findFirst_en_posicion t i r :
  ids_en_orden t -> nth_error t i = Some r -> eliminadoEn r = None ->
  find (fun x => Nat.eqb (id x) i && es_null (eliminadoEn x)) t = Some r.
Proof.
  intros Hids Hi Hlive. apply (find_primero _ t i r Hi).
  - rewrite (Hids i r Hi), Nat.eqb_refl, Hlive. reflexivity.
  - intros j y Hj Hy. rewrite (Hids j y Hy).
    assert (Nat.eqb j i = false) as -> by (apply Nat.eqb_neq; lia). reflexivity.
Qed.

(** X7 (read your writes).  On a reachable table, the row answered by a
    successful [createTurno] is the row that [getTurnoById] returns for
    its identifier, and the row answered by a successful [updateTurno] is
    the row that [getTurnoById] returns afterwards. *)
Theorem X7_get_returns_what_was_written :
  forall t, alcanzable t ->
  (forall body env n turno msg,
      fst (createTurno body env {| tabla := t; lecturas := n |})
      = Normal (RespTurno 201 turno msg) ->
      forall env',
        fst (getTurnoById (id turno) env'
               (snd (createTurno body env {| tabla := t; lecturas := n |})))
        = Normal (LecTurno 200 (turno, pelicula_de (peliculas env') (peliculaId turno))))
  /\ (forall i u env n nueva msg,
        fst (updateTurno i u env {| tabla := t; lecturas := n |})
        = Normal (RespTurno 200 nueva msg) ->
        forall env',
          fst (getTurnoById i env'
                 (snd (updateTurno i u env {| tabla := t; lecturas := n |})))
          = Normal (LecTurno 200 (nueva, pelicula_de (peliculas env') (peliculaId nueva)))).
Proof.
  intros t Halc. pose proof (alcanzable_Inv _ Halc) as HI.
  assert (Hids : ids_en_orden t) by exact (inv_ids _ HI). split.
  - intros body env n turno msg Hok env'.
    destruct (createTurno_casos body env {| tabla := t; lecturas := n |})
      as (resp & w' & Hrun & [(st & c & m & -> & _)
                             |(turno' & -> & Ht & Hid & Hel & Hv & _)]);
      rewrite Hrun in Hok |- *; cbn [fst snd] in *; [discriminate|].
    injection Hok as <- _. cbn [tabla] in Ht, Hid.
    rewrite (encontrado_get (id turno') turno' env' w'); [reflexivity|].
    rewrite Ht. apply findFirst_en_posicion; auto.
    + apply (paso_ids_en_orden t); [exact Hids|]. now apply pt_alta.
    + rewrite Hid, nth_error_app2, Nat.sub_diag by lia. reflexivity.
  - intros i u env n nueva msg Hok env'.
    destruct (updateTurno_casos i u env {| tabla := t; lecturas := n |} (inv_ids _ HI))
      as (resp & w' & Hrun & [(st & c & m & -> & _)
                             |(r0 & nueva' & Hf & -> & Ht & Hid & Hel & Hv & _)]);
      rewrite Hrun in Hok |- *; cbn [fst snd] in *; [discriminate|].
    injection Hok as <- _. cbn [tabla] in Ht, Hf.
    apply findFirst_In in Hf as (Hin & Hid0 & Hnull).
    rewrite (encontrado_get i nueva' env' w'); [reflexivity|].
    rewrite Ht. apply findFirst_en_posicion; auto.
    + apply (paso_ids_en_orden t); [exact Hids|].
      now apply (pt_modif t i r0 nueva').
    + apply In_nth_error in Hin as [k0 Hk0].
      assert (k0 = i) by (rewrite <- (Hids k0 r0 Hk0); exact Hid0). subst k0.
      rewrite (nth_error_reemplazar t i nueva' i r0 Hids Hk0).
      now rewrite Nat.eqb_refl.
Qed.

Lemma X7_get_returns_what_was_written_witness :
  fst (getTurnoById (id fila_1) entorno_ej
         (snd (createTurno pedido_1 entorno_ej {| tabla := []; lecturas := 0 |})))
  = Normal (LecTurno 200 (fila_1, pelicula_de (peliculas entorno_ej) (peliculaId fila_1))).
Proof.
  exact (proj1 (X7_get_returns_what_was_written [] alc_vacio)
           pedido_1 entorno_ej 0%nat fila_1 "Turno creado exitosamente" eq_refl
           entorno_ej).
Defined.

(* ================================================================== *)
(** ** The duration rule and the conflict rule of [createTurno] *)

Lemma falla_del_codigo_calculada s d now :
  Z.abs (s + (d + 15) * 60 * 1000) <= maxTimeValue ->
  (225 < d -> now <= s -> - maxTimeValue <= s) ->
  falla_del_codigo (Fecha s) (calcular_fin (Fecha s) d) d now
  = if d + 15 <=? 0 then Some INVALID_RANGE
    else if s <? now then Some IN_THE_PAST
    else if 225 <? d then Some TOO_LONG
    else None.
Proof.
  intros Hmax Hs. unfold calcular_fin, newDate.
  destruct (Z.abs (s + (d + 15) * 60 * 1000) <=? maxTimeValue) eqn:E; [|lia].
  unfold falla_del_codigo. unfold maxTimeValue in Hs, Hmax.
  destruct (d + 15 <=? 0) eqn:E0.
  - destruct (s + (d + 15) * 60 * 1000 <=? s) eqn:E1; [reflexivity|lia].
  - destruct (s + (d + 15) * 60 * 1000 <=? s) eqn:E1; [lia|].
    destruct (s <? now) eqn:En; [reflexivity|]. cbv zeta.
    assert (Hq : 60000 * (d + 15) < 2 ^ 58).
    { change (2 ^ 58) with 288230376151711744.
      destruct (Z.le_gt_cases d 225) as [Hd|Hd]; [lia|].
      assert (- 8640000000000000 <= s) by (apply Hs; lia). lia. }
    replace (s + (d + 15) * 60 * 1000) with (s + 60000 * (d + 15)) by lia.
    rewrite duracion_multiplo by (auto; lia).
    rewrite doble_de_entero_exacto
      by (change (2 ^ 58) with 288230376151711744 in Hq;
          change (2 ^ 53) with 9007199254740992; lia).
    rewrite Z.ltb_irrefl.
    destruct (225 <? d) eqn:E2, (240 <? d + 15) eqn:E3; try reflexivity; lia.
Qed.

Lemma createTurno_duracion_rechazada body env w p s k :
  find (fun x => String.eqb (pel_id x) (in_peliculaId body)
                 && es_null (pel_eliminadoEn x)) (peliculas env) = Some p ->
  in_inicio body = Fecha s ->
  falla_del_codigo (Fecha s) (calcular_fin (Fecha s) (duracionMin p)) (duracionMin p)
    (reloj env (lecturas w)) = Some k ->
  es_conflicto_db (createError 400 (texto_de_fallo k (duracionMin p)) "INVALID_DURATION")
  = false ->
  texto_de_fallo k (duracionMin p) <> EmptyString ->
  createTurno body env w
  = (Normal (RespError 400 "INVALID_DURATION" (texto_de_fallo k (duracionMin p))),
     tras_duracion (Fecha s) (calcular_fin (Fecha s) (duracionMin p)) w).
Proof.
  intros Hp Hs Hk Hdb Hne. unfold createTurno, try_catch.
  unfold bind at 1. unfold pelicula_findFirst, bind at 1, leer_peliculas, ret at 1.
  rewrite Hp. unfold bind at 1. rewrite Hs, validateTurnoDuration_run.
  unfold veredicto. rewrite Hk. cbn [valido no_valido negb].
  unfold bind at 1. cbn [throw_if throw].
  change (mensaje_de (no_valido (texto_de_fallo k (duracionMin p))))
    with (texto_de_fallo k (duracionMin p)).
  rewrite Hdb. unfold next, ret, errorHandler. cbn.
  destruct (String.eqb (texto_de_fallo k (duracionMin p)) EmptyString) eqn:E;
    [apply String.eqb_eq in E; contradiction|reflexivity].
Qed.

(** X8 (the duration rule of a single create).  For a live movie of
    duration [d] and a start [s] whose computed end is a valid date, the
    duration validation inside [createTurno] can fail in three ways only:
    [d + 15 <= 0] (the end is not after the start), [s] before the instant
    read from the clock, or [d > 225] (the slot of [d + 15] minutes
    exceeds 240; here the start is taken not to precede the first date
    that has a time value, which every date satisfies, so that the minutes
    are computed without rounding).  It never fails as too short, and in
    each of the three cases the answer is 400 INVALID_DURATION and nothing
    is stored. *)
Theorem X8_createTurno_duration_rule :
  forall body env w p s,
    find (fun x => String.eqb (pel_id x) (in_peliculaId body)
                   && es_null (pel_eliminadoEn x)) (peliculas env) = Some p ->
    in_inicio body = Fecha s ->
    Z.abs (s + (duracionMin p + 15) * 60 * 1000) <= maxTimeValue ->
    let d := duracionMin p in
    let now := reloj env (lecturas w) in
    (d + 15 <= 0 ->
     createTurno body env w
     = (Normal (RespError 400 "INVALID_DURATION" MSG_INVALID_RANGE), w))
    /\ (0 < d + 15 -> s < now ->
        createTurno body env w
        = (Normal (RespError 400 "INVALID_DURATION" MSG_IN_THE_PAST), tick w))
    /\ (0 < d + 15 -> now <= s -> 225 < d -> - maxTimeValue <= s ->
        createTurno body env w
        = (Normal (RespError 400 "INVALID_DURATION" MSG_TOO_LONG), tick w))
    /\ (0 < d + 15 -> now <= s -> d <= 225 ->
        valido (veredicto (Fecha s) (calcular_fin (Fecha s) d) d now) = true
        /\ calcular_fin (Fecha s) d = Fecha (s + minutos (d + 15))).
Proof.
  intros body env w p s Hp Hs Hmax d now.
  assert (Hfin : calcular_fin (Fecha s) d = Fecha (s + (d + 15) * 60 * 1000)).
  { unfold calcular_fin, newDate.
    destruct (Z.abs (s + (d + 15) * 60 * 1000) <=? maxTimeValue) eqn:E;
      [reflexivity|subst d; lia]. }
  split; [|split; [|split]].
  - intros H0.
    assert (Hk : falla_del_codigo (Fecha s) (calcular_fin (Fecha s) d) d now
                 = Some INVALID_RANGE).
    { rewrite (falla_del_codigo_calculada s d now Hmax) by (subst d; lia).
      destruct (d + 15 <=? 0) eqn:E; [reflexivity|lia]. }
    rewrite (createTurno_duracion_rechazada body env w p s INVALID_RANGE Hp Hs Hk);
      [|vm_compute; reflexivity|vm_compute; discriminate].
    cbn [texto_de_fallo]. f_equal. fold d. rewrite Hfin.
    unfold tras_duracion. cbn. destruct (s + (d + 15) * 60 * 1000 <=? s) eqn:E;
      [reflexivity|lia].
  - intros H0 Hpast.
    assert (Hk : falla_del_codigo (Fecha s) (calcular_fin (Fecha s) d) d now
                 = Some IN_THE_PAST).
    { rewrite (falla_del_codigo_calculada s d now Hmax) by lia.
      destruct (d + 15 <=? 0) eqn:E; [lia|].
      destruct (s <? now) eqn:E2; [reflexivity|lia]. }
    rewrite (createTurno_duracion_rechazada body env w p s IN_THE_PAST Hp Hs Hk);
      [|vm_compute; reflexivity|vm_compute; discriminate].
    cbn [texto_de_fallo]. f_equal. fold d. rewrite Hfin.
    unfold tras_duracion. cbn. destruct (s + (d + 15) * 60 * 1000 <=? s) eqn:E;
      [lia|reflexivity].
  - intros H0 Hnow Hlong Hrango.
    assert (Hk : falla_del_codigo (Fecha s) (calcular_fin (Fecha s) d) d now
                 = Some TOO_LONG).
    { rewrite (falla_del_codigo_calculada s d now Hmax) by auto.
      destruct (d + 15 <=? 0) eqn:E; [lia|].
      destruct (s <? now) eqn:E2; [lia|].
      destruct (225 <? d) eqn:E3; [reflexivity|lia]. }
    rewrite (createTurno_duracion_rechazada body env w p s TOO_LONG Hp Hs Hk);
      [|vm_compute; reflexivity|vm_compute; discriminate].
    cbn [texto_de_fallo]. f_equal. fold d. rewrite Hfin.
    unfold tras_duracion. cbn. destruct (s + (d + 15) * 60 * 1000 <=? s) eqn:E;
      [lia|reflexivity].
  - intros H0 Hnow Hshort. split.
    + unfold veredicto.
      rewrite (falla_del_codigo_calculada s d now Hmax) by lia.
      destruct (d + 15 <=? 0) eqn:E; [lia|].
      destruct (s <? now) eqn:E2; [lia|].
      destruct (225 <? d) eqn:E3; [lia|reflexivity].
    + rewrite Hfin. unfold minutos. f_equal. lia.
Qed.

Lemma X8_createTurno_duration_rule_witness :
  createTurno (pedido "p230" "A1" (hora 10) None) entorno_largo mundo_vacio
  = (Normal (RespError 400 "INVALID_DURATION" MSG_TOO_LONG), tick mundo_vacio).
Proof.
  apply (proj1 (proj2 (proj2 (X8_createTurno_duration_rule
                                (pedido "p230" "A1" (hora 10) None) entorno_largo
                                mundo_vacio pelicula_230 (hora 10)
                                eq_refl eq_refl
                                ltac:(vm_compute; discriminate)))));
    vm_compute; congruence.
Defined.

Lemma createTurno_ok body env w p i f :
  find (fun x => String.eqb (pel_id x) (in_peliculaId body)
                 && es_null (pel_eliminadoEn x)) (peliculas env) = Some p ->
  in_inicio body = Fecha i ->
  calcular_fin (Fecha i) (duracionMin p) = Fecha f ->
  valido (veredicto (Fecha i) (Fecha f) (duracionMin p) (reloj env (lecturas w))) = true ->
  valido (veredicto_solape env (tabla w) (in_sala body) i f None) = true ->
  existsb (conflicto_exclusion (candidata body i f w)) (tabla w) = false ->
  createTurno body env w
  = (Normal (RespTurno 201 (candidata body i f w) "Turno creado exitosamente"),
     con_tabla (tick w) (tabla w ++ [candidata body i f w])%list).
Proof.
  intros Hp Hi Hf Hd Hov Hex.
  rewrite (createTurno_hasta_precheck body env w p i f Hp Hi Hf Hd).
  unfold try_catch, bind, ret. cbn [tabla tick]. rewrite Hov.
  cbn [negb throw_if ret].
  apply veredicto_valido in Hd as (i' & f' & Ei & Ef & Hlt & _).
  injection Ei as <-. injection Ef as <-.
  destruct (pelicula_findFirst_relacion _ _ _ Hp) as [p' Hp'].
  rewrite (prisma_turno_create_ok _ i f p' env (tick w));
    [reflexivity|reflexivity|reflexivity|lia|exact Hex|exact Hp'].
Qed.

Lemma conflicto_true cand c :
  sala c = sala cand -> inicio cand < fin cand -> inicio c < fin c ->
  inicio cand < fin c -> inicio c < fin cand ->
  conflicto_exclusion cand c = true.
Proof.
  intros Hs H1 H2 H3 H4. unfold conflicto_exclusion, tstzrange.
  rewrite Hs, String.eqb_refl. cbn.
  destruct (fin cand <? inicio cand) eqn:E1; [lia|].
  destruct (inicio cand =? fin cand) eqn:E2; [lia|].
  destruct (fin c <? inicio c) eqn:E3; [lia|].
  destruct (inicio c =? fin c) eqn:E4; [lia|].
  cbn. apply andb_true_iff. lia.
Qed.

(** X9 (when a single create conflicts).  On a table all of whose rows
    have start before end, a create that has passed the duration
    validation is answered 409 SCHEDULE_CONFLICT exactly when some stored
    row of the room intersects its window, whatever the [estado] of that
    row and whether it is soft-deleted or not; otherwise it is answered 201
    and the row is stored. *)
Theorem X9_createTurno_conflicts_with_any_row_of_the_room :
  forall body env w p s f,
    filas_no_vacias (tabla w) ->
    find (fun x => String.eqb (pel_id x) (in_peliculaId body)
                   && es_null (pel_eliminadoEn x)) (peliculas env) = Some p ->
    in_inicio body = Fecha s ->
    calcular_fin (Fecha s) (duracionMin p) = Fecha f ->
    valido (veredicto (Fecha s) (Fecha f) (duracionMin p)
              (reloj env (lecturas w))) = true ->
    ((exists c, In c (tabla w) /\ sala c = in_sala body
                /\ s < fin c /\ inicio c < f) ->
     exists m,
       createTurno body env w = (Normal (RespError 409 "SCHEDULE_CONFLICT" m), tick w))
    /\ ((forall c, In c (tabla w) -> sala c = in_sala body ->
                   ~ (s < fin c /\ inicio c < f)) ->
        createTurno body env w
        = (Normal (RespTurno 201 (candidata body s f w) "Turno creado exitosamente"),
           con_tabla (tick w) (tabla w ++ [candidata body s f w])%list)).
Proof.
  intros body env w p s f HI Hp Hs Hf Hd.
  pose proof (veredicto_valido _ _ _ _ Hd) as (s' & f' & Es & Ef & Hlt & _).
  injection Es as <-. injection Ef as <-. split.
  - intros (c & Hc & Hsala & H1 & H2).
    destruct (valido (veredicto_solape env (tabla w) (in_sala body) s f None)) eqn:Hov.
    + exists TEXTO_DB_CREATE.
      apply (createTurno_rechazo_storage body env w p s f Hp Hs Hf Hd Hov).
      apply existsb_exists. exists c. split; [exact Hc|].
      apply conflicto_true; cbn; auto; try lia; now apply HI.
    + apply (createTurno_rechazo_precheck body env w p s f Hp Hs Hf Hd Hov).
  - intros Hlibre.
    apply (createTurno_ok body env w p s f Hp Hs Hf Hd).
    + apply veredicto_solape_valido. apply precheck_libre; auto.
    + apply existsb_false_forall. intros c Hc. apply conflicto_false.
      intros Hsala. unfold sin_solape. cbn. now apply Hlibre.
Qed.

Lemma X9_createTurno_conflicts_with_any_row_of_the_room_witness :
  exists m,
    createTurno item_11h entorno_ej {| tabla := tabla_borrada; lecturas := 0 |}
    = (Normal (RespError 409 "SCHEDULE_CONFLICT" m),
       tick {| tabla := tabla_borrada; lecturas := 0 |}).
Proof.
  apply (proj1 (X9_createTurno_conflicts_with_any_row_of_the_room
                  item_11h entorno_ej {| tabla := tabla_borrada; lecturas := 0 |}
                  pelicula_60 (hora 11) (hora 11 + minutos 75)
                  tabla_borrada_no_vacia eq_refl eq_refl eq_refl eq_refl)).
  exists fila_1_borrada. repeat split; try reflexivity. now left.
Defined.

(** X10 (what the Overlap Detector answers).  On a table all of whose
    rows have start before end and for a window with start before end,
    [validateTurnoOverlap] reads only: it answers valid exactly when no
    row of the room that is ACTIVO or INACTIVO, not soft-deleted and not
    the excluded one has a half-open range that intersects the window. *)
Theorem X10_overlap_detector_characterised :
  forall sala_ s e excluir env w,
    filas_no_vacias (tabla w) -> s < e ->
    exists v,
      validateTurnoOverlap sala_ (Fecha s) (Fecha e) excluir env w = (Normal v, w)
      /\ (valido v = true <->
          forall c, In c (tabla w) -> distinto_de excluir c -> sala c = sala_ ->
                    en_activo_inactivo (estado c) = true -> eliminadoEn c = None ->
                    ~ (s < fin c /\ inicio c < e)).
Proof.
  intros sala_ s e excluir env w HI Hse.
  rewrite validateTurnoOverlap_run. eexists. split; [reflexivity|].
  rewrite veredicto_solape_valido. split.
  - intros Hnil c Hc Hd Hs Hest Hel [H1 H2].
    now apply (precheck_ocupado (tabla w) sala_ s e excluir c HI Hse Hc Hd Hs Hest Hel H1 H2).
  - intros Hlibre. apply filter_nada. intros c Hc.
    destruct (where_solapamiento sala_ s e excluir c) eqn:Hw; [|reflexivity].
    exfalso. unfold where_solapamiento in Hw.
    apply andb_true_iff in Hw as [Hw Hexc].
    apply andb_true_iff in Hw as [Hw Hcasos].
    apply andb_true_iff in Hw as [Hw Hlive].
    apply andb_true_iff in Hw as [Hsala Hest].
    apply String.eqb_eq in Hsala.
    rewrite (cuatro_casos_interseca s e (inicio c) (fin c) Hse (HI c Hc))
      in Hcasos.
    unfold interseca in Hcasos. apply andb_true_iff in Hcasos as [H1 H2].
    apply (Hlibre c Hc); auto; try lia.
    + unfold distinto_de. destruct excluir as [x|]; [|exact I].
      apply negb_true_iff in Hexc. now apply Nat.eqb_neq.
    + destruct (eliminadoEn c); [discriminate|reflexivity].
Qed.

Lemma X10_overlap_detector_characterised_witness :
  exists v,
    validateTurnoOverlap "A1" (Fecha (hora 11)) (Fecha (hora 12)) None entorno_ej
      {| tabla := tabla_borrada; lecturas := 0 |}
    = (Normal v, {| tabla := tabla_borrada; lecturas := 0 |})
    /\ (valido v = true <->
        forall c, In c tabla_borrada -> distinto_de None c -> sala c = "A1" ->
                  en_activo_inactivo (estado c) = true -> eliminadoEn c = None ->
                  ~ (hora 11 < fin c /\ inicio c < hora 12)).
Proof.
  exact (X10_overlap_detector_characterised "A1" (hora 11) (hora 12) None entorno_ej
           {| tabla := tabla_borrada; lecturas := 0 |}
           tabla_borrada_no_vacia eq_refl).
Defined.

(* ================================================================== *)
(** ** The bulk endpoint: its guards and the rows it stores *)

(** X11 (guards of the bulk endpoint).  An empty batch is answered 400
    INVALID_INPUT and a batch of more than fifty items 400 LIMIT_EXCEEDED;
    in both cases no item is processed: the table is as it was and the
    clock has not been read. *)
Theorem X11_bulk_rejects_empty_and_oversized_batches :
  forall turnos env w,
    (turnos = [] ->
     createMultipleTurnos turnos env w
     = (Normal (RespError 400 "INVALID_INPUT" "Se requiere un array de turnos"), w))
    /\ ((50 < List.length turnos)%nat ->
        createMultipleTurnos turnos env w
        = (Normal (RespError 400 "LIMIT_EXCEEDED" "Máximo 50 turnos por operación"), w)).
Proof.
  intros turnos env w. split.
  - intros ->. reflexivity.
  - intros H. unfold createMultipleTurnos, try_catch. unfold bind at 1.
    destruct (Nat.eqb (List.length turnos) 0) eqn:E0;
      [apply Nat.eqb_eq in E0; lia|].
    cbn [throw_if ret]. unfold bind at 1.
    apply Nat.ltb_lt in H. rewrite H. reflexivity.
Qed.

Lemma X11_bulk_rejects_empty_and_oversized_batches_witness :
  createMultipleTurnos (map Some lote_51) entorno_ej mundo_vacio
  = (Normal (RespError 400 "LIMIT_EXCEEDED" "Máximo 50 turnos por operación"),
     mundo_vacio).
Proof.
  apply (proj2 (X11_bulk_rejects_empty_and_oversized_batches
                  (map Some lote_51) entorno_ej mundo_vacio)).
  vm_compute. reflexivity.
Defined.

Lemma candidata_de_item env x p i f w :
  find (fun y => String.eqb (pel_id y) (in_peliculaId x)
                 && es_null (pel_eliminadoEn y)) (peliculas env) = Some p ->
  in_inicio x = Fecha i -> in_fin x = Some (Fecha f) ->
  valido (veredicto (Fecha i) (Fecha f) (duracionMin p) (reloj env (lecturas w))) = true ->
  fila_de_item env x (candidata x i f w).
Proof.
  intros Hp Hi Hf Hv. apply find_some in Hp as [Hin Hq].
  apply andb_true_iff in Hq as [Hid Hnull]. apply String.eqb_eq in Hid.
  apply veredicto_valido in Hv as (i' & f' & Ei & Ef & _ & _ & Hmin).
  injection Ei as <-. injection Ef as <-.
  unfold fila_de_item, candidata. cbn.
  repeat split; auto. exists p. repeat split; auto; try lia.
  destruct (pel_eliminadoEn p); [discriminate|reflexivity].
Qed.

Lemma bucle_turnos_origen turnos : forall i acc env w c,
  In c (tabla (snd (bucle_turnos turnos i acc env w))) ->
  In c (tabla w) \/ exists x, In (Some x) turnos /\ fila_de_item env x c.
Proof.
  induction turnos as [|x resto IH]; intros i acc env w c; cbn [bucle_turnos].
  - intros H. now left.
  - unfold bind. destruct x as [x|]; [|intros H; now left].
    destruct (processTurnoItem_casos x i acc env w)
      as (acc' & w1 & Hrun & [(m & _ & Ht)|(p & s & f & Hp & Hi & Hf & Hv & _ & Ht)]);
      rewrite Hrun; intros H; apply IH in H as [H|(y & Hy & Hfila)].
    + left. now rewrite <- Ht.
    + right. exists y. split; [now right|exact Hfila].
    + rewrite Ht in H. apply in_app_or in H as [H|[<-|[]]]; [now left|].
      right. exists x. split; [now left|].
      apply (candidata_de_item env x p s f w Hp Hi Hf Hv).
    + right. exists y. split; [now right|exact Hfila].
Qed.

Lemma createMultipleTurnos_origen turnos env w c :
  In c (tabla (snd (createMultipleTurnos turnos env w))) ->
  In c (tabla w) \/ exists x, In (Some x) turnos /\ fila_de_item env x c.
Proof.
  unfold createMultipleTurnos.
  rewrite try_catch_snd by reflexivity.
  unfold bind at 1.
  destruct (Nat.eqb (List.length turnos) 0); cbn [throw_if throw ret]; [now left|].
  unfold bind at 1.
  destruct (Nat.ltb 50 (List.length turnos)); cbn [throw_if throw ret]; [now left|].
  unfold bind.
  pose proof (bucle_turnos_origen turnos 0%nat ([], []) env w c) as H1.
  destruct (bucle_turnos turnos 0%nat ([], []) env w) as [[acc|e] w1]; exact H1.
Qed.

(** X12 (what a bulk request stores).  Every row found in the table after a
    bulk request was there before it or is the row of one of its items:
    with the room, the movie, the start and the end supplied in that item
    (the end is not recomputed), the movie being a live one of the
    catalogue and the window holding its duration plus the 15-minute
    buffer within the 240-minute maximum. *)
Theorem X12_bulk_rows_come_from_validated_items :
  forall turnos env w c,
    In c (tabla (snd (createMultipleTurnos turnos env w))) ->
    In c (tabla w) \/ exists x, In (Some x) turnos /\ fila_de_item env x c.
Proof. exact createMultipleTurnos_origen. Qed.

Lemma X12_bulk_rows_come_from_validated_items_witness :
  let x := pedido "p90" "A1" (hora 10) (Some (Fecha (hora 10 + minutos 105))) in
  let c := candidata x (hora 10) (hora 10 + minutos 105) mundo_vacio in
  In c (tabla mundo_vacio)
  \/ exists y, In (Some y) (map Some lote_ej) /\ fila_de_item entorno_ej y c.
Proof.
  apply (X12_bulk_rows_come_from_validated_items (map Some lote_ej) entorno_ej
           mundo_vacio).
  vm_compute. auto.
Defined.

(* ================================================================== *)
(** ** errorHandler.ts *)

Lemma o_string_no_vacio a b : b <> EmptyString -> o_string a b <> EmptyString.
Proof.
  intros Hb. unfold o_string. destruct a as [s|]; [|exact Hb].
  destruct (String.eqb s EmptyString) eqn:E; [exact Hb|].
  now apply String.eqb_neq.
Qed.

(** X13 (what the error handler sends).  Whatever error reaches it, the
    handler answers with a non-zero status, a non-empty code and a
    non-empty message: a missing or zero status becomes 500, a missing or
    empty code INTERNAL_SERVER_ERROR, an empty message the default text.
    An error made by [createError] with a non-zero status and non-empty
    texts is sent back as it was made. *)
Theorem X13_errorHandler_defaults_and_round_trip :
  (forall error, exists st c m,
      errorHandler error = RespError st c m
      /\ st <> 0 /\ c <> EmptyString /\ m <> EmptyString
      /\ (e_statusCode error = None -> st = 500)
      /\ (e_code error = None -> c = "INTERNAL_SERVER_ERROR"))
  /\ (forall st m c,
        st <> 0 -> m <> EmptyString -> c <> EmptyString ->
        errorHandler (createError st m c) = RespError st c m).
Proof.
  split.
  - intros error. unfold errorHandler. do 3 eexists. split; [reflexivity|].
    split; [|split; [|split; [|split]]].
    + destruct (e_statusCode error) as [c|]; [|discriminate].
      destruct (c =? 0) eqn:E; [discriminate|]. now apply Z.eqb_neq.
    + apply o_string_no_vacio. discriminate.
    + apply o_string_no_vacio. discriminate.
    + intros ->. reflexivity.
    + intros ->. reflexivity.
  - intros st m c Hst Hm Hc. unfold errorHandler, createError, o_string. cbn.
    apply Z.eqb_neq in Hst. apply String.eqb_neq in Hm. apply String.eqb_neq in Hc.
    now rewrite Hst, Hm, Hc.
Qed.

Lemma X13_errorHandler_defaults_and_round_trip_witness :
  errorHandler (createError 404 "Turno no encontrado" "TURNO_NOT_FOUND")
  = RespError 404 "TURNO_NOT_FOUND" "Turno no encontrado".
Proof.
  apply (proj2 X13_errorHandler_defaults_and_round_trip); discriminate.
Defined.

(* ================================================================== *)
(** ** getTurnos: the listing *)

Lemma In_insertar x y l : In y (insertar_por_inicio x l) <-> y = x \/ In y l.
Proof.
  induction l as [|z l IH]; cbn.
  - intuition.
  - destruct (inicio x <? inicio z); cbn; [intuition|].
    rewrite IH. intuition.
Qed.

Lemma In_ordenar y l : In y (ordenar_por_inicio l) <-> In y l.
Proof.
  unfold ordenar_por_inicio. rewrite (in_rev l).
  induction (rev l) as [|x l' IH]; cbn; [reflexivity|].
  rewrite In_insertar, IH. intuition.
Qed.

Lemma length_insertar x l :
  List.length (insertar_por_inicio x l) = S (List.length l).
Proof.
  induction l as [|z l IH]; cbn; [reflexivity|].
  destruct (inicio x <? inicio z); cbn; [reflexivity|now rewrite IH].
Qed.

Lemma length_ordenar l : List.length (ordenar_por_inicio l) = List.length l.
Proof.
  unfold ordenar_por_inicio. rewrite <- (length_rev l).
  induction (rev l) as [|x l' IH]; cbn; [reflexivity|].
  now rewrite length_insertar, IH.
Qed.

Lemma insertar_ordenada x l :
  StronglySorted por_inicio l -> StronglySorted por_inicio (insertar_por_inicio x l).
Proof.
  induction l as [|z l IH]; intros Hs; cbn.
  - constructor; [constructor|constructor].
  - inversion Hs as [|? ? Hl Hz]; subst.
    destruct (inicio x <? inicio z) eqn:E.
    + constructor; [exact Hs|].
      apply Z.ltb_lt in E. constructor; [unfold por_inicio; lia|].
      rewrite Forall_forall in Hz |- *. intros y Hy. specialize (Hz y Hy).
      unfold por_inicio in *. lia.
    + constructor; [now apply IH|].
      apply Z.ltb_ge in E. rewrite Forall_forall in Hz |- *.
      intros y Hy. apply In_insertar in Hy as [->|Hy]; [exact E|now apply Hz].
Qed.

Lemma ordenar_ordenada l : StronglySorted por_inicio (ordenar_por_inicio l).
Proof.
  unfold ordenar_por_inicio.
  induction (rev l) as [|x l' IH]; cbn; [constructor|now apply insertar_ordenada].
Qed.

Lemma ordenada_skipn n : forall l,
  StronglySorted por_inicio l -> StronglySorted por_inicio (skipn n l).
Proof.
  induction n as [|n IH]; intros l Hs; [exact Hs|].
  destruct l as [|x l]; [exact Hs|]. cbn.
  inversion Hs; subst. now apply IH.
Qed.

Lemma ordenada_firstn n : forall l,
  StronglySorted por_inicio l -> StronglySorted por_inicio (firstn n l).
Proof.
  induction n as [|n IH]; intros l Hs; [constructor|].
  destruct l as [|x l]; [constructor|]. cbn.
  inversion Hs as [|? ? Hl Hx]; subst. constructor; [now apply IH|].
  rewrite Forall_forall in Hx |- *. intros y Hy. apply Hx.
  revert Hy. clear. revert l. induction n as [|n IH]; intros l Hy; [destruct Hy|].
  destruct l as [|z l]; [destruct Hy|]. destruct Hy as [->|Hy]; [now left|right; auto].
Qed.

Lemma In_firstn {A} n : forall (l : list A) y, In y (firstn n l) -> In y l.
Proof.
  induction n as [|n IH]; intros l y Hy; [destruct Hy|].
  destruct l as [|z l]; [destruct Hy|]. destruct Hy as [->|Hy]; [now left|right; auto].
Qed.

Lemma In_skipn {A} n : forall (l : list A) y, In y (skipn n l) -> In y l.
Proof.
  induction n as [|n IH]; intros l y Hy; [exact Hy|].
  destruct l as [|z l]; [destruct Hy|]. right. now apply IH.
Qed.

(** The [where] object of the listing selects the rows asked for. *)
Lemma where_listado_pedida dia q r :
  where_listado q (rango_de dia q) r = true -> pedida dia q r.
Proof.
  unfold where_listado, pedida. intros H.
  apply andb_true_iff in H as [H Hr].
  apply andb_true_iff in H as [H Hs].
  apply andb_true_iff in H as [H Hp].
  apply andb_true_iff in H as [Hd He].
  split; [destruct (eliminadoEn r); [discriminate|reflexivity]|].
  split; [destruct (estado r), (o_else (q_estado q) ACTIVO); try discriminate; reflexivity|].
  split; [|split].
  - intros p Ep Hne. rewrite Ep in Hp. cbn in Hp.
    apply String.eqb_neq in Hne. rewrite Hne in Hp. cbn in Hp.
    now apply String.eqb_eq.
  - intros s Es Hne. rewrite Es in Hs. cbn in Hs.
    apply String.eqb_neq in Hne. rewrite Hne in Hs. cbn in Hs.
    now apply String.eqb_eq.
  - intros fi ff Ef Ed. unfold rango_de in Hr. rewrite Ef, Ed in Hr.
    apply andb_true_iff in Hr. lia.
Qed.

Lemma pedida_where_listado dia q r :
  fecha_de_consulta_ok dia q = true ->
  pedida dia q r -> where_listado q (rango_de dia q) r = true.
Proof.
  unfold where_listado, pedida, fecha_de_consulta_ok.
  intros Hok (Hd & He & Hp & Hs & Hr).
  rewrite Hd, He. cbn [es_null andb].
  assert (Hee : forall e, estado_eqb e e = true) by (now intros []).
  rewrite Hee. cbn [andb].
  assert (H1 : (if truthy_string (q_peliculaId q)
                then String.eqb (peliculaId r) (o_else (q_peliculaId q) EmptyString)
                else true) = true).
  { destruct (q_peliculaId q) as [p|]; cbn; [|reflexivity].
    destruct (String.eqb p EmptyString) eqn:E; cbn; [reflexivity|].
    apply String.eqb_neq in E. apply String.eqb_eq. now apply Hp. }
  assert (H2 : (if truthy_string (q_sala q)
                then String.eqb (sala r) (o_else (q_sala q) EmptyString)
                else true) = true).
  { destruct (q_sala q) as [s|]; cbn; [|reflexivity].
    destruct (String.eqb s EmptyString) eqn:E; cbn; [reflexivity|].
    apply String.eqb_neq in E. apply String.eqb_eq. now apply Hs. }
  rewrite H1, H2. cbn [andb]. unfold rango_de.
  destruct (q_fecha q) as [[|fi]|]; try reflexivity.
  destruct (dia fi) as [|ff] eqn:Ed; [discriminate|].
  specialize (Hr fi ff eq_refl Ed). apply andb_true_iff. lia.
Qed.

(** The listing on a page of a well-formed query. *)
Lemma getTurnos_run dia q env w :
  1 <= o_else (q_page q) 1 -> 0 <= o_else (q_limit q) 10 <= 100 ->
  fecha_de_consulta_ok dia q = true ->
  let page := o_else (q_page q) 1 in
  let limit := o_else (q_limit q) 10 in
  let todas := ordenar_por_inicio (filter (where_listado q (rango_de dia q)) (tabla w)) in
  getTurnos dia q env w
  = (Normal (LecLista 200
               (map (fun r => (r, pelicula_de (peliculas env) (peliculaId r)))
                    (firstn (Z.to_nat limit) (skipn (Z.to_nat ((page - 1) * limit)) todas)))
               {| pg_page := page; pg_limit := limit; pg_total := List.length todas;
                  pg_totalPages := total_pages (List.length todas) limit;
                  pg_hasNext := has_next page (List.length todas) limit;
                  pg_hasPrev := page >? 1 |}), w).
Proof.
  intros Hp Hl Hf page limit todas. unfold getTurnos, try_catch.
  fold page limit. unfold bind at 1.
  assert (E100 : (limit >? 100) = false) by (rewrite Z.gtb_ltb; apply Z.ltb_ge; lia).
  rewrite E100. cbn [throw_if ret].
  unfold fecha_de_consulta_ok in Hf. unfold todas, rango_de. clear todas.
  assert (Esk : ((page - 1) * limit <? 0) = false) by (apply Z.ltb_ge; nia).
  assert (Etk : (0 <=? limit) = true) by (apply Z.leb_le; lia).
  destruct (q_fecha q) as [[|fi]|]; [discriminate| |].
  - destruct (dia fi) as [|ff]; [discriminate|].
    unfold bind, ret, leer_tabla, leer_peliculas, paginar.
    rewrite Esk, Etk. reflexivity.
  - unfold bind, ret, leer_tabla, leer_peliculas, paginar.
    rewrite Esk, Etk. reflexivity.
Qed.

(** X14 (what a listing shows).  For a page from 1 on, a limit between 0
    and 100 and a valid date, if one is given, [getTurnos] answers 200 and
    writes nothing; every row it shows is a row of the table that is not
    soft-deleted, is in the [estado] asked for (ACTIVO by default) and
    passes each filter of the query; the rows come by ascending start, no
    more of them than the limit, each with its movie, and [total] lies
    between the rows shown and the rows of the table. *)
Theorem X14_getTurnos_shows_rows_asked_for_in_order :
  forall dia q env w,
    1 <= o_else (q_page q) 1 -> 0 <= o_else (q_limit q) 10 <= 100 ->
    fecha_de_consulta_ok dia q = true ->
    exists data pag,
      getTurnos dia q env w = (Normal (LecLista 200 data pag), w)
      /\ (forall r, In r (map fst data) -> In r (tabla w) /\ pedida dia q r)
      /\ StronglySorted por_inicio (map fst data)
      /\ Z.of_nat (List.length data) <= o_else (q_limit q) 10
      /\ (forall r p, In (r, p) data -> p = pelicula_de (peliculas env) (peliculaId r))
      /\ (List.length data <= pg_total pag <= List.length (tabla w))%nat.
Proof.
  intros dia q env w Hp Hl Hf.
  rewrite (getTurnos_run dia q env w Hp Hl Hf).
  set (todas := ordenar_por_inicio (filter (where_listado q (rango_de dia q)) (tabla w))).
  set (pagina := firstn (Z.to_nat (o_else (q_limit q) 10))
                   (skipn (Z.to_nat ((o_else (q_page q) 1 - 1) * o_else (q_limit q) 10))
                      todas)).
  do 2 eexists. split; [reflexivity|].
  assert (Hfst : map fst (map (fun r => (r, pelicula_de (peliculas env) (peliculaId r)))
                            pagina) = pagina).
  { rewrite map_map. cbn. apply map_id. }
  rewrite Hfst. cbn [pg_total]. rewrite length_map.
  assert (Hlen : (List.length pagina <= List.length todas)%nat).
  { unfold pagina. rewrite length_firstn, length_skipn. lia. }
  split; [|split; [|split; [|split; [|split]]]].
  - intros r Hr. apply In_firstn, In_skipn in Hr.
    apply (proj1 (In_ordenar _ _)) in Hr.
    apply filter_In in Hr as [Hin Hw]. split; [exact Hin|].
    now apply where_listado_pedida.
  - apply ordenada_firstn, ordenada_skipn, ordenar_ordenada.
  - unfold pagina. rewrite length_firstn. lia.
  - intros r p Hin. apply in_map_iff in Hin as (x & Hx & _). now inversion Hx.
  - exact Hlen.
  - unfold todas. rewrite length_ordenar. apply filter_length_le.
Qed.

Lemma X14_getTurnos_shows_rows_asked_for_in_order_witness :
  exists data pag,
    getTurnos dia_utc (consulta_sala "A1") entorno_ej
      {| tabla := tabla_xy; lecturas := 0 |}
    = (Normal (LecLista 200 data pag), {| tabla := tabla_xy; lecturas := 0 |})
    /\ (forall r, In r (map fst data) ->
                  In r tabla_xy /\ pedida dia_utc (consulta_sala "A1") r)
    /\ StronglySorted por_inicio (map fst data)
    /\ Z.of_nat (List.length data) <= 10
    /\ (forall r p, In (r, p) data ->
                    p = pelicula_de (peliculas entorno_ej) (peliculaId r))
    /\ (List.length data <= pg_total pag <= 2)%nat.
Proof.
  apply (X14_getTurnos_shows_rows_asked_for_in_order dia_utc (consulta_sala "A1")
           entorno_ej {| tabla := tabla_xy; lecturas := 0 |});
    [vm_compute; discriminate
    |split; vm_compute; discriminate
    |reflexivity].
Defined.

Lemma nth_error_firstn_lt {A} n : forall (l : list A) i,
  (i < n)%nat -> nth_error (firstn n l) i = nth_error l i.
Proof.
  induction n as [|n IH]; intros l i Hi; [lia|].
  destruct l as [|x l]; [reflexivity|].
  destruct i as [|i]; [reflexivity|]. cbn. apply IH. lia.
Qed.

Lemma nth_error_skipn_mas {A} n : forall (l : list A) i,
  nth_error (skipn n l) i = nth_error l (n + i).
Proof.
  induction n as [|n IH]; intros l i; [reflexivity|].
  destruct l as [|x l]; [now destruct i|]. cbn. apply IH.
Qed.

Lemma Permutation_insertar x l :
  Permutation (insertar_por_inicio x l) (x :: l).
Proof.
  induction l as [|y l IH]; cbn; [apply Permutation_refl|].
  destruct (inicio x <? inicio y); [apply Permutation_refl|].
  eapply perm_trans; [apply perm_skip, IH|apply perm_swap].
Qed.

Lemma Permutation_ordenar l : Permutation (ordenar_por_inicio l) l.
Proof.
  unfold ordenar_por_inicio.
  eapply perm_trans; [|apply Permutation_sym, Permutation_rev].
  induction (rev l) as [|x l' IH]; cbn; [apply Permutation_refl|].
  eapply perm_trans; [apply Permutation_insertar|apply perm_skip, IH].
Qed.

(** Rows with pairwise distinct starts have one arrangement sorted by
    start. *)
Lemma orden_unico (l1 : list Turno) : forall l2,
  Permutation l1 l2 -> NoDup (map inicio l1) ->
  StronglySorted por_inicio l1 -> StronglySorted por_inicio l2 -> l1 = l2.
Proof.
  induction l1 as [|a l1 IH]; intros l2 Hp Hnd H1 H2.
  - apply Permutation_nil in Hp. now subst l2.
  - destruct l2 as [|b l2];
      [apply Permutation_sym, Permutation_nil in Hp; discriminate|].
    apply StronglySorted_inv in H1 as [H1 Ha]. apply StronglySorted_inv in H2 as [H2 Hb].
    rewrite Forall_forall in Ha, Hb.
    cbn [map] in Hnd. apply NoDup_cons_iff in Hnd as [Hnotin Hnd].
    assert (Hab : a = b).
    { assert (Hina : In a (b :: l2))
        by (apply (Permutation_in a Hp); now left).
      assert (Hinb : In b (a :: l1))
        by (apply (Permutation_in b (Permutation_sym Hp)); now left).
      destruct Hinb as [Hinb|Hinb]; [exact Hinb|].
      destruct Hina as [Hina|Hina]; [now symmetry|].
      exfalso. apply Hnotin.
      pose proof (Ha b Hinb) as Hle1. pose proof (Hb a Hina) as Hle2.
      unfold por_inicio in Hle1, Hle2.
      replace (inicio a) with (inicio b) by lia. now apply in_map. }
    subst b. f_equal. apply IH; auto.
    now apply Permutation_cons_inv in Hp.
Qed.

(** X15 (every row asked for is on some page).  The database promises no
    order among rows with the same start, and each page is answered by a
    query of its own.  When the rows that the query asks for have pairwise
    distinct starts, their order by start is unique: whatever sorted
    arrangement of them the database answers with is the list that every
    page is cut from.  Then, with a limit between 1 and 100, each row of
    the table that the query asks for is shown on one of the pages of the
    listing. *)
Theorem X15_getTurnos_every_row_is_on_some_page :
  forall dia q env w,
    0 < o_else (q_limit q) 10 <= 100 ->
    fecha_de_consulta_ok dia q = true ->
    let pedidas := filter (where_listado q (rango_de dia q)) (tabla w) in
    NoDup (map inicio pedidas) ->
    (forall orden,
        Permutation orden pedidas -> StronglySorted por_inicio orden ->
        orden = ordenar_por_inicio pedidas)
    /\ (forall r,
          In r (tabla w) -> pedida dia q r ->
          exists page data pag,
            1 <= page
            /\ getTurnos dia (con_pagina q page) env w
               = (Normal (LecLista 200 data pag), w)
            /\ In r (map fst data)).
Proof.
  intros dia q env w Hl Hf pedidas Hnd. split.
  - intros orden Hp Hs. apply orden_unico; auto.
    + eapply perm_trans; [exact Hp|apply Permutation_sym, Permutation_ordenar].
    + apply (Permutation_NoDup (l := map inicio pedidas)); [|exact Hnd].
      apply Permutation_map, Permutation_sym, Hp.
    + apply ordenar_ordenada.
  - intros r Hin Hped.
    set (limit := o_else (q_limit q) 10) in *.
    set (todas := ordenar_por_inicio pedidas).
    assert (Hr : In r todas).
    { apply In_ordenar, filter_In. split; [exact Hin|].
      now apply pedida_where_listado. }
    apply In_nth_error in Hr as [k Hk].
    set (n := Z.to_nat limit).
    assert (Hn : (0 < n)%nat) by (unfold n; lia).
    exists (Z.of_nat (k / n) + 1). do 2 eexists. split; [lia|].
    split.
    + apply (getTurnos_run dia (con_pagina q (Z.of_nat (k / n) + 1)) env w).
      * cbn. lia.
      * cbn. fold limit. lia.
      * exact Hf.
    + rewrite map_map. cbn [fst o_else con_pagina q_page q_limit]. rewrite map_id.
      fold limit. fold n.
      replace (Z.to_nat ((Z.of_nat (k / n) + 1 - 1) * limit)) with (k / n * n)%nat
        by (unfold n; nia).
      apply (nth_error_In _ (k mod n)).
      rewrite nth_error_firstn_lt by (apply Nat.mod_upper_bound; lia).
      rewrite nth_error_skipn_mas.
      replace (k / n * n + k mod n)%nat with k
        by (rewrite (Nat.div_mod_eq k n) at 1; lia).
      exact Hk.
Qed.

Lemma X15_getTurnos_every_row_is_on_some_page_witness :
  exists page data pag,
    1 <= page
    /\ getTurnos dia_utc (con_pagina consulta_de_a_una page) entorno_ej
         {| tabla := tabla_dos; lecturas := 0 |}
       = (Normal (LecLista 200 data pag), {| tabla := tabla_dos; lecturas := 0 |})
    /\ In fila_2 (map fst data).
Proof.
  apply (proj2 (X15_getTurnos_every_row_is_on_some_page dia_utc consulta_de_a_una
                  entorno_ej {| tabla := tabla_dos; lecturas := 0 |}
                  ltac:(split; vm_compute; [reflexivity|discriminate])
                  eq_refl
                  ltac:(vm_compute; repeat constructor; cbn; intuition discriminate))
               fila_2).
  - right. now left.
  - repeat split; try discriminate.
Defined.

Lemma has_next_iff page total limit :
  0 < limit ->
  (has_next page total limit = true <-> page * limit < Z.of_nat total).
Proof.
  intros Hl. unfold has_next, total_pages.
  destruct (limit =? 0) eqn:E0; [apply Z.eqb_eq in E0; lia|].
  destruct (0 <? limit) eqn:E1; [|apply Z.ltb_ge in E1; lia].
  rewrite Z.ltb_lt. split; intros H.
  - assert (H1 : page + 1 <= (Z.of_nat total + limit - 1) / limit) by lia.
    pose proof (Z.mul_div_le (Z.of_nat total + limit - 1) limit Hl) as H2.
    nia.
  - assert (H1 : page + 1 <= (Z.of_nat total + limit - 1) / limit)
      by (apply Z.div_le_lower_bound; [exact Hl|nia]).
    lia.
Qed.

Lemma pagina_no_vacia {A} (l : list A) n m :
  (0 < n)%nat -> (firstn n (skipn m l) <> [] <-> (m < List.length l)%nat).
Proof.
  intros Hn. split.
  - intros H. destruct (Nat.lt_ge_cases m (List.length l)) as [|Hge]; [assumption|].
    rewrite skipn_all2 in H by exact Hge. now destruct n.
  - intros H E. apply (f_equal (@List.length A)) in E.
    rewrite length_firstn, length_skipn in E. cbn in E. lia.
Qed.

(** X16 (the flags of a page).  With a limit between 1 and 100, the
    listing of a page says [hasNext] exactly when the next page shows at
    least one row, and [hasPrev] exactly when the page is not the first;
    both pages report the same total. *)
Theorem X16_getTurnos_hasNext_means_next_page_has_rows :
  forall dia q env w,
    let page := o_else (q_page q) 1 in
    1 <= page -> 0 < o_else (q_limit q) 10 <= 100 ->
    fecha_de_consulta_ok dia q = true ->
    exists data pag data' pag',
      getTurnos dia q env w = (Normal (LecLista 200 data pag), w)
      /\ getTurnos dia (con_pagina q (page + 1)) env w
         = (Normal (LecLista 200 data' pag'), w)
      /\ (pg_hasNext pag = true <-> data' <> [])
      /\ (pg_hasPrev pag = true <-> 1 < page)
      /\ pg_total pag' = pg_total pag.
Proof.
  intros dia q env w page Hp Hl Hf.
  rewrite (getTurnos_run dia q env w Hp ltac:(lia) Hf).
  rewrite (getTurnos_run dia (con_pagina q (page + 1)) env w
             ltac:(cbn; fold page; lia) ltac:(cbn; lia) Hf).
  do 4 eexists. split; [reflexivity|]. split; [reflexivity|].
  cbn [pg_hasNext pg_hasPrev pg_total o_else con_pagina q_page q_limit].
  fold page. set (limit := o_else (q_limit q) 10) in *.
  set (todas := ordenar_por_inicio (filter (where_listado q (rango_de dia q)) (tabla w))).
  change (rango_de dia (con_pagina q (page + 1))) with (rango_de dia q).
  change (where_listado (con_pagina q (page + 1))) with (where_listado q).
  fold todas. split; [|split; [|reflexivity]].
  - rewrite has_next_iff by lia.
    split.
    + intros H E. apply map_eq_nil in E. revert E.
      apply pagina_no_vacia; lia.
    + intros H.
      assert (H1 : firstn (Z.to_nat limit)
                     (skipn (Z.to_nat ((page + 1 - 1) * limit)) todas) <> [])
        by (intros E; apply H; now rewrite E).
      apply pagina_no_vacia in H1; lia.
  - rewrite Z.gtb_ltb. apply Z.ltb_lt.
Qed.

Lemma X16_getTurnos_hasNext_means_next_page_has_rows_witness :
  exists data pag data' pag',
    getTurnos dia_utc consulta_de_a_una entorno_ej {| tabla := tabla_xy; lecturas := 0 |}
    = (Normal (LecLista 200 data pag), {| tabla := tabla_xy; lecturas := 0 |})
    /\ getTurnos dia_utc (con_pagina consulta_de_a_una (1 + 1)) entorno_ej
         {| tabla := tabla_xy; lecturas := 0 |}
       = (Normal (LecLista 200 data' pag'), {| tabla := tabla_xy; lecturas := 0 |})
    /\ (pg_hasNext pag = true <-> data' <> [])
    /\ (pg_hasPrev pag = true <-> 1 < 1)
    /\ pg_total pag' = pg_total pag.
Proof.
  apply (X16_getTurnos_hasNext_means_next_page_has_rows dia_utc consulta_de_a_una
           entorno_ej {| tabla := tabla_xy; lecturas := 0 |}).
  - vm_compute. discriminate.
  - split; vm_compute; [reflexivity|discriminate].
  - reflexivity.
Defined.

(** X17 (the cap on the page size).  A listing asked with a limit above
    100 is answered 400 LIMIT_EXCEEDED, whatever the page, the filters and
    the date, and nothing is read or written. *)
Theorem X17_getTurnos_rejects_limit_above_100 :
  forall dia q env w,
    100 < o_else (q_limit q) 10 ->
    getTurnos dia q env w
    = (Normal (LecError (RespError 400 "LIMIT_EXCEEDED"
                           "El límite máximo es 100 registros por página")), w).
Proof.
  intros dia q env w H. unfold getTurnos, try_catch. unfold bind at 1.
  assert (E : (o_else (q_limit q) 10 >? 100) = true)
    by (rewrite Z.gtb_ltb; now apply Z.ltb_lt).
  rewrite E. reflexivity.
Qed.

Lemma X17_getTurnos_rejects_limit_above_100_witness :
  getTurnos dia_utc
    {| q_page := None; q_limit := Some 101; q_peliculaId := None; q_sala := None;
       q_fecha := None; q_estado := None |} entorno_ej mundo_vacio
  = (Normal (LecError (RespError 400 "LIMIT_EXCEEDED"
                         "El límite máximo es 100 registros por página")), mundo_vacio).
Proof.
  apply X17_getTurnos_rejects_limit_above_100. vm_compute. reflexivity.
Defined.

(** Whatever the query, the rows of a listing are rows of the table that
    the [where] object selects. *)
Lemma getTurnos_lista dia q env w st data pag w' :
  getTurnos dia q env w = (Normal (LecLista st data pag), w') ->
  forall r, In r (map fst data) -> In r (tabla w) /\ eliminadoEn r = None.
Proof.
  unfold getTurnos, try_catch. unfold bind at 1.
  destruct (o_else (q_limit q) 10 >? 100); cbn [throw_if throw ret];
    [discriminate|].
  unfold bind at 1.
  assert (Hgen : forall rango r l,
            In r l \/ In r (rev l) ->
            (forall x, In x l ->
               In x (ordenar_por_inicio (filter (where_listado q rango) (tabla w)))) ->
            In r (tabla w) /\ eliminadoEn r = None).
  { intros rango r l Hr Hl.
    assert (Hin : In r l) by (destruct Hr as [H|H]; [exact H|now apply in_rev]).
    apply Hl in Hin. apply (proj1 (In_ordenar _ _)) in Hin.
    apply filter_In in Hin as [Hin Hw]. split; [exact Hin|].
    unfold where_listado in Hw. repeat (apply andb_true_iff in Hw as [Hw _]).
    destruct (eliminadoEn r); [discriminate|reflexivity]. }
  assert (Hpag : forall rango,
            try_catch
            (t <- leer_tabla ;;
             ps <- leer_peliculas ;;
             turnos <- paginar ((o_else (q_page q) 1 - 1) * o_else (q_limit q) 10)
                         (o_else (q_limit q) 10)
                         (ordenar_por_inicio (filter (where_listado q rango) t)) ;;
             ret (LecLista 200
                    (map (fun r => (r, pelicula_de ps (peliculaId r))) turnos)
                    {| pg_page := o_else (q_page q) 1;
                       pg_limit := o_else (q_limit q) 10;
                       pg_total := List.length
                                     (ordenar_por_inicio
                                        (filter (where_listado q rango) t));
                       pg_totalPages :=
                         total_pages
                           (List.length
                              (ordenar_por_inicio (filter (where_listado q rango) t)))
                           (o_else (q_limit q) 10);
                       pg_hasNext :=
                         has_next (o_else (q_page q) 1)
                           (List.length
                              (ordenar_por_inicio (filter (where_listado q rango) t)))
                           (o_else (q_limit q) 10);
                       pg_hasPrev := o_else (q_page q) 1 >? 1 |}))
            (fun error => ret (LecError (errorHandler error))) env w
            = (Normal (LecLista st data pag), w') ->
            forall r, In r (map fst data) -> In r (tabla w) /\ eliminadoEn r = None).
  { intros rango. unfold try_catch, bind, leer_tabla, leer_peliculas, paginar, ret.
    destruct ((o_else (q_page q) 1 - 1) * o_else (q_limit q) 10 <? 0);
      [discriminate|].
    destruct (0 <=? o_else (q_limit q) 10); intros H; injection H as <- <- <- <-;
      intros r Hr; rewrite map_map in Hr; cbn [fst] in Hr; rewrite map_id in Hr.
    - apply (Hgen rango r _ (or_introl Hr)).
      intros x Hx. now apply In_firstn, In_skipn in Hx.
    - apply (Hgen rango r _ (or_introl Hr)).
      intros x Hx. apply in_rev in Hx. apply In_firstn, In_skipn in Hx.
      now apply in_rev. }
  destruct (q_fecha q) as [[|fi]|]; cbn [throw ret]; [discriminate| |].
  - destruct (dia fi) as [|ff]; [discriminate|].
    intros H. apply (Hpag (Some (fi, ff))). exact H.
  - intros H. apply (Hpag None). exact H.
Qed.

Lemma reemplazar_con_id i nueva t x :
  id nueva = i -> In x (reemplazar i nueva t) -> id x = i -> x = nueva.
Proof.
  intros Hn Hx Hid. unfold reemplazar in Hx.
  apply in_map_iff in Hx as (r & Hr & _).
  destruct (Nat.eqb (id r) i) eqn:E; [now symmetry|].
  apply Nat.eqb_neq in E. subst x. contradiction.
Qed.

(** X18 (a deleted turno is in no listing).  After [deleteTurno] has
    deleted a live row of a reachable table, no listing shows a row with
    its identifier, whatever the query, its page and its limit. *)
Theorem X18_deleted_turno_is_in_no_listing :
  forall t, alcanzable t ->
  forall i r env n,
    find (fun x => Nat.eqb (id x) i && es_null (eliminadoEn x)) t = Some r ->
    let w' := snd (deleteTurno i env {| tabla := t; lecturas := n |}) in
    forall dia q env' st data pag w'',
      getTurnos dia q env' w' = (Normal (LecLista st data pag), w'') ->
      forall x, In x (map fst data) -> id x <> i.
Proof.
  intros t Halc i r env n Hfind w' dia q env' st data pag w'' Hrun x Hx Hid.
  destruct (getTurnos_lista dia q env' w' st data pag w'' Hrun x Hx) as [Hin Hnull].
  subst w'.
  rewrite (deleteTurno_run i r env {| tabla := t; lecturas := n |}
             (Inv_total_de_Inv _ (alcanzable_Inv _ Halc)) Hfind) in Hin.
  cbn [snd] in Hin. rewrite con_tabla_tabla in Hin. cbn [tabla] in Hin.
  apply findFirst_In in Hfind as (_ & Hidr & _).
  apply (reemplazar_con_id i (borrada (reloj env n) r)) in Hin;
    [|exact Hidr|exact Hid].
  subst x. discriminate Hnull.
Qed.

Lemma X18_deleted_turno_is_in_no_listing_witness :
  exists data pag,
    getTurnos dia_utc (consulta_sala "A2") entorno_ej
      (snd (deleteTurno 0 entorno_ej {| tabla := tabla_xy; lecturas := 0 |}))
    = (Normal (LecLista 200 data pag),
       snd (deleteTurno 0 entorno_ej {| tabla := tabla_xy; lecturas := 0 |}))
    /\ In fila_y (map fst data)
    /\ id fila_y <> 0%nat.
Proof.
  do 2 eexists. split; [reflexivity|]. split; [left; reflexivity|].
  apply (X18_deleted_turno_is_in_no_listing tabla_xy tabla_xy_alcanzable
           0%nat fila_1 entorno_ej 0%nat eq_refl
           dia_utc (consulta_sala "A2") entorno_ej _ _ _ _ eq_refl).
  left. reflexivity.
Defined.

(* ================================================================== *)
(** ** getDisponibilidadSala *)

(** On two ranges with start before end, the three cases of the query
    amount to the half-open intersection test. *)
Lemma tres_casos_interseca fi ff s e :
  fi < ff -> s < e -> tres_casos fi ff s e = interseca fi ff s e.
Proof.
  intros H1 H2. unfold tres_casos, interseca.
  rewrite !Z.gtb_ltb, !Z.geb_leb.
  destruct (fi <=? s) eqn:A, (s <? ff) eqn:B, (fi <? e) eqn:C,
           (e <=? ff) eqn:D, (s <=? fi) eqn:E, (ff <=? e) eqn:F;
    cbn; try reflexivity; lia.
Qed.

Lemma map_M_a_horario_lanza x l env w :
  map_M a_horario (x :: l) env w = (Lanza ERR_TYPE_UNDEFINED, w).
Proof. reflexivity. Qed.

Lemma getDisponibilidadSala_run sala_ fi ff env w :
  getDisponibilidadSala sala_ (Fecha fi) (Fecha ff) env w
  = match filter (where_disponibilidad sala_ fi ff) (tabla w) with
    | [] => (Normal {| disponible := true; turnosExistentes := [] |}, w)
    | _ :: _ => (Lanza ERR_TYPE_UNDEFINED, w)
    end.
Proof.
  unfold getDisponibilidadSala, try_catch.
  unfold bind at 1. unfold leer_tabla. unfold bind at 1. unfold leer_peliculas.
  pose proof (length_ordenar (filter (where_disponibilidad sala_ fi ff) (tabla w)))
    as Hlen.
  destruct (filter (where_disponibilidad sala_ fi ff) (tabla w)) as [|c l].
  - reflexivity.
  - destruct (ordenar_por_inicio (c :: l)) as [|x l'] eqn:E; [discriminate Hlen|].
    cbn [map]. unfold bind at 1. rewrite map_M_a_horario_lanza. reflexivity.
Qed.

(** X19 (what the availability helper can answer).  Whatever its
    arguments, [getDisponibilidadSala] never answers that a room is not
    available: a result it returns says [disponible] with an empty list.
    On a table all of whose rows have start before end and for a range
    with start before end, it returns that result exactly when no live
    ACTIVO or INACTIVO row of the room intersects the half-open range, and
    otherwise throws the type error of reading [getTime] of a field that
    the query does not select. *)
Theorem X19_getDisponibilidadSala_answers_free_or_throws :
  forall sala_ env w,
    (forall a b d w',
        getDisponibilidadSala sala_ a b env w = (Normal d, w') ->
        disponible d = true /\ turnosExistentes d = [] /\ w' = w)
    /\ (forall fi ff,
          filas_no_vacias (tabla w) -> fi < ff ->
          ((forall c, In c (tabla w) -> sala c = sala_ ->
                      en_activo_inactivo (estado c) = true -> eliminadoEn c = None ->
                      ~ (fi < fin c /\ inicio c < ff)) ->
           getDisponibilidadSala sala_ (Fecha fi) (Fecha ff) env w
           = (Normal {| disponible := true; turnosExistentes := [] |}, w))
          /\ ((exists c, In c (tabla w) /\ sala c = sala_
                         /\ en_activo_inactivo (estado c) = true
                         /\ eliminadoEn c = None
                         /\ fi < fin c /\ inicio c < ff) ->
              getDisponibilidadSala sala_ (Fecha fi) (Fecha ff) env w
              = (Lanza ERR_TYPE_UNDEFINED, w))).
Proof.
  intros sala_ env w. split.
  - intros a b d w'. destruct a as [|fi], b as [|ff]; try discriminate.
    rewrite getDisponibilidadSala_run.
    destruct (filter _ (tabla w)); [|discriminate].
    intros H. injection H as <- <-. repeat split.
  - intros fi ff HI Hlt.
    rewrite getDisponibilidadSala_run. split.
    + intros Hlibre.
      rewrite (filter_nada (where_disponibilidad sala_ fi ff) (tabla w));
        [reflexivity|].
      intros c Hc. destruct (where_disponibilidad sala_ fi ff c) eqn:Hw;
        [|reflexivity].
      exfalso. unfold where_disponibilidad in Hw.
      apply andb_true_iff in Hw as [Hw Hcasos].
      apply andb_true_iff in Hw as [Hw Hlive].
      apply andb_true_iff in Hw as [Hsala Hest].
      apply String.eqb_eq in Hsala.
      rewrite (tres_casos_interseca fi ff (inicio c) (fin c) Hlt
                 (HI c Hc)) in Hcasos.
      unfold interseca in Hcasos. apply andb_true_iff in Hcasos as [H1 H2].
      apply (Hlibre c Hc); auto; try lia.
      destruct (eliminadoEn c); [discriminate|reflexivity].
    + intros (c & Hc & Hsala & Hest & Hnull & H1 & H2).
      assert (Hin : In c (filter (where_disponibilidad sala_ fi ff) (tabla w))).
      { apply filter_In. split; [exact Hc|]. unfold where_disponibilidad.
        rewrite Hsala, String.eqb_refl, Hest, Hnull. cbn [es_null andb].
        rewrite (tres_casos_interseca fi ff (inicio c) (fin c) Hlt
                   (HI c Hc)).
        unfold interseca. apply andb_true_iff. lia. }
      destruct (filter _ (tabla w)); [destruct Hin|reflexivity].
Qed.

Lemma X19_getDisponibilidadSala_answers_free_or_throws_witness :
  getDisponibilidadSala "A1" (Fecha (hora 11)) (Fecha (hora 12)) entorno_ej
    {| tabla := tabla_xy; lecturas := 0 |}
  = (Lanza ERR_TYPE_UNDEFINED, {| tabla := tabla_xy; lecturas := 0 |}).
Proof.
  apply (proj2 (X19_getDisponibilidadSala_answers_free_or_throws
                  "A1" entorno_ej {| tabla := tabla_xy; lecturas := 0 |})
               (hora 11) (hora 12) tabla_xy_no_vacia eq_refl).
  exists fila_1. repeat split; try reflexivity. now left.
Defined.

(* ================================================================== *)
(** ** peliculasController.ts: bulkCreateTurnos and deletePelicula *)

Lemma todos_some_map {A B} (f : A -> option B) l ds :
  todos_some (map f l) = Some ds -> Forall2 (fun x d => f x = Some d) l ds.
Proof.
  revert ds. induction l as [|x l IH]; intros ds; cbn.
  - intros H. injection H as <-. constructor.
  - destruct (f x) as [d|] eqn:E; [|discriminate].
    destruct (todos_some (map f l)) as [ds'|]; [|discriminate].
    cbn. intros H. injection H as <-. constructor; [exact E|now apply IH].
Qed.

(** The rows of one [INSERT]: the statement fails, or it appends one row
    per element, each checked against the table and the rows before it. *)
Lemma insertar_filas_casos ds : forall env w,
  exists res w',
    insertar_filas ds env w = (res, w')
    /\ lecturas w' = lecturas w
    /\ match res with
       | Lanza _ => True
       | Normal n =>
           n = List.length ds
           /\ exists filas,
               tabla w' = (tabla w ++ filas)%list
               /\ Forall2 (fun d c => exists i f,
                             cd_inicio d = Fecha i /\ cd_fin d = Fecha f /\ i <= f
                             /\ c = fila_nueva d i f (id c)) ds filas
               /\ (forall k c, nth_error filas k = Some c ->
                     existsb (conflicto_exclusion c) (tabla w ++ firstn k filas)%list
                     = false)
       end.
Proof.
  induction ds as [|d ds IH]; intros env w; cbn [insertar_filas].
  - do 2 eexists. split; [reflexivity|]. split; [reflexivity|].
    split; [reflexivity|]. exists []. rewrite app_nil_r.
    split; [reflexivity|]. split; [constructor|]. intros [|k] c; discriminate.
  - unfold bind at 1.
    pose proof (prisma_turno_create_run d env w) as HR.
    destruct (prisma_turno_create d env w) as [[fila|e] w1].
    + destruct HR as (i & f & Hi & Hf & Hfila & -> & Hle & Hex).
      destruct (IH env (con_tabla w (tabla w ++ [fila])%list))
        as (res & w2 & Hrun & Hlec & Hres).
      unfold bind. rewrite Hrun. destruct res as [n|e].
      * destruct Hres as (-> & filas & Ht & Hall & Hchk).
        do 2 eexists. split; [reflexivity|]. split; [exact Hlec|].
        split; [reflexivity|]. exists (fila :: filas).
        rewrite con_tabla_tabla in Ht, Hchk.
        split; [rewrite Ht, <- app_assoc; reflexivity|]. split.
        -- constructor; [|exact Hall]. exists i, f. repeat split; auto.
           rewrite Hfila at 1. now rewrite Hfila.
        -- intros [|k] c Hc.
           ++ injection Hc as <-. cbn [firstn]. now rewrite app_nil_r.
           ++ cbn [firstn]. specialize (Hchk k c Hc).
              now rewrite <- app_assoc in Hchk.
      * do 2 eexists. split; [reflexivity|]. split; [exact Hlec|exact I].
    + subst w1. do 2 eexists. split; [reflexivity|]. split; [reflexivity|exact I].
Qed.

(** X20 (a bulk insert for a movie is all or nothing).  [bulkCreateTurnos]
    always answers and never reads the clock.  It answers with an error and
    the table as it was, or with 201 and a count equal to the number of
    items, the table being the old one followed by one row per item, in
    order, for the movie of the path; each new row has passed the
    exclusion constraint against the old rows and the new rows before
    it. *)
Theorem X20_bulkCreateTurnos_all_or_nothing :
  forall porDefecto pid turnos env w,
    exists resp w',
      bulkCreateTurnos porDefecto pid turnos env w = (Normal resp, w')
      /\ lecturas w' = lecturas w
      /\ ((exists r, resp = RpError r /\ tabla w' = tabla w)
          \/ (exists filas,
                resp = RpCuenta 201 (List.length turnos)
                         (numero_a_texto (Z.of_nat (List.length turnos))
                          ++ " turnos creados exitosamente")
                /\ tabla w' = (tabla w ++ filas)%list
                /\ Forall2 (fila_de_dato pid) turnos filas
                /\ (forall k c, nth_error filas k = Some c ->
                      existsb (conflicto_exclusion c) (tabla w ++ firstn k filas)%list
                      = false))).
Proof.
  intros porDefecto pid turnos env w. unfold bulkCreateTurnos, try_catch.
  unfold bind at 1. unfold pelicula_findFirst, bind at 1, leer_peliculas, ret at 1.
  destruct (find _ (peliculas env)) as [p|];
    [|do 2 eexists; split; [reflexivity|]; split; [reflexivity|left; eauto]].
  unfold bind at 1. unfold prisma_turno_createMany.
  destruct (todos_some (map (datos_createMany porDefecto pid) turnos)) as [ds|] eqn:Eds;
    [|do 2 eexists; split; [reflexivity|]; split; [reflexivity|left; eauto]].
  apply todos_some_map in Eds.
  unfold bind at 1. unfold leer_tabla. unfold try_catch.
  destruct (insertar_filas_casos ds env w) as (res & w1 & Hrun & Hlec & Hres).
  rewrite Hrun. destruct res as [n|e].
  - destruct Hres as (-> & filas & Ht & Hall & Hchk).
    assert (Hlen : List.length ds = List.length turnos)
      by (symmetry; eapply Forall2_length; eauto).
    do 2 eexists. split; [reflexivity|]. split; [exact Hlec|]. right.
    exists filas. rewrite Hlen. split; [reflexivity|]. split; [exact Ht|].
    split; [|exact Hchk].
    clear Ht Hchk Hrun Hlen. revert filas Hall.
    induction Eds as [|x d turnos ds Hx _ IH]; intros filas Hall;
      inversion Hall as [|? c ? filas' (i & f & Hi & Hf & Hle & Hc) Hresto]; subst;
      constructor; [|now apply IH].
    unfold datos_createMany in Hx.
    destruct (in_fin x) as [finDate|] eqn:Efin; [|discriminate].
    destruct (match in_estado x with Some e => Some e | None => porDefecto end);
      [|discriminate].
    injection Hx as <-. cbn in Hi, Hf. subst finDate.
    rewrite Hc. unfold fila_de_dato. cbn. repeat split; auto.
  - unfold bind, escribir_tabla, throw, ret.
    do 2 eexists. split; [reflexivity|]. split; [exact Hlec|left; eauto].
Qed.

(** X21 (a bulk insert for a movie checks no duration).  An item for a
    live movie whose start is not after its end is stored by
    [bulkCreateTurnos] whenever the exclusion constraint lets it in:
    neither the instant of the request, nor the duration of the movie, nor
    the 240-minute maximum is looked at. *)
Theorem X21_bulkCreateTurnos_checks_no_duration :
  forall porDefecto pid x env w p i f est,
    find (fun y => String.eqb (pel_id y) pid && es_null (pel_eliminadoEn y))
         (peliculas env) = Some p ->
    in_inicio x = Fecha i -> in_fin x = Some (Fecha f) -> i <= f ->
    match in_estado x with Some e => Some e | None => porDefecto end = Some est ->
    let fila :=
      {| id := List.length (tabla w); peliculaId := pid; sala := in_sala x;
         inicio := i; fin := f; precio := in_precio x; idioma := in_idioma x;
         formato := in_formato x; aforo := in_aforo x; estado := est;
         eliminadoEn := None; actualizadoEn := None |} in
    existsb (conflicto_exclusion fila) (tabla w) = false ->
    bulkCreateTurnos porDefecto pid [x] env w
    = (Normal (RpCuenta 201 1 "1 turnos creados exitosamente"),
       con_tabla w (tabla w ++ [fila])%list).
Proof.
  intros porDefecto pid x env w p i f est Hp Hi Hf Hle Hest fila Hex.
  unfold bulkCreateTurnos, try_catch.
  unfold bind at 1. unfold pelicula_findFirst, bind at 1, leer_peliculas, ret at 1.
  rewrite Hp. unfold bind at 1. unfold prisma_turno_createMany.
  cbn [map]. unfold datos_createMany. rewrite Hf, Hest. cbn [todos_some option_map].
  unfold bind at 1. unfold leer_tabla. unfold try_catch.
  cbn [insertar_filas]. unfold bind at 1.
  destruct (pelicula_findFirst_relacion _ _ _ Hp) as [p' Hp'].
  rewrite (prisma_turno_create_ok _ i f p' env w);
    [reflexivity|exact Hi|reflexivity|exact Hle|exact Hex|exact Hp'].
Qed.

Lemma X21_bulkCreateTurnos_checks_no_duration_witness :
  bulkCreateTurnos (Some ACTIVO) "p90" [pedido_largo] entorno_ej mundo_vacio
  = (Normal (RpCuenta 201 1 "1 turnos creados exitosamente"),
     con_tabla mundo_vacio
       [ {| id := 0; peliculaId := "p90"; sala := "A1";
            inicio := hora (-20); fin := hora (-10); precio := 5 # 1;
            idioma := DOBLADO; formato := DOS_D; aforo := 100; estado := ACTIVO;
            eliminadoEn := None; actualizadoEn := None |} ]).
Proof.
  apply (X21_bulkCreateTurnos_checks_no_duration (Some ACTIVO) "p90" pedido_largo entorno_ej
           mundo_vacio pelicula_90 (hora (-20)) (hora (-10)) ACTIVO);
    try reflexivity.
  vm_compute. discriminate.
Defined.

Lemma find_tras_marcar pid a ps :
  find (fun x => String.eqb (pel_id x) pid && es_null (pel_eliminadoEn x))
       (marcar_eliminada pid a ps) = None.
Proof.
  induction ps as [|p ps IH]; [reflexivity|]. cbn [marcar_eliminada map find].
  destruct (String.eqb (pel_id p) pid) eqn:E.
  - cbn [pel_id pel_eliminadoEn es_null]. rewrite E. cbn [andb]. exact IH.
  - rewrite E. cbn [andb]. exact IH.
Qed.

Lemma contar_vivos_cero pid t :
  contar_turnos_vivos pid t = 0%nat <->
  forall c, In c t -> peliculaId c = pid -> eliminadoEn c <> None.
Proof.
  unfold contar_turnos_vivos. rewrite length_zero_iff_nil. split.
  - intros Hnil c Hc Hid Hnull.
    assert (Hin : In c (filter (fun r => String.eqb (peliculaId r) pid
                                         && es_null (eliminadoEn r)) t)).
    { apply filter_In. split; [exact Hc|].
      now rewrite Hid, String.eqb_refl, Hnull. }
    rewrite Hnil in Hin. destruct Hin.
  - intros H. apply filter_nada. intros c Hc.
    destruct (String.eqb (peliculaId c) pid) eqn:E; [|reflexivity].
    apply String.eqb_eq in E. specialize (H c Hc E).
    destruct (eliminadoEn c); [reflexivity|contradiction].
Qed.

(** X22 (deleting a movie).  [deletePelicula] answers 404 MOVIE_NOT_FOUND
    for a movie that is absent or already deleted; 409
    HAS_ACTIVE_SCHEDULES, the catalogue staying as it was, when some turno
    of the movie is not soft-deleted, whatever its [estado]; and otherwise
    200, the movie being marked with the instant read from the clock.
    After that answer a [createTurno] for the movie is answered 404
    PELICULA_NOT_FOUND and a second delete 404 MOVIE_NOT_FOUND.  The table
    of turnos is never written. *)
Theorem X22_deletePelicula_blocked_by_live_turnos :
  forall pid env w,
    (find (fun x => String.eqb (pel_id x) pid && es_null (pel_eliminadoEn x))
          (peliculas env) = None ->
     deletePelicula pid env w
     = (Normal (RpError (RespError 404 "MOVIE_NOT_FOUND" "Película no encontrada"),
                peliculas env), w))
    /\ (forall p,
          find (fun x => String.eqb (pel_id x) pid && es_null (pel_eliminadoEn x))
               (peliculas env) = Some p ->
          ((exists c, In c (tabla w) /\ peliculaId c = pid /\ eliminadoEn c = None) ->
           deletePelicula pid env w
           = (Normal (RpError (RespError 409 "HAS_ACTIVE_SCHEDULES"
                                 "No se puede eliminar la película porque tiene turnos asociados"),
                      peliculas env), w))
          /\ ((forall c, In c (tabla w) -> peliculaId c = pid -> eliminadoEn c <> None) ->
              let ps' := marcar_eliminada pid (reloj env (lecturas w)) (peliculas env) in
              deletePelicula pid env w
              = (Normal (RpMensaje 200 "Película eliminada exitosamente", ps'), tick w)
              /\ (forall body w2,
                    in_peliculaId body = pid ->
                    createTurno body (con_peliculas env ps') w2
                    = (Normal (RespError 404 "PELICULA_NOT_FOUND"
                                 "Película no encontrada"), w2))
              /\ (forall w2,
                    deletePelicula pid (con_peliculas env ps') w2
                    = (Normal (RpError (RespError 404 "MOVIE_NOT_FOUND"
                                          "Película no encontrada"), ps'), w2)))).
Proof.
  intros pid env w.
  assert (H404 : forall env0 w0,
            find (fun x => String.eqb (pel_id x) pid && es_null (pel_eliminadoEn x))
                 (peliculas env0) = None ->
            deletePelicula pid env0 w0
            = (Normal (RpError (RespError 404 "MOVIE_NOT_FOUND" "Película no encontrada"),
                       peliculas env0), w0)).
  { intros env0 w0 Hnone. unfold deletePelicula.
    unfold bind at 1. unfold leer_peliculas at 1. unfold try_catch.
    unfold bind at 1. unfold pelicula_findFirst, bind at 1, leer_peliculas, ret at 1.
    rewrite Hnone. reflexivity. }
  split; [apply H404|].
  intros p Hp. split.
  - intros (c & Hc & Hid & Hnull).
    unfold deletePelicula.
    unfold bind at 1. unfold leer_peliculas at 1. unfold try_catch.
    unfold bind at 1. unfold pelicula_findFirst, bind at 1, leer_peliculas, ret at 1.
    rewrite Hp. unfold bind at 1. unfold leer_tabla. unfold bind at 1.
    destruct (Nat.ltb 0 (contar_turnos_vivos pid (tabla w))) eqn:E; [reflexivity|].
    exfalso. apply Nat.ltb_ge in E.
    assert (E0 : contar_turnos_vivos pid (tabla w) = 0%nat) by lia.
    apply (proj1 (contar_vivos_cero pid (tabla w)) E0 c Hc Hid Hnull).
  - intros Hnone ps'. split; [|split].
    + unfold deletePelicula.
      unfold bind at 1. unfold leer_peliculas at 1. unfold try_catch.
      unfold bind at 1. unfold pelicula_findFirst, bind at 1, leer_peliculas, ret at 1.
      rewrite Hp. unfold bind at 1. unfold leer_tabla. unfold bind at 1.
      apply contar_vivos_cero in Hnone. rewrite Hnone. reflexivity.
    + intros body w2 Hid. unfold createTurno, try_catch.
      unfold bind at 1. unfold pelicula_findFirst, bind at 1, leer_peliculas, ret at 1.
      cbn [peliculas con_peliculas]. rewrite Hid. unfold ps'.
      rewrite find_tras_marcar. reflexivity.
    + intros w2. apply (H404 (con_peliculas env ps') w2).
      apply find_tras_marcar.
Qed.

Lemma X22_deletePelicula_blocked_by_live_turnos_witness :
  deletePelicula "p90" entorno_ej {| tabla := tabla_xy; lecturas := 0 |}
  = (Normal (RpError (RespError 409 "HAS_ACTIVE_SCHEDULES"
                        "No se puede eliminar la película porque tiene turnos asociados"),
             peliculas entorno_ej), {| tabla := tabla_xy; lecturas := 0 |}).
Proof.
  apply (proj1 (proj2 (X22_deletePelicula_blocked_by_live_turnos
                         "p90" entorno_ej {| tabla := tabla_xy; lecturas := 0 |})
                      pelicula_90 eq_refl)).
  exists fila_1. repeat split. now left.
Defined.

(* ================================================================== *)
(** ** The two ways of creating a turno *)

Lemma createMultipleTurnos_uno x env w :
  createMultipleTurnos [Some x] env w
  = match processTurnoItem (Some x) 0%nat ([], []) env w with
    | (Normal acc, w') => (Normal (respuesta_bulk [Some x] acc), w')
    | (Lanza e, w') => (Normal (errorHandler e), w')
    end.
Proof.
  rewrite createMultipleTurnos_run by (cbn; lia).
  cbn [bucle_turnos]. unfold bind, ret.
  destruct (processTurnoItem (Some x) 0%nat ([], []) env w) as [[acc|e] w']; reflexivity.
Qed.

(** X23 (a bulk request of one item and a single create agree).  When the
    end supplied in the item is the one that [createTurno] computes (start
    plus duration of the movie plus the 15-minute buffer), a bulk request
    made of that item alone and a single create of it leave the same table
    and the same clock; the single create answers 201 with a row exactly
    when the bulk request reports that row as its only created turno, and
    answers an error exactly when the bulk request reports one error entry
    for index 0. *)
Theorem X23_bulk_of_one_agrees_with_createTurno :
  forall x env w,
    (forall p,
        find (fun y => String.eqb (pel_id y) (in_peliculaId x)
                       && es_null (pel_eliminadoEn y)) (peliculas env) = Some p ->
        in_fin x = Some (calcular_fin (in_inicio x) (duracionMin p))) ->
    exists resp acc w',
      createTurno x env w = (Normal resp, w')
      /\ createMultipleTurnos [Some x] env w = (Normal (respuesta_bulk [Some x] acc), w')
      /\ match resp with
         | RespTurno st t _ => st = 201 /\ acc = ([t], [])
         | RespError _ _ _ =>
             exists m, acc = ([], [{| ei_index := 0; ei_error := m; ei_data := x |}])
         | _ => False
         end.
Proof.
  intros x env w Hfin. rewrite createMultipleTurnos_uno.
  destruct (find (fun y => String.eqb (pel_id y) (in_peliculaId x)
                           && es_null (pel_eliminadoEn y)) (peliculas env))
    as [p|] eqn:Hp.
  2:{ assert (Hc : createTurno x env w
                   = (Normal (RespError 404 "PELICULA_NOT_FOUND" "Película no encontrada"),
                      w)).
      { unfold createTurno, try_catch.
        unfold bind at 1. unfold pelicula_findFirst, bind at 1, leer_peliculas, ret at 1.
        rewrite Hp. reflexivity. }
      assert (Hb : processTurnoItem (Some x) 0%nat ([], []) env w
                   = (Normal (push_error ([], []) 0%nat (Some "Película no encontrada") x),
                      w)).
      { unfold processTurnoItem; cbv iota beta.
        unfold bind at 1. unfold pelicula_findFirst, bind at 1, leer_peliculas, ret at 1.
        rewrite Hp. reflexivity. }
      rewrite Hc, Hb.
      do 3 eexists. split; [reflexivity|]. split; [reflexivity|]. eexists. reflexivity. }
  specialize (Hfin p eq_refl).
  destruct (valido (veredicto (in_inicio x) (calcular_fin (in_inicio x) (duracionMin p))
                      (duracionMin p) (reloj env (lecturas w)))) eqn:Hv.
  - pose proof Hv as Hv'.
    apply veredicto_valido in Hv' as (i & f & Hi & Hf & Hlt & _).
    rewrite Hf in Hfin. rewrite Hf, Hi in Hv.
    rewrite Hi in Hf.
    destruct (valido (veredicto_solape env (tabla w) (in_sala x) i f None)) eqn:Hov.
    + destruct (existsb (conflicto_exclusion (candidata x i f w)) (tabla w)) eqn:Hex.
      * rewrite (createTurno_rechazo_storage x env w p i f Hp Hi Hf Hv Hov Hex).
        rewrite (processTurnoItem_rechazo_storage x 0%nat ([], []) env w p i f
                   Hp Hi Hfin Hv Hov Hex).
        do 3 eexists. split; [reflexivity|]. split; [reflexivity|].
        eexists. reflexivity.
      * rewrite (createTurno_ok x env w p i f Hp Hi Hf Hv Hov Hex).
        rewrite (processTurnoItem_ok x 0%nat ([], []) env w p i f Hp Hi Hfin Hv Hov Hex).
        do 3 eexists. split; [reflexivity|]. split; [reflexivity|].
        split; reflexivity.
    + destruct (createTurno_rechazo_precheck x env w p i f Hp Hi Hf Hv Hov) as [m Hm].
      rewrite Hm.
      rewrite (processTurnoItem_rechazo_precheck x 0%nat ([], []) env w p i f
                 Hp Hi Hfin Hv Hov).
      do 3 eexists. split; [reflexivity|]. split; [reflexivity|].
      eexists. reflexivity.
  - set (w1 := tras_duracion (in_inicio x)
                   (calcular_fin (in_inicio x) (duracionMin p)) w).
    assert (Hc : exists st c m,
               createTurno x env w = (Normal (RespError st c m), w1)).
    { unfold createTurno, try_catch.
      unfold bind at 1. unfold pelicula_findFirst, bind at 1, leer_peliculas, ret at 1.
      rewrite Hp. unfold bind at 1. rewrite validateTurnoDuration_run, Hv.
      unfold bind at 1. cbn [negb throw_if throw].
      match goal with
      | |- context [es_conflicto_db ?e] => destruct (es_conflicto_db e)
      end; unfold next, ret, errorHandler; do 3 eexists; reflexivity. }
    assert (Hb : exists m,
               processTurnoItem (Some x) 0%nat ([], []) env w
               = (Normal (push_error ([], []) 0%nat m x), w1)).
    { unfold processTurnoItem; cbv iota beta.
      unfold bind at 1. unfold pelicula_findFirst, bind at 1, leer_peliculas, ret at 1.
      rewrite Hp. unfold bind at 1. rewrite Hfin. cbn [o_else].
      rewrite validateTurnoDuration_run, Hv. cbn [negb].
      eexists. reflexivity. }
    destruct Hc as (st & c & m & Hc). destruct Hb as (m' & Hb).
    rewrite Hc, Hb.
    do 3 eexists. split; [reflexivity|]. split; [reflexivity|]. eexists. reflexivity.
Qed.

Lemma X23_bulk_of_one_agrees_with_createTurno_witness :
  exists resp acc w',
    createTurno (pedido "p90" "A1" (hora 10) (Some (Fecha (hora 10 + minutos 105))))
      entorno_ej mundo_vacio = (Normal resp, w')
    /\ createMultipleTurnos
         [Some (pedido "p90" "A1" (hora 10) (Some (Fecha (hora 10 + minutos 105))))]
         entorno_ej mundo_vacio
       = (Normal (respuesta_bulk
                    [Some (pedido "p90" "A1" (hora 10)
                             (Some (Fecha (hora 10 + minutos 105))))]
                    acc), w')
    /\ match resp with
       | RespTurno st t _ => st = 201 /\ acc = ([t], [])
       | RespError _ _ _ =>
           exists m,
             acc = ([], [{| ei_index := 0; ei_error := m;
                            ei_data := pedido "p90" "A1" (hora 10)
                                         (Some (Fecha (hora 10 + minutos 105))) |}])
       | _ => False
       end.
Proof.
  apply (X23_bulk_of_one_agrees_with_createTurno
           (pedido "p90" "A1" (hora 10) (Some (Fecha (hora 10 + minutos 105))))
           entorno_ej mundo_vacio).
  intros p H. vm_compute in H. injection H as <-. reflexivity.
Defined.

(* ================================================================== *)
(** ** The table under each of the five writes *)

(** [bulkCreateTurnos] leaves the rows of the table where they were. *)
Lemma bulkCreateTurnos_tabla porDefecto pid turnos env w :
  exists filas,
    tabla (snd (bulkCreateTurnos porDefecto pid turnos env w))
    = (tabla w ++ filas)%list.
Proof.
  unfold bulkCreateTurnos, try_catch.
  unfold bind at 1. unfold pelicula_findFirst, bind at 1, leer_peliculas, ret at 1.
  destruct (find _ (peliculas env)) as [p|];
    [|exists []; cbn; now rewrite app_nil_r].
  unfold bind at 1. unfold prisma_turno_createMany.
  destruct (todos_some (map (datos_createMany porDefecto pid) turnos)) as [ds|];
    [|exists []; cbn; now rewrite app_nil_r].
  unfold bind at 1. unfold leer_tabla. unfold try_catch.
  destruct (insertar_filas_casos ds env w) as (res & w1 & Hrun & _ & Hres).
  rewrite Hrun. destruct res as [n|e].
  - destruct Hres as (_ & filas & Ht & _). exists filas. exact Ht.
  - exists []. cbn. now rewrite app_nil_r.
Qed.

(** No write touches a row whose [eliminadoEn] is set. *)
Lemma escritura_conserva_borradas e env w k r :
  Inv_total (tabla w) ->
  nth_error (tabla w) k = Some r -> eliminadoEn r <> None ->
  nth_error (tabla_tras e env w) k = Some r.
Proof.
  intros HI Hk Hdel. destruct e as [op|porDefecto pid turnos]; cbn [tabla_tras].
  - apply (pasos_conserva_borradas (tabla w)); auto.
    + now apply ejecutar_pasos.
    + exact (it_ids _ HI).
  - destruct (bulkCreateTurnos_tabla porDefecto pid turnos env w) as [filas ->].
    rewrite nth_error_app1; [exact Hk|]. apply nth_error_Some. congruence.
Qed.

Lemma alcanzable_desde_trans a b c :
  alcanzable_desde a b -> alcanzable_desde b c -> alcanzable_desde a c.
Proof.
  intros Hab Hbc. induction Hbc as [|t e env n _ IH]; [exact Hab|].
  now apply ad_paso.
Qed.

Lemma nth_error_de_id t i r :
  ids_en_orden t -> In r t -> id r = i -> nth_error t i = Some r.
Proof.
  intros Hids Hin Hid. apply In_nth_error in Hin as [k Hk].
  pose proof (Hids k r Hk). now replace i with k by congruence.
Qed.

Lemma tabla_vacia_alcanzable_total : alcanzable_total [fila_1; fila_vacia].
Proof.
  change [fila_1; fila_vacia] with
    (tabla_tras (EsPelicula None "p60" [item_vacio]) entorno_ej
       {| tabla := [fila_1]; lecturas := 0 |}).
  apply ad_paso. apply alcanzable_es_total. exact tabla_una_alcanzable.
Qed.

(* ================================================================== *)
(** ** Claims C1 and C10, and the invariants of the reachable tables *)

(** C1 (a row stored inside another).  [bulkCreateTurnos] validates
    nothing of what it inserts.  On the table of scenario 1 (room "A1",
    10:00 to 11:45, ACTIVO) a request for movie "p60" with one item in
    room "A1" whose start and end are both 11:00 is answered 201 and the
    row is stored: its range is empty, so the exclusion constraint lets it
    pass.  The table reached holds two distinct ACTIVO rows of room "A1",
    not soft-deleted, with a.start < b.end and b.start < a.end. *)
Theorem C1_bulkCreateTurnos_stores_a_row_inside_another :
  (forall porDefecto,
      bulkCreateTurnos porDefecto "p60" [item_vacio] entorno_ej
        {| tabla := [fila_1]; lecturas := 0 |}
      = (Normal (RpCuenta 201 1 "1 turnos creados exitosamente"),
         {| tabla := [fila_1; fila_vacia]; lecturas := 0 |}))
  /\ alcanzable_total [fila_1; fila_vacia]
  /\ id fila_1 <> id fila_vacia
  /\ sala fila_1 = sala fila_vacia
  /\ en_activo_inactivo (estado fila_1) = true
  /\ en_activo_inactivo (estado fila_vacia) = true
  /\ eliminadoEn fila_1 = None /\ eliminadoEn fila_vacia = None
  /\ (inicio fila_1 < fin fila_vacia /\ inicio fila_vacia < fin fila_1).
Proof.
  split; [intros porDefecto; reflexivity|].
  split; [exact tabla_vacia_alcanzable_total|].
  repeat split; try reflexivity. discriminate.
Qed.

(** X25 (mutual exclusion under the writes of turnosController.ts).  In
    every table reached from the empty schedule by createTurno,
    updateTurno, deleteTurno and createMultipleTurnos alone, two distinct
    stored rows of the same room, both ACTIVO or INACTIVO and not
    soft-deleted, have non-intersecting half-open ranges:
    NOT (a.start < b.end AND b.start < a.end).  [bulkCreateTurnos] of
    peliculasController.ts is not among these writes. *)
Theorem X25_mutual_exclusion_under_turnosController :
  forall t, alcanzable t ->
  forall j k a b,
    nth_error t j = Some a -> nth_error t k = Some b -> j <> k ->
    sala a = sala b ->
    en_activo_inactivo (estado a) = true -> en_activo_inactivo (estado b) = true ->
    eliminadoEn a = None -> eliminadoEn b = None ->
    ~ (inicio a < fin b /\ inicio b < fin a).
Proof.
  intros t Halc j k a b Ha Hb Hjk Hs _ _ _ _.
  pose proof (alcanzable_Inv t Halc) as HI.
  apply (inv_excl t HI a b).
  - eapply nth_error_In; eauto.
  - eapply nth_error_In; eauto.
  - rewrite (inv_ids t HI j a Ha), (inv_ids t HI k b Hb). exact Hjk.
  - exact Hs.
Qed.

Lemma X25_mutual_exclusion_under_turnosController_witness :
  alcanzable tabla_dos /\ ~ (inicio fila_1 < fin fila_2 /\ inicio fila_2 < fin fila_1).
Proof.
  split; [exact tabla_dos_alcanzable|].
  apply (X25_mutual_exclusion_under_turnosController tabla_dos tabla_dos_alcanzable
           0%nat 1%nat fila_1 fila_2);
    try reflexivity.
  discriminate.
Defined.

(** X26 (what holds under all five writes).  In every table reached from
    the empty schedule by the four writes of turnosController.ts and
    [bulkCreateTurnos] of peliculasController.ts, row [k] has identifier
    [k], no row ends before it starts, and two distinct rows of the same
    room whose windows are both non-empty (start before end) have
    non-intersecting half-open ranges, whatever their [estado] and whether
    soft-deleted or not. *)
Theorem X26_storage_invariant_under_all_writes :
  forall t, alcanzable_total t ->
    (forall k r, nth_error t k = Some r -> id r = k)
    /\ (forall r, In r t -> inicio r <= fin r)
    /\ (forall j k a b,
          nth_error t j = Some a -> nth_error t k = Some b -> j <> k ->
          sala a = sala b -> inicio a < fin a -> inicio b < fin b ->
          ~ (inicio a < fin b /\ inicio b < fin a)).
Proof.
  intros t Halc. pose proof (alcanzable_total_Inv t Halc) as HI.
  split; [exact (it_ids _ HI)|]. split; [exact (it_rango _ HI)|].
  intros j k a b Ha Hb Hjk Hs Hna Hnb.
  apply (sin_conflicto a b); auto.
  apply (it_excl _ HI).
  - eapply nth_error_In; eauto.
  - eapply nth_error_In; eauto.
  - rewrite (it_ids _ HI j a Ha), (it_ids _ HI k b Hb). exact Hjk.
Qed.

Lemma X26_storage_invariant_under_all_writes_witness :
  alcanzable_total [fila_1; fila_vacia]
  /\ id fila_vacia = 1%nat
  /\ inicio fila_vacia <= fin fila_vacia.
Proof.
  split; [exact tabla_vacia_alcanzable_total|].
  pose proof (X26_storage_invariant_under_all_writes [fila_1; fila_vacia]
                tabla_vacia_alcanzable_total) as (Hids & Hr & _).
  split.
  - exact (Hids 1%nat fila_vacia eq_refl).
  - apply Hr. right. left. reflexivity.
Defined.

(** C10, as stated, fails in its last words: the two lifecycle markers do
    not always move together.  A create whose body asks for [estado]
    CANCELADO stores a row with that [estado] and a null [eliminadoEn];
    and an update whose patch is [estado] CANCELADO moves the [estado] of
    a live row and leaves its [eliminadoEn] null. *)
Lemma C10_estado_moves_without_eliminadoEn :
  createTurno pedido_cancelado entorno_ej mundo_vacio
  = (Normal (RespTurno 201 fila_cancelada "Turno creado exitosamente"),
     {| tabla := [fila_cancelada]; lecturas := 1 |})
  /\ estado fila_cancelada = CANCELADO /\ eliminadoEn fila_cancelada = None
  /\ (exists nueva,
        updateTurno 0 (solo_estado CANCELADO) entorno_ej
          {| tabla := [fila_1]; lecturas := 0 |}
        = (Normal (RespTurno 200 nueva "Turno actualizado exitosamente"),
           {| tabla := [nueva]; lecturas := 1 |})
        /\ estado fila_1 = ACTIVO
        /\ estado nueva = CANCELADO /\ eliminadoEn nueva = None).
Proof.
  split; [reflexivity|]. split; [reflexivity|]. split; [reflexivity|].
  eexists. split; [reflexivity|]. repeat split.
Qed.

(** C10 (amended).  In every table reached from the empty schedule by the
    five writes, deleteTurno of a live row succeeds and writes, in one
    update, [eliminadoEn] = the instant read from the clock and [estado] =
    CANCELADO, the columns of the request body and every other row
    unchanged; and after any later sequence of the five writes the row is
    still in its place exactly as the delete left it, so an interval
    deleted through deleteTurno never has a non-null [eliminadoEn] without
    [estado] CANCELADO. *)
Theorem C10_soft_delete_sets_both_markers :
  forall t, alcanzable_total t ->
  forall i r env n,
    find (fun x => Nat.eqb (id x) i && es_null (eliminadoEn x)) t = Some r ->
    let nueva := borrada (reloj env n) r in
    let t1 := reemplazar i nueva t in
    deleteTurno i env {| tabla := t; lecturas := n |}
    = (Normal (RespMensaje 200 "Turno eliminado exitosamente"),
       {| tabla := t1; lecturas := S n |})
    /\ eliminadoEn nueva = Some (reloj env n)
    /\ estado nueva = CANCELADO
    /\ (id nueva, peliculaId nueva, sala nueva, inicio nueva, fin nueva,
        precio nueva, idioma nueva, formato nueva, aforo nueva)
       = (id r, peliculaId r, sala r, inicio r, fin r,
          precio r, idioma r, formato r, aforo r)
    /\ (forall k x, k <> i -> nth_error t k = Some x -> nth_error t1 k = Some x)
    /\ (forall t2, alcanzable_desde t1 t2 -> nth_error t2 i = Some nueva).
Proof.
  intros t Halc i r env n Hfind nueva t1.
  pose proof (alcanzable_total_Inv t Halc) as HI.
  pose proof (deleteTurno_run i r env {| tabla := t; lecturas := n |} HI Hfind)
    as Hrun.
  pose proof (findFirst_In _ _ _ Hfind) as (Hin & Hid & _).
  split; [exact Hrun|]. split; [reflexivity|]. split; [reflexivity|].
  split; [reflexivity|]. split.
  - intros k x Hk Hx. unfold t1, reemplazar. rewrite nth_error_map, Hx. cbn.
    rewrite (it_ids _ HI k x Hx).
    destruct (Nat.eqb k i) eqn:E; [apply Nat.eqb_eq in E; contradiction|reflexivity].
  - assert (Ht1 : alcanzable_total t1).
    { replace t1 with (tabla_tras (EsTurnos (OpDelete i)) env
                         {| tabla := t; lecturas := n |})
        by (cbn [tabla_tras ejecutar]; now rewrite Hrun).
      now apply ad_paso. }
    assert (H1 : nth_error t1 i = Some nueva).
    { unfold t1, reemplazar.
      rewrite nth_error_map, (nth_error_de_id t i r (it_ids _ HI) Hin Hid). cbn.
      now rewrite Hid, Nat.eqb_refl. }
    intros t2 H12. induction H12 as [|t2 e env2 n2 H12 IH]; [exact H1|].
    apply escritura_conserva_borradas.
    + apply alcanzable_total_Inv. exact (alcanzable_desde_trans _ _ _ Ht1 H12).
    + exact IH.
    + discriminate.
Qed.

Lemma C10_soft_delete_sets_both_markers_witness :
  alcanzable_total [fila_1]
  /\ deleteTurno 0 entorno_ej {| tabla := [fila_1]; lecturas := 0 |}
     = (Normal (RespMensaje 200 "Turno eliminado exitosamente"),
        {| tabla := [fila_1_borrada]; lecturas := 1 |})
  /\ nth_error
       (tabla_tras (EsTurnos (OpUpdate 0 (solo_sala "A2"))) entorno_ej
          {| tabla := [fila_1_borrada]; lecturas := 1 |}) 0
     = Some fila_1_borrada.
Proof.
  assert (H : alcanzable_total [fila_1])
    by (apply alcanzable_es_total; exact tabla_una_alcanzable).
  pose proof (C10_soft_delete_sets_both_markers [fila_1] H 0%nat fila_1 entorno_ej
                0%nat eq_refl) as (Hrun & _ & _ & _ & _ & Hdespues).
  split; [exact H|]. split; [exact Hrun|].
  apply (Hdespues (tabla_tras (EsTurnos (OpUpdate 0 (solo_sala "A2"))) entorno_ej
                     {| tabla := [fila_1_borrada]; lecturas := 1 |})).
  apply (ad_paso _ _ (EsTurnos (OpUpdate 0 (solo_sala "A2"))) entorno_ej 1%nat).
  apply ad_aqui.
Defined.

(* ================================================================== *)
(** ** Claim C4: the end of a created turno *)

(** C4, as stated, fails for a create sent through the bulk endpoint: the
    candidate of scenario 1 (start 10:00, end 12:00 supplied, movie of 90
    minutes) sent as the only item of createMultipleTurnos is stored with
    end 12:00, not 11:45. *)
Lemma C4_bulk_create_keeps_the_supplied_end :
  createMultipleTurnos [Some pedido_1] entorno_ej mundo_vacio
  = (Normal (RespBulk 201 [fila_12] [] 1 1 0 "1 turnos creados exitosamente"),
     {| tabla := [fila_12]; lecturas := 1 |})
  /\ in_inicio pedido_1 = Fecha (hora 10)
  /\ pelicula_de (peliculas entorno_ej) (in_peliculaId pedido_1) = Some pelicula_90
  /\ fin fila_12 = hora 12
  /\ fin fila_12 <> hora 10 + minutos (duracionMin pelicula_90 + 15).
Proof.
  split; [reflexivity|]. repeat split. discriminate.
Qed.

(** C4 (amended).  For every createTurno that succeeds, the persisted row
    starts at the requested start and ends at start + (duracionMin + 15)
    minutes, duracionMin being the duration of the parent movie; the
    response and the table do not depend on an end supplied by the caller.
    A row stored by createMultipleTurnos ends at the end supplied in its
    item, which the duration validation has accepted: the window holds
    the duration of the movie plus the 15-minute buffer and at most 240
    minutes. *)
Theorem C4_create_end_is_start_plus_duration_plus_buffer :
  (forall body env w st turno msg,
      fst (createTurno body env w) = Normal (RespTurno st turno msg) ->
      (exists p s,
          find (fun x => String.eqb (pel_id x) (in_peliculaId body)
                         && es_null (pel_eliminadoEn x)) (peliculas env) = Some p
          /\ in_inicio body = Fecha s
          /\ inicio turno = s
          /\ fin turno = s + minutos (duracionMin p + 15)
          /\ In turno (tabla (snd (createTurno body env w))))
      /\ (forall finCaller,
            createTurno
              {| in_peliculaId := in_peliculaId body; in_sala := in_sala body;
                 in_inicio := in_inicio body; in_fin := finCaller;
                 in_precio := in_precio body; in_idioma := in_idioma body;
                 in_formato := in_formato body; in_aforo := in_aforo body;
                 in_estado := in_estado body |} env w
            = createTurno body env w))
  /\ (forall turnos env w c,
        In c (tabla (snd (createMultipleTurnos turnos env w))) ->
        ~ In c (tabla w) ->
        exists x p,
          In (Some x) turnos
          /\ In p (peliculas env) /\ pel_id p = in_peliculaId x
          /\ pel_eliminadoEn p = None
          /\ in_inicio x = Fecha (inicio c)
          /\ in_fin x = Some (Fecha (fin c))
          /\ duracionMin p + 15 <= (fin c - inicio c) / 60000 <= 240).
Proof.
  split.
  - intros body env w st turno msg H. split.
    + apply createTurno_exito in H as (p & s & Hp & Hs & Ht & Htab & _).
      exists p, s. repeat split; auto.
      * now subst turno.
      * subst turno. cbn [fila_nueva fin]. unfold minutos. lia.
      * rewrite Htab. apply in_or_app. right. now left.
    + intros finCaller. reflexivity.
  - intros turnos env w c Hc Hnuevo.
    destruct (createMultipleTurnos_origen turnos env w c Hc)
      as [Hold|(x & Hx & Hi & Hf & _ & Hpid & p & Hp & Hpel & Hnull & Hdur)];
      [contradiction|].
    exists x, p. repeat split; auto; try congruence; lia.
Qed.

Lemma C4_create_end_is_start_plus_duration_plus_buffer_witness :
  fst (createTurno pedido_1 entorno_ej mundo_vacio)
  = Normal (RespTurno 201 fila_1 "Turno creado exitosamente")
  /\ in_fin pedido_1 = Some (Fecha (hora 12))
  /\ (exists p s,
        find (fun x => String.eqb (pel_id x) (in_peliculaId pedido_1)
                       && es_null (pel_eliminadoEn x)) (peliculas entorno_ej) = Some p
        /\ in_inicio pedido_1 = Fecha s
        /\ inicio fila_1 = s
        /\ fin fila_1 = s + minutos (duracionMin p + 15)
        /\ In fila_1 (tabla (snd (createTurno pedido_1 entorno_ej mundo_vacio))))
  /\ (exists x p,
        In (Some x) [Some pedido_1]
        /\ In p (peliculas entorno_ej) /\ pel_id p = in_peliculaId x
        /\ pel_eliminadoEn p = None
        /\ in_inicio x = Fecha (inicio fila_12)
        /\ in_fin x = Some (Fecha (fin fila_12))
        /\ duracionMin p + 15 <= (fin fila_12 - inicio fila_12) / 60000 <= 240).
Proof.
  split; [reflexivity|]. split; [reflexivity|]. split.
  - exact (proj1 (proj1 C4_create_end_is_start_plus_duration_plus_buffer
                    pedido_1 entorno_ej mundo_vacio 201 fila_1
                    "Turno creado exitosamente" eq_refl)).
  - apply (proj2 C4_create_end_is_start_plus_duration_plus_buffer
             [Some pedido_1] entorno_ej mundo_vacio fila_12).
    + left. reflexivity.
    + intros [].
Defined.
